(** * Attack-pattern analysis engine ([ml_analyzer.py]): a shallow embedding

    The development follows the module top to bottom: the event table and its
    cells, [preprocess_data], the five fit/analyze methods of
    [AttackPatternAnalyzer], and [train_models_on_attack_data]; then
    [predict_attack_likelihood] and the model store ([load_model],
    [get_available_models]), and the part of [database_manager.py] the
    orchestrator calls ([get_attacks], [attacks_to_dataframe]).

    Conventions.
    - A pandas [DataFrame] is a list of column names together with a list of
      rows; a row carries one cell for every column the analyzer ever reads
      or writes, and the cells of a column that is not listed are not
      observable.  Other columns (['id'], ['source'], ...) appear by name only.
    - Instants are integers counting nanoseconds since the epoch (pandas'
      [datetime64[ns]]); they are taken unbounded, and arithmetic on them
      does not overflow.  A duration built from an integer argument has the
      limits of [timedelta] and of [timedelta64[ns]]: building it can raise.
    - Floating-point cells and scores are exact rationals ([Q]); a missing
      value (NaN / None) is [None].
    - scikit-learn, numpy's FFT, joblib and the wall clock are external: they
      are the fields of a record [Libs], total functions that may raise; the
      classifier interface and the files under models/ are those of
      [StoreLibs].
    - The table [attacks] is the list of its rows as a query returns them. *)

From Stdlib Require Import List ZArith QArith Qabs Qround String Ascii Bool Lia Lqa.
From Stdlib Require Import Permutation Sorted DecimalString.
Import ListNotations.

Local Open Scope string_scope.
Local Open Scope list_scope.
Local Open Scope Z_scope.

(* ------------------------------------------------------------------ *)
(** ** List helpers standing for Python / pandas primitives *)

Section ListHelpers.
Context {A : Type}.

(** [x in l] for a list of strings is [mem_str]; the generic version takes
    the equality test. *)
Definition memb (eqb : A -> A -> bool) (x : A) (l : list A) : bool :=
  existsb (eqb x) l.

(** Distinct elements in order of first appearance ([Series.unique]). *)
Fixpoint unique (eqb : A -> A -> bool) (l : list A) : list A :=
  match l with
  | [] => []
  | x :: t => x :: filter (fun y => negb (eqb x y)) (unique eqb t)
  end.

(** Insertion into a list ordered by [leb]; [x] goes before the first
    element it is [leb] to. *)
Fixpoint insert_by (leb : A -> A -> bool) (x : A) (l : list A) : list A :=
  match l with
  | [] => [x]
  | y :: t => if leb x y then x :: y :: t else y :: insert_by leb x t
  end.

(** Stable sort: equal elements keep their original order, as Python's
    [list.sort] and [sorted] do (also with [reverse=True]). *)
Definition sort_by (leb : A -> A -> bool) (l : list A) : list A :=
  fold_right (insert_by leb) [] l.

Definition count_if (p : A -> bool) (l : list A) : Z :=
  Z.of_nat (List.length (filter p l)).
End ListHelpers.

Definition mem_str (x : string) (l : list string) : bool := memb String.eqb x l.

Definition opt_eqb {A} (eqb : A -> A -> bool) (x y : option A) : bool :=
  match x, y with
  | Some a, Some b => eqb a b
  | None, None => true
  | _, _ => false
  end.

(** Descending stable sort on an integer key:
    [l.sort(key=..., reverse=True)]. *)
Definition sort_desc_Z {A} (key : A -> Z) (l : list A) : list A :=
  sort_by (fun x y => key y <=? key x) l.

(** Descending stable sort on a rational key. *)
Definition sort_desc_Q {A} (key : A -> Q) (l : list A) : list A :=
  sort_by (fun x y => Qle_bool (key y) (key x)) l.

Definition sort_asc_Z {A} (key : A -> Z) (l : list A) : list A :=
  sort_by (fun x y => key x <=? key y) l.

(** Largest / smallest element of a non-empty list of integers. *)
Definition max_Z (x : Z) (l : list Z) : Z := fold_left Z.max l x.
Definition min_Z (x : Z) (l : list Z) : Z := fold_left Z.min l x.

Definition Qmaxb (a b : Q) : Q := if Qle_bool a b then b else a.
Definition max_Q (x : Q) (l : list Q) : Q := fold_left Qmaxb l x.

(* ------------------------------------------------------------------ *)
(** ** Calendar arithmetic on instants ([Series.dt], [strftime]) *)

Definition NS_PER_SECOND : Z := 1000000000.
Definition NS_PER_HOUR : Z := 3600 * NS_PER_SECOND.
Definition NS_PER_DAY : Z := 86400 * NS_PER_SECOND.

(** [timedelta(days=d)] in nanoseconds. *)
Definition timedelta_days (d : Z) : Z := d * NS_PER_DAY.

(** [Timedelta.days]: whole days of a duration (floor). *)
Definition td_days (delta : Z) : Z := delta / NS_PER_DAY.

(** Day number since 1970-01-01 of an instant. *)
Definition day_number (t : Z) : Z := t / NS_PER_DAY.

Definition dt_hour (t : Z) : Z := (t mod NS_PER_DAY) / NS_PER_HOUR.
Definition dt_minute (t : Z) : Z := ((t mod NS_PER_HOUR) / (60 * NS_PER_SECOND)).
Definition dt_second (t : Z) : Z := ((t mod (60 * NS_PER_SECOND)) / NS_PER_SECOND).

(** Monday = 0 ... Sunday = 6; 1970-01-01 was a Thursday. *)
Definition dt_dayofweek (t : Z) : Z := (day_number t + 3) mod 7.

(** Proleptic Gregorian date (year, month, day) of a day number. *)
Definition civil_from_days (d : Z) : Z * Z * Z :=
  let z := d + 719468 in
  let era := z / 146097 in
  let doe := z - era * 146097 in
  let yoe := (doe - doe / 1460 + doe / 36524 - doe / 146096) / 365 in
  let y := yoe + era * 400 in
  let doy := doe - (365 * yoe + yoe / 4 - yoe / 100) in
  let mp := (5 * doy + 2) / 153 in
  let dd := doy - (153 * mp + 2) / 5 + 1 in
  let m := if mp <? 10 then mp + 3 else mp - 9 in
  (if m <=? 2 then y + 1 else y, m, dd).

Definition dt_year (t : Z) : Z := fst (fst (civil_from_days (day_number t))).
Definition dt_month (t : Z) : Z := snd (fst (civil_from_days (day_number t))).
Definition dt_day (t : Z) : Z := snd (civil_from_days (day_number t)).

(** Decimal rendering of a non-negative integer, zero padded on the left to
    at least [width] characters ([%Y], [%m], [%d], [%H], [%M], [%S]). *)
Definition digits (n : Z) : string :=
  NilZero.string_of_uint (Nat.to_uint (Z.to_nat n)).

Fixpoint zeros (k : nat) : string :=
  match k with
  | O => ""
  | S k' => String "0" (zeros k')
  end.

Definition pad (width : nat) (n : Z) : string :=
  let s := digits n in
  zeros (width - String.length s) ++ s.

(** [strftime('%Y-%m-%d')] *)
Definition strftime_date (t : Z) : string :=
  pad 4 (dt_year t) ++ "-" ++ pad 2 (dt_month t) ++ "-" ++ pad 2 (dt_day t).

(** [strftime('%Y%m%d_%H%M%S')] *)
Definition strftime_compact (t : Z) : string :=
  pad 4 (dt_year t) ++ pad 2 (dt_month t) ++ pad 2 (dt_day t) ++ "_" ++
  pad 2 (dt_hour t) ++ pad 2 (dt_minute t) ++ pad 2 (dt_second t).

(** [strftime('%Y-%m-%d %H:%M:%S')] *)
Definition strftime_full (t : Z) : string :=
  strftime_date t ++ " " ++
  pad 2 (dt_hour t) ++ ":" ++ pad 2 (dt_minute t) ++ ":" ++ pad 2 (dt_second t).

(* ------------------------------------------------------------------ *)
(** ** The event table *)

(** The columns of [categorical_features] and of [numerical_features]. *)
Inductive CatCol := AttackType | SourceCountry | TargetCountry | DataSource.
Inductive NumCol := SourceLatitude | SourceLongitude | TargetLatitude | TargetLongitude.

Definition cat_name (c : CatCol) : string :=
  match c with
  | AttackType => "attack_type"
  | SourceCountry => "source_country"
  | TargetCountry => "target_country"
  | DataSource => "data_source"
  end.

Definition num_name (c : NumCol) : string :=
  match c with
  | SourceLatitude => "source_latitude"
  | SourceLongitude => "source_longitude"
  | TargetLatitude => "target_latitude"
  | TargetLongitude => "target_longitude"
  end.

Record Cats := mkCats {
  attack_type : option string;
  source_country : option string;
  target_country : option string;
  data_source : option string }.

Record Nums := mkNums {
  source_latitude : option Q;
  source_longitude : option Q;
  target_latitude : option Q;
  target_longitude : option Q }.

(** Columns derived from the timestamp. *)
Record Temporal := mkTemporal {
  hour_of_day : Z;
  day_of_week : Z;
  month : Z;
  year : Z;
  weekend : Z }.

(** Frequency encodings; [None] is the NaN that [Series.map] gives a key
    absent from the counts. *)
Record Freqs := mkFreqs {
  source_country_frequency : option Z;
  attack_type_frequency : option Z }.

(** Columns written by the clustering and anomaly fits. *)
Record Marks := mkMarks {
  cluster : Z;
  anomaly_score : Q;
  is_anomaly : Z }.

Record Row := mkRow {
  timestamp : Z;
  cats : Cats;
  nums : Nums;
  severity : option string;
  temporal : Temporal;
  freqs : Freqs;
  marks : Marks }.

Record DataFrame := mkDataFrame {
  columns : list string;
  rows : list Row }.

(** [pd.DataFrame()] *)
Definition empty_frame : DataFrame := mkDataFrame [] [].

(** [df.empty]: some axis has length zero. *)
Definition empty (df : DataFrame) : bool :=
  match rows df, columns df with
  | [], _ => true
  | _, [] => true
  | _, _ => false
  end.

(** [col in df.columns] *)
Definition has_col (col : string) (df : DataFrame) : bool :=
  mem_str col (columns df).

(** [len(df)] *)
Definition len (df : DataFrame) : Z := Z.of_nat (List.length (rows df)).

Definition cat_cell (c : CatCol) (r : Row) : option string :=
  match c with
  | AttackType => attack_type (cats r)
  | SourceCountry => source_country (cats r)
  | TargetCountry => target_country (cats r)
  | DataSource => data_source (cats r)
  end.

Definition num_cell (c : NumCol) (r : Row) : option Q :=
  match c with
  | SourceLatitude => source_latitude (nums r)
  | SourceLongitude => source_longitude (nums r)
  | TargetLatitude => target_latitude (nums r)
  | TargetLongitude => target_longitude (nums r)
  end.

Definition with_cats (k : Cats) (r : Row) : Row :=
  mkRow (timestamp r) k (nums r) (severity r) (temporal r) (freqs r) (marks r).
Definition with_nums (n : Nums) (r : Row) : Row :=
  mkRow (timestamp r) (cats r) n (severity r) (temporal r) (freqs r) (marks r).
Definition with_temporal (t : Temporal) (r : Row) : Row :=
  mkRow (timestamp r) (cats r) (nums r) (severity r) t (freqs r) (marks r).
Definition with_freqs (f : Freqs) (r : Row) : Row :=
  mkRow (timestamp r) (cats r) (nums r) (severity r) (temporal r) f (marks r).
Definition with_marks (m : Marks) (r : Row) : Row :=
  mkRow (timestamp r) (cats r) (nums r) (severity r) (temporal r) (freqs r) m.

Definition set_cat_cell (c : CatCol) (v : option string) (r : Row) : Row :=
  let k := cats r in
  with_cats
    match c with
    | AttackType => mkCats v (source_country k) (target_country k) (data_source k)
    | SourceCountry => mkCats (attack_type k) v (target_country k) (data_source k)
    | TargetCountry => mkCats (attack_type k) (source_country k) v (data_source k)
    | DataSource => mkCats (attack_type k) (source_country k) (target_country k) v
    end r.

Definition set_num_cell (c : NumCol) (v : option Q) (r : Row) : Row :=
  let n := nums r in
  with_nums
    match c with
    | SourceLatitude => mkNums v (source_longitude n) (target_latitude n) (target_longitude n)
    | SourceLongitude => mkNums (source_latitude n) v (target_latitude n) (target_longitude n)
    | TargetLatitude => mkNums (source_latitude n) (source_longitude n) v (target_longitude n)
    | TargetLongitude => mkNums (source_latitude n) (source_longitude n) (target_latitude n) v
    end r.

(** [df[name] = ...]: every row gets its new cell through [f]; a new column
    name goes to the end of [df.columns], an existing one keeps its place. *)
Definition assign (name : string) (f : Row -> Row) (df : DataFrame) : DataFrame :=
  mkDataFrame
    (if has_col name df then columns df else columns df ++ [name])
    (map f (rows df)).

(** [df[cols]]: the same rows under the chosen column names. *)
Definition select (cols : list string) (df : DataFrame) : DataFrame :=
  mkDataFrame cols (rows df).

(* ------------------------------------------------------------------ *)
(** ** Series operations used by the feature engineer *)

(** Present (non-missing) values of a column. *)
Definition present {A} (col : list (option A)) : list A :=
  flat_map (fun c => match c with Some v => [v] | None => [] end) col.

Definition sort_Q (l : list Q) : list Q := sort_by Qle_bool l.

(** [Series.median()]: missing values are skipped; the middle value of the
    sorted present values, or the mean of the two middle ones; NaN ([None])
    when nothing is present. *)
Definition median (col : list (option Q)) : option Q :=
  let s := sort_Q (present col) in
  let n := List.length s in
  match s with
  | [] => None
  | x :: _ =>
      if Nat.even n
      then Some ((nth (n / 2 - 1) s x + nth (n / 2) s x) / 2)%Q
      else Some (nth (n / 2) s x)
  end.

(** [Series.fillna(value)]; filling with NaN changes nothing. *)
Definition fillna {A} (value : option A) (cell : option A) : option A :=
  match cell, value with
  | None, Some v => Some v
  | _, _ => cell
  end.

(** [Series.value_counts()] followed by [Series.map]: the number of rows
    holding the same value; a missing value is not counted and maps to NaN. *)
Definition frequency (col : list (option string)) (cell : option string) : option Z :=
  match cell with
  | None => None
  | Some v => Some (count_if (opt_eqb String.eqb (Some v)) col)
  end.

(* ------------------------------------------------------------------ *)
(** ** [AttackPatternAnalyzer.preprocess_data], the table transformation *)

Definition categorical_features : list CatCol :=
  [AttackType; SourceCountry; TargetCountry; DataSource].
Definition numerical_features : list NumCol :=
  [SourceLatitude; SourceLongitude; TargetLatitude; TargetLongitude].

(** Lines 68-73: the columns derived from the timestamp. *)
Definition set_hour_of_day (r : Row) : Row :=
  let t := temporal r in
  with_temporal
    (mkTemporal (dt_hour (timestamp r)) (day_of_week t) (month t) (year t) (weekend t)) r.
Definition set_day_of_week (r : Row) : Row :=
  let t := temporal r in
  with_temporal
    (mkTemporal (hour_of_day t) (dt_dayofweek (timestamp r)) (month t) (year t) (weekend t)) r.
Definition set_month (r : Row) : Row :=
  let t := temporal r in
  with_temporal
    (mkTemporal (hour_of_day t) (day_of_week t) (dt_month (timestamp r)) (year t) (weekend t)) r.
Definition set_year (r : Row) : Row :=
  let t := temporal r in
  with_temporal
    (mkTemporal (hour_of_day t) (day_of_week t) (month t) (dt_year (timestamp r)) (weekend t)) r.
Definition set_weekend (r : Row) : Row :=
  let t := temporal r in
  with_temporal
    (mkTemporal (hour_of_day t) (day_of_week t) (month t) (year t)
                (if 5 <=? day_of_week t then 1 else 0)) r.

Definition add_temporal (data : DataFrame) : DataFrame :=
  if has_col "timestamp" data then
    let data := assign "hour_of_day" set_hour_of_day data in
    let data := assign "day_of_week" set_day_of_week data in
    let data := assign "month" set_month data in
    let data := assign "year" set_year data in
    assign "weekend" set_weekend data
  else data.

(** Lines 76-78, one turn of the loop. *)
Definition fill_numeric (data : DataFrame) (col : NumCol) : DataFrame :=
  if has_col (num_name col) data then
    let m := median (map (num_cell col) (rows data)) in
    assign (num_name col) (fun r => set_num_cell col (fillna m (num_cell col r)) r) data
  else data.

(** Lines 80-82, one turn of the loop. *)
Definition fill_categorical (data : DataFrame) (col : CatCol) : DataFrame :=
  if has_col (cat_name col) data then
    assign (cat_name col)
      (fun r => set_cat_cell col (fillna (Some "unknown") (cat_cell col r)) r) data
  else data.

(** Lines 85-91. *)
Definition add_source_country_frequency (data : DataFrame) : DataFrame :=
  if has_col "source_country" data then
    let col := map (cat_cell SourceCountry) (rows data) in
    assign "source_country_frequency"
      (fun r => with_freqs
                  (mkFreqs (frequency col (cat_cell SourceCountry r))
                           (attack_type_frequency (freqs r))) r) data
  else data.

Definition add_attack_type_frequency (data : DataFrame) : DataFrame :=
  if has_col "attack_type" data then
    let col := map (cat_cell AttackType) (rows data) in
    assign "attack_type_frequency"
      (fun r => with_freqs
                  (mkFreqs (source_country_frequency (freqs r))
                           (frequency col (cat_cell AttackType r))) r) data
  else data.

(** The table [preprocess_data] returns (lines 56-96, the write to
    [self.features] apart). *)
Definition preprocess_table (df : DataFrame) : DataFrame :=
  if empty df then empty_frame
  else
    let data := add_temporal df in
    let data := fold_left fill_numeric numerical_features data in
    let data := fold_left fill_categorical categorical_features data in
    let data := add_source_country_frequency data in
    add_attack_type_frequency data.

(* ------------------------------------------------------------------ *)
(** ** Results, exceptions and the external libraries *)

(** The result dictionaries: [{'success': False, 'message': ...}] or
    [{'success': True, ...}] with the fields of the operation. *)
Inductive Result (A : Type) : Type :=
| Failure (message : string)
| Success (payload : A).
Arguments Failure {A} message.
Arguments Success {A} payload.

Definition success {A} (r : Result A) : bool :=
  match r with Success _ => true | Failure _ => false end.

Definition message {A} (r : Result A) : option string :=
  match r with Failure m => Some m | Success _ => None end.

(** A computation that returns, or raises an exception [e] of which the
    handlers keep [str(e)]. *)
Inductive exc (A : Type) : Type :=
| Raise (msg : string)
| Ok (a : A).
Arguments Raise {A} msg.
Arguments Ok {A} a.

(** What the module imports.  Fitting is a function of the table, the
    hyper-parameters and [random_state]. *)
Record Libs := mkLibs {
  Model : Type;                     (* a fitted sklearn Pipeline *)
  Report : Type;                    (* metrics.classification_report(..., output_dict=True) *)
  World : Type;                     (* wall clock and the files under models/ *)
  (* datetime.now() *)
  now : World -> Z * World;
  (* joblib.dump(model, filename) *)
  joblib_dump : Model -> string -> World -> exc World;
  (* Pipeline([preprocessor, DBSCAN(eps, min_samples)]).fit(X), and labels_ *)
  dbscan_fit : Q -> Z -> list string -> list string -> DataFrame -> exc (Model * list Z);
  (* Pipeline([preprocessor, IsolationForest(contamination, random_state)]).fit(X) *)
  iforest_fit : Q -> Z -> list string -> list string -> DataFrame -> exc Model;
  (* named_steps['anomaly_detector'].decision_function(X) and .predict(X) *)
  decision_function : Model -> DataFrame -> exc (list Q);
  predict : Model -> DataFrame -> exc (list Z);
  (* train_test_split(X, y, test_size, random_state) *)
  train_test_split :
    DataFrame -> list (option string) -> Q -> Z ->
    exc (DataFrame * DataFrame * list (option string) * list (option string));
  (* Pipeline([preprocessor, RandomForestClassifier(n_estimators, random_state)]).fit(X, y) *)
  forest_fit :
    Z -> Z -> list string -> list string -> DataFrame -> list (option string) -> exc Model;
  (* pipeline.predict(X_test) *)
  forest_predict : Model -> DataFrame -> exc (list (option string));
  accuracy_score : list (option string) -> list (option string) -> exc Q;
  f1_score_weighted : list (option string) -> list (option string) -> exc Q;
  (* preprocessor.named_transformers_['cat'].get_feature_names_out(cols) *)
  get_feature_names_out : Model -> list string -> exc (list string);
  (* classifier.feature_importances_, when the attribute exists *)
  feature_importances_ : Model -> option (list Q);
  confusion_matrix : list (option string) -> list (option string) -> exc (list (list Z));
  classification_report : list (option string) -> list (option string) -> exc Report;
  (* abs(np.fft.fft(x)), element by element; the transform keeps the length *)
  fft_abs : list Z -> list Q;
  fft_abs_length : forall x, List.length (fft_abs x) = List.length x
}.

(* ------------------------------------------------------------------ *)
(** ** Column selection shared by the fits *)

Definition NOT_FEATURES : list string := ["id"; "timestamp"; "created_at"; "updated_at"].

(** [[col for col in data.columns if col not in excluded]] *)
Definition feature_cols_of (excluded : list string) (data : DataFrame) : list string :=
  filter (fun col => negb (mem_str col excluded)) (columns data).

(** [[col for col in self.categorical_features if col in feature_cols]] *)
Definition categorical_cols_of (feature_cols : list string) : list string :=
  filter (fun col => mem_str col feature_cols) (map cat_name categorical_features).

(** [[col for col in data.columns if col not in categorical_cols and col in feature_cols]] *)
Definition numerical_cols_of (data : DataFrame) (categorical_cols feature_cols : list string)
  : list string :=
  filter (fun col => negb (mem_str col categorical_cols) && mem_str col feature_cols)
         (columns data).

(** [df[name] = values] for an array: the lengths must agree. *)
Fixpoint zip_rows {B} (set : B -> Row -> Row) (values : list B) (rs : list Row) : list Row :=
  match values, rs with
  | v :: vs, r :: rs' => set v r :: zip_rows set vs rs'
  | _, _ => []
  end.

Definition assign_values {B} (name : string) (set : B -> Row -> Row) (values : list B)
  (df : DataFrame) : exc DataFrame :=
  if Nat.eqb (List.length values) (List.length (rows df)) then
    Ok (mkDataFrame (if has_col name df then columns df else columns df ++ [name])
                    (zip_rows set values (rows df)))
  else Raise "Length of values does not match length of index".

Definition set_cluster (v : Z) (r : Row) : Row :=
  with_marks (mkMarks v (anomaly_score (marks r)) (is_anomaly (marks r))) r.
Definition set_anomaly_score (v : Q) (r : Row) : Row :=
  with_marks (mkMarks (cluster (marks r)) v (is_anomaly (marks r))) r.
Definition set_is_anomaly (v : Z) (r : Row) : Row :=
  with_marks (mkMarks (cluster (marks r)) (anomaly_score (marks r)) v) r.

(** [Series.value_counts().to_dict()] on an integer column: each distinct
    value with its number of rows, most frequent first. *)
Definition value_counts (col : list Z) : list (Z * Z) :=
  sort_desc_Z snd (map (fun v => (v, count_if (Z.eqb v) col)) (unique Z.eqb col)).

Definition MODEL_DIR : string := "models".

(** [os.path.join(MODEL_DIR, f'{kind}_model_{now:%Y%m%d_%H%M%S}.joblib')] *)
Definition model_path (kind : string) (t : Z) : string :=
  MODEL_DIR ++ "/" ++ kind ++ "_model_" ++ strftime_compact t ++ ".joblib".

(* ------------------------------------------------------------------ *)
(** ** Shapes of the successful results *)

Module ClusteringResult.
Record t := mk {
  n_clusters : Z;
  noise_percentage : Q;
  cluster_counts : list (Z * Z);
  model_filename : string;
  clustered_data : DataFrame }.
End ClusteringResult.

Module AnomalyResult.
Record t := mk {
  anomaly_percentage : Q;
  anomaly_count : Z;
  model_filename : string;
  anomalous_data : DataFrame;
  data_with_scores : DataFrame }.
End AnomalyResult.

Module PredictionResult.
Record t (Report : Type) := mk {
  accuracy : Q;
  f1_score : Q;
  model_filename : string;
  feature_importances : option (list (string * Q));
  confusion_matrix : list (list Z);
  classification_report : Report }.
Arguments mk {Report}.
End PredictionResult.

Module Pattern.
Record t := mk {
  period_days : Q;
  strength : Q }.
End Pattern.

Module TemporalResult.
Record t := mk {
  hourly_pattern : list (Z * Z);
  daily_pattern : list (Z * Z);
  monthly_pattern : list (Z * Z);
  peak_hour : Z;
  peak_day : string;
  peak_month : string;
  periodic_patterns : list Pattern.t }.
End TemporalResult.

Module Campaign.
Record t := mk {
  source_country : string;
  target_country : string;
  attack_type : string;
  attack_count : Z;
  start_date : string;
  end_date : string;
  timespan_days : Z;
  attack_frequency : Q;
  data_sources : list (option string);
  severity : string }.
End Campaign.

Module CampaignResult.
Record t := mk {
  campaigns : list Campaign.t;
  campaign_count : Z;
  timespan_days : Z;      (* parameters.timespan_days *)
  min_attacks : Z }.      (* parameters.min_attacks *)
End CampaignResult.

(* ------------------------------------------------------------------ *)
(** ** The analyzer object and the monad of its methods *)

Section Analyzer.
Context (L : Libs).

(** The instance fields of [AttackPatternAnalyzer] that the methods write.
    [preprocess_runs] is instrumentation that the source does not have: it
    counts the entries into [preprocess_data]. *)
Record Analyzer := mkAnalyzer {
  clustering_model : option (Model L);
  anomaly_model : option (Model L);
  prediction_model : option (Model L);
  features : list string;
  preprocess_runs : nat }.

(** [AttackPatternAnalyzer()] *)
Definition new_analyzer : Analyzer := mkAnalyzer None None None [] 0.

Record State := mkState {
  self : Analyzer;
  world : World L }.

(** A method body: it reads and writes the state and returns or raises;
    the writes made before a raise stay. *)
Definition M (A : Type) : Type := State -> exc A * State.

Definition ret {A} (a : A) : M A := fun st => (Ok a, st).

Definition bind {A B} (c : M A) (k : A -> M B) : M B :=
  fun st =>
    match c st with
    | (Ok a, st') => k a st'
    | (Raise msg, st') => (Raise msg, st')
    end.

(** A library call that does not touch the state. *)
Definition call {A} (r : exc A) : M A := fun st => (r, st).

(** [try: body  except Exception as e: handler(str(e))] *)
Definition try_except {A} (body : M A) (handler : string -> M A) : M A :=
  fun st =>
    match body st with
    | (Ok a, st') => (Ok a, st')
    | (Raise msg, st') => handler msg st'
    end.

Definition modify_self (f : Analyzer -> Analyzer) : M unit :=
  fun st => (Ok tt, mkState (f (self st)) (world st)).

(** [datetime.now()] *)
Definition datetime_now : M Z :=
  fun st => let (t, w) := now L (world st) in (Ok t, mkState (self st) w).

(** [joblib.dump(model, filename)] *)
Definition dump (model : Model L) (filename : string) : M unit :=
  fun st =>
    match joblib_dump L model filename (world st) with
    | Ok w => (Ok tt, mkState (self st) w)
    | Raise msg => (Raise msg, st)
    end.
End Analyzer.

Arguments ret {L A} a.
Arguments bind {L A B} c k.
Arguments call {L A} r.
Arguments try_except {L A} body handler.
Arguments self {L} s.
Arguments world {L} s.
Arguments clustering_model {L} a.
Arguments anomaly_model {L} a.
Arguments prediction_model {L} a.
Arguments features {L} a.
Arguments preprocess_runs {L} a.

Declare Scope analyzer_scope.
Delimit Scope analyzer_scope with analyzer.
Notation "x <- c ;; k" := (bind c (fun x => k))
  (at level 61, c at next level, right associativity) : analyzer_scope.
Notation "' pat <- c ;; k" := (bind c (fun x => match x with pat => k end))
  (at level 61, pat pattern, c at next level, right associativity) : analyzer_scope.
Notation "c ;; k" := (bind c (fun _ => k))
  (at level 61, right associativity) : analyzer_scope.
Local Open Scope analyzer_scope.

Section Methods.
Context (L : Libs).

Definition set_features (fs : list string) (a : Analyzer L) : Analyzer L :=
  mkAnalyzer L (clustering_model a) (anomaly_model a) (prediction_model a) fs
             (preprocess_runs a).
Definition set_clustering_model (m : Model L) (a : Analyzer L) : Analyzer L :=
  mkAnalyzer L (Some m) (anomaly_model a) (prediction_model a) (features a)
             (preprocess_runs a).
Definition set_anomaly_model (m : Model L) (a : Analyzer L) : Analyzer L :=
  mkAnalyzer L (clustering_model a) (Some m) (prediction_model a) (features a)
             (preprocess_runs a).
Definition set_prediction_model (m : Model L) (a : Analyzer L) : Analyzer L :=
  mkAnalyzer L (clustering_model a) (anomaly_model a) (Some m) (features a)
             (preprocess_runs a).
Definition count_preprocess_run (a : Analyzer L) : Analyzer L :=
  mkAnalyzer L (clustering_model a) (anomaly_model a) (prediction_model a) (features a)
             (S (preprocess_runs a)).

(** [preprocess_data] (lines 46-96): the empty table returns before
    [self.features] is written. *)
Definition preprocess_data (df : DataFrame) : M L DataFrame :=
  modify_self L count_preprocess_run ;;
  if empty df then ret empty_frame
  else
    let data := preprocess_table df in
    modify_self L (set_features (columns data)) ;;
    ret data.

(** *** [train_clustering_model] (lines 98-168) *)

Definition noise_percentage_of (labels : list Z) : Q :=
  if 0 <? Z.of_nat (List.length labels)
  then (inject_Z (count_if (Z.eqb (-1)) labels)
        / inject_Z (Z.of_nat (List.length labels)) * inject_Z 100)%Q
  else 0%Q.

Definition n_clusters_of (labels : list Z) : Z :=
  Z.of_nat (List.length (unique Z.eqb labels))
  - (if memb Z.eqb (-1) labels then 1 else 0).

Definition train_clustering_model (df : DataFrame) : M L (Result ClusteringResult.t) :=
  if empty df then ret (Failure "No data provided")
  else
    try_except
      (data <- preprocess_data df ;;
       let feature_cols := feature_cols_of NOT_FEATURES data in
       let categorical_cols := categorical_cols_of feature_cols in
       let numerical_cols := numerical_cols_of data categorical_cols feature_cols in
       ' (clustering_pipeline, labels) <-
           call (dbscan_fit L (5 # 10) 5 numerical_cols categorical_cols
                            (select feature_cols data)) ;;
       modify_self L (set_clustering_model clustering_pipeline) ;;
       data <- call (assign_values "cluster" set_cluster labels data) ;;
       let n_clusters := n_clusters_of labels in
       let noise_percentage := noise_percentage_of labels in
       t <- datetime_now L ;;
       let model_filename := model_path "clustering" t in
       dump L clustering_pipeline model_filename ;;
       ret (Success
              (ClusteringResult.mk
                 n_clusters noise_percentage
                 (value_counts (map (fun r => cluster (marks r)) (rows data)))
                 model_filename data)))
      (fun e => ret (Failure e)).

(** *** [train_anomaly_detection_model] (lines 170-243) *)

Definition RANDOM_STATE : Z := 42.

Definition sum_Z (l : list Z) : Z := fold_left Z.add l 0.

Definition train_anomaly_detection_model (df : DataFrame) (contamination : Q)
  : M L (Result AnomalyResult.t) :=
  if empty df then ret (Failure "No data provided")
  else
    try_except
      (data <- preprocess_data df ;;
       let feature_cols := feature_cols_of NOT_FEATURES data in
       let categorical_cols := categorical_cols_of feature_cols in
       let numerical_cols := numerical_cols_of data categorical_cols feature_cols in
       anomaly_pipeline <-
         call (iforest_fit L contamination RANDOM_STATE numerical_cols categorical_cols
                           (select feature_cols data)) ;;
       modify_self L (set_anomaly_model anomaly_pipeline) ;;
       anomaly_scores <-
         call (decision_function L anomaly_pipeline (select feature_cols data)) ;;
       predictions <- call (predict L anomaly_pipeline (select feature_cols data)) ;;
       data <- call (assign_values "anomaly_score" set_anomaly_score anomaly_scores data) ;;
       data <- call (assign_values "is_anomaly" set_is_anomaly
                       (map (fun p => if p =? -1 then 1 else 0) predictions) data) ;;
       let flags := map (fun r => is_anomaly (marks r)) (rows data) in
       let anomaly_percentage :=
         if 0 <? len data
         then (inject_Z (sum_Z flags) / inject_Z (len data) * inject_Z 100)%Q
         else 0%Q in
       t <- datetime_now L ;;
       let model_filename := model_path "anomaly" t in
       dump L anomaly_pipeline model_filename ;;
       let anomalous_data :=
         mkDataFrame (columns data)
           (sort_by (fun x y => Qle_bool (anomaly_score (marks x)) (anomaly_score (marks y)))
                    (filter (fun r => is_anomaly (marks r) =? 1) (rows data))) in
       ret (Success
              (AnomalyResult.mk anomaly_percentage (sum_Z flags) model_filename
                                anomalous_data data)))
      (fun e => ret (Failure e)).

(** *** [train_target_prediction_model] (lines 245-334) *)

(** [dict(zip(keys, values))]: a repeated key keeps its first position and
    takes the last value. *)
Fixpoint dict_set (k : string) (v : Q) (d : list (string * Q)) : list (string * Q) :=
  match d with
  | [] => [(k, v)]
  | (k', v') :: t => if String.eqb k k' then (k, v) :: t else (k', v') :: dict_set k v t
  end.

Definition dict_of_zip (keys : list string) (values : list Q) : list (string * Q) :=
  fold_left (fun d kv => dict_set (fst kv) (snd kv) d) (combine keys values) [].

Definition top_importances (all_features : list string) (importances : list Q)
  : option (list (string * Q)) :=
  if Nat.eqb (List.length importances) (List.length all_features)
  then Some (firstn 10 (sort_desc_Q snd (dict_of_zip all_features importances)))
  else None.

Definition train_target_prediction_model (df : DataFrame)
  : M L (Result (PredictionResult.t (Report L))) :=
  if empty df then ret (Failure "No data provided")
  else
    try_except
      (data <- preprocess_data df ;;
       if negb (has_col "target_country" data)
       then ret (Failure "Target country column is required for prediction")
       else
         let feature_cols :=
           feature_cols_of ["id"; "target_country"; "timestamp"; "created_at"; "updated_at"]
                           data in
         let target := map (cat_cell TargetCountry) (rows data) in
         let categorical_cols := categorical_cols_of feature_cols in
         let numerical_cols := numerical_cols_of data categorical_cols feature_cols in
         ' (X_train, X_test, y_train, y_test) <-
             call (train_test_split L (select feature_cols data) target (2 # 10)
                                    RANDOM_STATE) ;;
         prediction_pipeline <-
           call (forest_fit L 100 RANDOM_STATE numerical_cols categorical_cols
                            X_train y_train) ;;
         modify_self L (set_prediction_model prediction_pipeline) ;;
         y_pred <- call (forest_predict L prediction_pipeline X_test) ;;
         accuracy <- call (accuracy_score L y_test y_pred) ;;
         f1 <- call (f1_score_weighted L y_test y_pred) ;;
         feature_importances <-
           match feature_importances_ L prediction_pipeline with
           | None => ret None
           | Some importances =>
               cat_features <-
                 call (get_feature_names_out L prediction_pipeline categorical_cols) ;;
               ret (top_importances (numerical_cols ++ cat_features) importances)
           end ;;
         t <- datetime_now L ;;
         let model_filename := model_path "prediction" t in
         dump L prediction_pipeline model_filename ;;
         cm <- call (confusion_matrix L y_test y_pred) ;;
         report <- call (classification_report L y_test y_pred) ;;
         ret (Success
                (PredictionResult.mk accuracy f1 model_filename feature_importances
                                     cm report)))
      (fun e => ret (Failure e)).

(** *** [analyze_temporal_patterns] (lines 336-417) *)

(** [Series.min()] / [Series.max()] of the timestamps; the methods reach
    them on tables with at least one row only. *)
Definition ts_min (data : DataFrame) : Z :=
  match map timestamp (rows data) with
  | [] => 0
  | t :: ts => min_Z t ts
  end.

Definition ts_max (data : DataFrame) : Z :=
  match map timestamp (rows data) with
  | [] => 0
  | t :: ts => max_Z t ts
  end.

(** [data.groupby(key).size()]: the keys in increasing order, each with its
    number of rows. *)
Definition group_sizes (key : Row -> Z) (rs : list Row) : list (Z * Z) :=
  map (fun k => (k, count_if (fun r => key r =? k) rs))
      (sort_asc_Z (fun k => k) (unique Z.eqb (map key rs))).

(** [Series.idxmax()]: the first index holding the largest value. *)
Definition idxmax (s : list (Z * Z)) : exc Z :=
  match s with
  | [] => Raise "attempt to get argmax of an empty sequence"
  | kv :: t =>
      Ok (fst (fold_left (fun best kv' => if snd best <? snd kv' then kv' else best) t kv))
  end.

(** [names[i]] on a Python list, negative indices counting from the end. *)
Definition py_index (names : list string) (i : Z) : exc string :=
  let n := Z.of_nat (List.length names) in
  let j := if i <? 0 then i + n else i in
  if (0 <=? j) && (j <? n) then Ok (nth (Z.to_nat j) names "")
  else Raise "list index out of range".

Definition day_names : list string :=
  ["Monday"; "Tuesday"; "Wednesday"; "Thursday"; "Friday"; "Saturday"; "Sunday"].
Definition month_names : list string :=
  ["January"; "February"; "March"; "April"; "May"; "June";
   "July"; "August"; "September"; "October"; "November"; "December"].

(** [range(a, b)] *)
Definition range (a b : Z) : list Z :=
  map (fun i => a + Z.of_nat i) (seq 0 (Z.to_nat (b - a))).

(** [data.resample('D', on='timestamp').size()]: one count per calendar
    day from the day of the first event to the day of the last. *)
Definition daily_counts_of (data : DataFrame) : list Z :=
  let ts := map timestamp (rows data) in
  map (fun d => count_if (fun t => day_number t =? d) ts)
      (range (day_number (ts_min data)) (day_number (ts_max data) + 1)).

(** [np.fft.fftfreq(n)]: [0, 1, ..., (n-1)//2, -(n//2), ..., -1] / n. *)
Definition fftfreq (n : Z) : list Q :=
  map (fun k => (inject_Z k / inject_Z n)%Q)
      (range 0 ((n - 1) / 2 + 1) ++ range (- (n / 2)) 0).

(** [max(abs(fft_values[1:half]))]; the loop reaches it with a non-empty
    slice only. *)
Definition max_scanned (fft_values : list Q) (half : Z) : Q :=
  match firstn (Z.to_nat (half - 1)) (skipn 1 fft_values) with
  | [] => 0%Q
  | x :: t => max_Q x t
  end.

Definition Qgtb (a b : Q) : bool := negb (Qle_bool a b).

(** Lines 389-394: the loop over the positive frequencies. *)
Definition dominant_periods_of (fft_values fft_freq : list Q) : list (Q * Q) :=
  let half := Z.of_nat (List.length fft_freq) / 2 in
  flat_map
    (fun i =>
       let a := nth (Z.to_nat i) fft_values 0%Q in
       if Qgtb a ((1 # 10) * max_scanned fft_values half)%Q then
         let period := (1 / Qabs (nth (Z.to_nat i) fft_freq 0%Q))%Q in
         if Qgtb period 1%Q then [(period, a)] else []
       else [])
    (range 1 half).

(** Round half to even, as [round] does on floats. *)
Definition rint (x : Q) : Z :=
  let f := Qfloor x in
  let d := (x - inject_Z f)%Q in
  if Qgtb (1 # 2) d then f
  else if Qgtb d (1 # 2) then f + 1
  else if Z.even f then f else f + 1.

(** [round(x, 1)] *)
Definition round1 (x : Q) : Q := (inject_Z (rint (x * inject_Z 10)) / inject_Z 10)%Q.

(** Lines 379-402. *)
Definition top_periods_of (data : DataFrame) : list (Q * Q) :=
  if ts_min data + timedelta_days 14 <=? ts_max data then
    let daily_counts := daily_counts_of data in
    let fft_values := fft_abs L daily_counts in
    let fft_freq := fftfreq (Z.of_nat (List.length daily_counts)) in
    let dominant_periods := dominant_periods_of fft_values fft_freq in
    firstn 3 (sort_desc_Q snd dominant_periods)
  else [].

Definition analyze_temporal_patterns (df : DataFrame) : M L (Result TemporalResult.t) :=
  if empty df then ret (Failure "No data provided")
  else
    try_except
      (data <- preprocess_data df ;;
       if negb (has_col "timestamp" data)
       then ret (Failure "Timestamp column is required for temporal analysis")
       else
         let hourly_pattern := group_sizes (fun r => dt_hour (timestamp r)) (rows data) in
         let daily_pattern := group_sizes (fun r => dt_dayofweek (timestamp r)) (rows data) in
         let monthly_pattern := group_sizes (fun r => dt_month (timestamp r)) (rows data) in
         peak_hour <- call (idxmax hourly_pattern) ;;
         peak_day <- call (idxmax daily_pattern) ;;
         peak_month <- call (idxmax monthly_pattern) ;;
         peak_day_name <- call (py_index day_names peak_day) ;;
         peak_month_name <- call (py_index month_names (peak_month - 1)) ;;
         let top_periods := top_periods_of data in
         ret (Success
                (TemporalResult.mk hourly_pattern daily_pattern monthly_pattern
                   peak_hour peak_day_name peak_month_name
                   (map (fun p => Pattern.mk (round1 (fst p)) (snd p)) top_periods))))
      (fun e => ret (Failure e)).

(** *** [identify_attack_campaign] (lines 481-559) *)

Definition Key : Type := string * string * string.

Definition key_eqb (a b : Key) : bool :=
  let '(s1, t1, a1) := a in
  let '(s2, t2, a2) := b in
  String.eqb s1 s2 && String.eqb t1 t2 && String.eqb a1 a2.

(** Order of tuples of strings, the order in which [groupby] yields its
    groups. *)
Definition key_leb (a b : Key) : bool :=
  let '(s1, t1, a1) := a in
  let '(s2, t2, a2) := b in
  match String.compare s1 s2 with
  | Lt => true
  | Gt => false
  | Eq =>
      match String.compare t1 t2 with
      | Lt => true
      | Gt => false
      | Eq => String.leb a1 a2
      end
  end.

(** The grouping key of a row; [groupby] drops a row with a missing key. *)
Definition group_key (r : Row) : option Key :=
  match cat_cell SourceCountry r, cat_cell TargetCountry r, cat_cell AttackType r with
  | Some s, Some t, Some a => Some (s, t, a)
  | _, _, _ => None
  end.

Definition in_group (k : Key) (r : Row) : bool :=
  opt_eqb key_eqb (group_key r) (Some k).

(** [data.groupby([...])]: the keys in increasing order, each with its
    rows in table order. *)
Definition groupby (data : DataFrame) : list (Key * list Row) :=
  map (fun k => (k, filter (in_group k) (rows data)))
      (sort_by key_leb (unique key_eqb (present (map group_key (rows data))))).

(** [Series.mode()[0]]: the most frequent present value, the smallest one
    when several tie. *)
Definition mode0 (col : list (option string)) : option string :=
  let vs := present col in
  let counted := map (fun v => (v, count_if (String.eqb v) vs)) (unique String.eqb vs) in
  match counted with
  | [] => None
  | c :: cs =>
      let best := max_Z (snd c) (map snd cs) in
      hd_error (sort_by String.leb
                  (map fst (filter (fun vc => snd vc =? best) counted)))
  end.

(** [Series.isna().all()] *)
Definition all_missing {A} (col : list (option A)) : bool :=
  forallb (fun c => match c with None => true | Some _ => false end) col.

Definition group_first (g : list Row) : Z :=
  match map timestamp g with [] => 0 | t :: ts => min_Z t ts end.

Definition group_last (g : list Row) : Z :=
  match map timestamp g with [] => 0 | t :: ts => max_Z t ts end.

(** Lines 517-542: the body of the loop for one group; the list holds what
    the turn appends to [campaigns]. *)
Definition campaign_of_group (data : DataFrame) (timespan_days min_attacks : Z)
  (kg : Key * list Row) : list Campaign.t :=
  let '((source, target, attack), group) := kg in
  if Z.of_nat (List.length group) <? min_attacks then []
  else
    let group := sort_asc_Z timestamp group in
    let campaign_timespan := td_days (group_last group - group_first group) in
    if campaign_timespan <=? timespan_days then
      let attack_frequency :=
        (inject_Z (Z.of_nat (List.length group)) / inject_Z (Z.max campaign_timespan 1))%Q in
      [Campaign.mk source target attack
         (Z.of_nat (List.length group))
         (strftime_date (group_first group))
         (strftime_date (group_last group))
         campaign_timespan
         attack_frequency
         (if has_col "data_source" data
          then unique (opt_eqb String.eqb) (map (cat_cell DataSource) group)
          else [])
         (if has_col "severity" data && negb (all_missing (map severity group))
          then match mode0 (map severity group) with Some v => v | None => "Unknown" end
          else "Unknown")]
    else [].

Definition STRUCTURAL_COLUMNS : list string :=
  ["source_country"; "target_country"; "attack_type"].

(** The largest count of nanoseconds that [datetime64[ns]] and
    [timedelta64[ns]] hold, 2^63 - 1, and the most whole days of such a
    duration. *)
Definition INT64_MAX : Z := 9223372036854775807.
Definition MAX_TIMEDELTA_DAYS : Z := 106751.

(** An instant or a duration that pandas can hold. *)
Definition representable (x : Z) : Prop := Z.abs x <= INT64_MAX.

(** [repr] of an integer. *)
Definition repr_Z (z : Z) : string :=
  if z <? 0 then "-" ++ digits (- z) else digits z.

(** The [timedelta(days=timespan_days)] of line 508 as the subtraction from
    a [Timestamp] takes it: Python builds no [timedelta] of more than
    999999999 days (OverflowError), and pandas raises when the duration
    does not fit its 64-bit count of nanoseconds.  The value is the
    duration in nanoseconds; the wording of the second message is the
    library's. *)
Definition py_timedelta (d : Z) : exc Z :=
  if 999999999 <? Z.abs d
  then Raise ("days=" ++ repr_Z d ++ "; must have magnitude <= 999999999")
  else if INT64_MAX <? Z.abs (timedelta_days d)
  then Raise ("Cannot cast " ++ repr_Z d ++ " days, 0:00:00 to unit='ns' without overflow.")
  else Ok (timedelta_days d).

Definition identify_attack_campaign (df : DataFrame) (timespan_days min_attacks : Z)
  : M L (Result CampaignResult.t) :=
  if empty df then ret (Failure "No data provided")
  else
    try_except
      (data <- preprocess_data df ;;
       if negb (has_col "timestamp" data)
       then ret (Failure "Timestamp column is required for campaign identification")
       else
         delta <- call (py_timedelta timespan_days) ;;
         let start_date := ts_min data - delta in
         let campaigns :=
           if forallb (fun col => has_col col data) STRUCTURAL_COLUMNS
           then flat_map (campaign_of_group data timespan_days min_attacks) (groupby data)
           else [] in
         let campaigns := sort_desc_Z Campaign.attack_count campaigns in
         ret (Success
                (CampaignResult.mk campaigns (Z.of_nat (List.length campaigns))
                                   timespan_days min_attacks)))
      (fun e => ret (Failure e)).
End Methods.

Arguments preprocess_data {L} df.
Arguments train_clustering_model {L} df.
Arguments train_anomaly_detection_model {L} df contamination.
Arguments train_target_prediction_model {L} df.
Arguments analyze_temporal_patterns {L} df.
Arguments identify_attack_campaign {L} df timespan_days min_attacks.

(* ------------------------------------------------------------------ *)
(** ** [train_models_on_attack_data] (lines 628-674) *)

Module TrainingResult.
Record t (Report : Type) := mk {
  data_size : Z;
  timeframe : option string;
  clustering : Result ClusteringResult.t;
  anomaly : Result AnomalyResult.t;
  prediction : Result (PredictionResult.t Report);
  temporal : Result TemporalResult.t;
  campaigns : Result CampaignResult.t;
  timestamp : string }.
Arguments mk {Report}.
Arguments data_size {Report}.
Arguments timeframe {Report}.
Arguments clustering {Report}.
Arguments anomaly {Report}.
Arguments prediction {Report}.
Arguments temporal {Report}.
Arguments campaigns {Report}.
Arguments timestamp {Report}.
End TrainingResult.

(** Defaults of the keyword arguments. *)
Definition DEFAULT_CONTAMINATION : Q := 5 # 100.
Definition DEFAULT_TIMESPAN_DAYS : Z := 30.
Definition DEFAULT_MIN_ATTACKS : Z := 5.

Section Orchestrator.
Context (L : Libs).

(** Lines 649-670, run on the analyzer created at line 650. *)
Definition train_all (attack_df : DataFrame) (timeframe : option string)
  : M L (TrainingResult.t (Report L)) :=
  clustering_results <- train_clustering_model attack_df ;;
  anomaly_results <- train_anomaly_detection_model attack_df DEFAULT_CONTAMINATION ;;
  prediction_results <- train_target_prediction_model attack_df ;;
  temporal_results <- analyze_temporal_patterns attack_df ;;
  campaign_results <-
    identify_attack_campaign attack_df DEFAULT_TIMESPAN_DAYS DEFAULT_MIN_ATTACKS ;;
  t <- datetime_now L ;;
  ret (TrainingResult.mk (len attack_df) timeframe
         clustering_results anomaly_results prediction_results
         temporal_results campaign_results (strftime_full t)).

(** [db_manager] stands for [attacks_to_dataframe(get_attacks(time_range))]:
    the table fetched for a time range, or the exception raised. *)
Definition train_models_on_attack_data
  (db_manager : option string -> exc DataFrame) (timeframe : option string)
  (w : World L) : Result (TrainingResult.t (Report L)) * World L :=
  match db_manager timeframe with
  | Raise e => (Failure e, w)
  | Ok attack_df =>
      if empty attack_df then (Failure "No attack data available", w)
      else
        match train_all attack_df timeframe (mkState L (new_analyzer L) w) with
        | (Ok r, st) => (Success r, world st)
        | (Raise e, st) => (Failure e, world st)
        end
  end.
End Orchestrator.

Arguments train_all {L} attack_df timeframe.
Arguments train_models_on_attack_data {L} db_manager timeframe w.

(* ------------------------------------------------------------------ *)
(** ** The analyzer's other methods: prediction and the model store *)

(** What [predict_attack_likelihood], [load_model] and
    [get_available_models] use beside [Libs]: the classifier interface of a
    fitted pipeline and the files under models/. *)
Record StoreLibs (L : Libs) := mkStoreLibs {
  (* model.predict_proba(X): one row of probabilities per row of X *)
  predict_proba : Model L -> DataFrame -> exc (list (list Q));
  (* model.classes_ *)
  classes_ : Model L -> exc (list string);
  (* bool(model), the test of [if self.prediction_model:] *)
  truthy : Model L -> bool;
  (* os.path.exists(path) *)
  path_exists : string -> World L -> bool;
  (* joblib.load(path) *)
  joblib_load : string -> World L -> exc (Model L);
  (* os.listdir(path) *)
  listdir : string -> World L -> exc (list string)
}.

Arguments predict_proba {L} s.
Arguments classes_ {L} s.
Arguments truthy {L} s.
Arguments path_exists {L} s.
Arguments joblib_load {L} s.
Arguments listdir {L} s.

Module Likelihood.
Record t := mk {
  predictions : list (string * Q);
  timeframe_days : Z;
  source_country : option string;
  attack_type : option string;
  timestamp : string }.
End Likelihood.

Module AvailableModels.
Record t := mk {
  clustering : list string;
  anomaly : list string;
  prediction : list string }.
End AvailableModels.

(** [x if x else 'unknown']: [None] and the empty string are falsy. *)
Definition or_unknown (x : option string) : string :=
  match x with
  | Some s => if String.eqb s "" then "unknown" else s
  | None => "unknown"
  end.

(** [s.endswith(suffix)] *)
Fixpoint endswith (suffix s : string) : bool :=
  if String.eqb s suffix then true
  else match s with
       | EmptyString => false
       | String _ s' => endswith suffix s'
       end.

(** [s.startswith(prefix)] *)
Definition startswith (prefix s : string) : bool := String.prefix prefix s.

(** The name under models/ of the file that a fit writes. *)
Definition model_basename (kind : string) (t : Z) : string :=
  kind ++ "_model_" ++ strftime_compact t ++ ".joblib".

Section StoreMethods.
Context (L : Libs) (S : StoreLibs L).

(** Reads of the instance fields. *)
Definition get_self : M L (Analyzer L) := fun st => (Ok (self st), st).
Definition get_world : M L (World L) := fun st => (Ok (world st), st).

(** The one-row table of lines 436-440. *)
Definition sample_of (source_country attack_type : option string) (t : Z) : DataFrame :=
  mkDataFrame ["source_country"; "attack_type"; "timestamp"]
    [mkRow t
       (mkCats (Some (or_unknown attack_type)) (Some (or_unknown source_country)) None None)
       (mkNums None None None None) None
       (mkTemporal 0 0 0 0 0) (mkFreqs None None) (mkMarks 0 0%Q 0)].

(** Lines 459-461: [probabilities[0][i]] for every class; an index out of
    range raises. *)
Definition class_probabilities (class_names : list string) (probabilities : list (list Q))
  : exc (list (string * Q)) :=
  match class_names, probabilities with
  | [], _ => Ok []
  | _ :: _, [] => Raise "index 0 is out of bounds for axis 0 with size 0"
  | _ :: _, row :: _ =>
      if Nat.leb (List.length class_names) (List.length row)
      then Ok (dict_of_zip class_names row)
      else Raise "index is out of bounds for axis 0"
  end.

(** *** [predict_attack_likelihood] (lines 419-479) *)
Definition predict_attack_likelihood
  (source_country attack_type : option string) (timeframe_days : Z)
  : M L (Result Likelihood.t) :=
  a <- get_self ;;
  match prediction_model a with
  | None => ret (Failure "Prediction model not trained")
  | Some _ =>
      try_except
        (t <- datetime_now L ;;
         sample <- preprocess_data (sample_of source_country attack_type t) ;;
         a <- get_self ;;
         match prediction_model a with
         | Some model =>
             if truthy S model then
               let prediction_features :=
                 filter (fun col => mem_str col (features a)
                                    && negb (String.eqb col "target_country"))
                        (columns sample) in
               if negb (forallb (fun feature => has_col feature sample) prediction_features)
               then ret (Failure "Sample data does not have all required features")
               else
                 probabilities <-
                   call (predict_proba S model (select prediction_features sample)) ;;
                 class_names <- call (classes_ S model) ;;
                 predictions <- call (class_probabilities class_names probabilities) ;;
                 let predictions := firstn 5 (sort_desc_Q snd predictions) in
                 t' <- datetime_now L ;;
                 ret (Success
                        (Likelihood.mk predictions timeframe_days source_country attack_type
                                       (strftime_full t')))
             else ret (Failure "Prediction model not available")
         | None => ret (Failure "Prediction model not available")
         end)
        (fun e => ret (Failure e))
  end.

(** *** [load_model] (lines 561-596) *)
Definition load_model (model_type path : string) : M L bool :=
  try_except
    (w <- get_world ;;
     if negb (path_exists S path w) then ret false
     else
       model <- call (joblib_load S path w) ;;
       if String.eqb model_type "clustering"
       then modify_self L (set_clustering_model L model) ;; ret true
       else if String.eqb model_type "anomaly"
       then modify_self L (set_anomaly_model L model) ;; ret true
       else if String.eqb model_type "prediction"
       then modify_self L (set_prediction_model L model) ;; ret true
       else ret false)
    (fun _ => ret false).

(** *** [get_available_models] (lines 598-625) *)
Definition no_models : AvailableModels.t := AvailableModels.mk [] [] [].

Definition get_available_models : M L AvailableModels.t :=
  try_except
    (w <- get_world ;;
     if negb (path_exists S MODEL_DIR w) then ret no_models
     else
       files <- call (listdir S MODEL_DIR w) ;;
       let model_files := filter (endswith ".joblib") files in
       ret (AvailableModels.mk
              (filter (startswith "clustering_model_") model_files)
              (filter (startswith "anomaly_model_") model_files)
              (filter (startswith "prediction_model_") model_files)))
    (fun _ => ret no_models).
End StoreMethods.

Arguments get_self {L}.
Arguments get_world {L}.
Arguments predict_attack_likelihood {L} S source_country attack_type timeframe_days.
Arguments load_model {L} S model_type path.
Arguments get_available_models {L} S.

(* ------------------------------------------------------------------ *)
(** ** The database side of the orchestrator ([database_manager.py]) *)

(** A row of the table [attacks]; [add_attack] takes the timestamp as a
    required argument, the other fields default to None. *)
Module Attack.
Record t := mk {
  attack_type : option string;
  source_country : option string;
  target_country : option string;
  source_latitude : option Q;
  source_longitude : option Q;
  target_latitude : option Q;
  target_longitude : option Q;
  timestamp : Z;
  severity : option string;
  data_source : option string }.
End Attack.

(** The dictionary of [_get_region_for_country] (lines 226-267). *)
Definition region_map : list (string * string) :=
  [("United States", "North America"); ("Canada", "North America");
   ("Mexico", "North America");
   ("Brazil", "South America"); ("Argentina", "South America");
   ("Colombia", "South America"); ("Chile", "South America"); ("Peru", "South America");
   ("United Kingdom", "Europe"); ("Germany", "Europe"); ("France", "Europe");
   ("Italy", "Europe"); ("Spain", "Europe"); ("Russia", "Europe"); ("Ukraine", "Europe");
   ("China", "Asia"); ("Japan", "Asia"); ("South Korea", "Asia"); ("North Korea", "Asia");
   ("India", "Asia"); ("Vietnam", "Asia"); ("Singapore", "Asia");
   ("Israel", "Middle East"); ("Iran", "Middle East"); ("Saudi Arabia", "Middle East");
   ("Turkey", "Middle East"); ("Iraq", "Middle East"); ("Egypt", "Middle East");
   ("South Africa", "Africa"); ("Nigeria", "Africa"); ("Kenya", "Africa");
   ("Morocco", "Africa");
   ("Australia", "Oceania"); ("New Zealand", "Oceania")].

(** [d.get(key, default)] *)
Fixpoint dict_get (d : list (string * string)) (key default : string) : string :=
  match d with
  | [] => default
  | (k, v) :: t => if String.eqb k key then v else dict_get t key default
  end.

(** [_get_region_for_country] (lines 221-269): a missing or empty country
    has the region "Unknown". *)
Definition _get_region_for_country (country : option string) : string :=
  match country with
  | None => "Unknown"
  | Some c => if String.eqb c "" then "Unknown" else dict_get region_map c "Unknown"
  end.

(** Truth value of an optional string argument. *)
Definition given (x : option string) : option string :=
  match x with
  | Some s => if String.eqb s "" then None else Some s
  | None => None
  end.

(** Lines 186-197: the start of the time window, when the range names one. *)
Definition start_time_of (now : Z) (time_range : option string) : option Z :=
  match given time_range with
  | None => None
  | Some r =>
      if String.eqb r "Last 24 hours" then Some (now - timedelta_days 1)
      else if String.eqb r "Last 7 days" then Some (now - timedelta_days 7)
      else if String.eqb r "Last 30 days" then Some (now - timedelta_days 30)
      else if String.eqb r "Last 90 days" then Some (now - timedelta_days 90)
      else None
  end.

Definition in_time_window (start_time : option Z) (a : Attack.t) : bool :=
  match start_time with
  | Some s => s <=? Attack.timestamp a
  | None => true
  end.

(** Lines 203-204: no filter for a missing type, the empty string or "All". *)
Definition of_attack_type (attack_type : option string) (a : Attack.t) : bool :=
  match given attack_type with
  | None => true
  | Some ty =>
      if String.eqb ty "All" then true
      else opt_eqb String.eqb (Attack.attack_type a) (Some ty)
  end.

(** Lines 210-217. *)
Definition in_region (region : option string) (a : Attack.t) : bool :=
  match given region with
  | None => true
  | Some r =>
      if String.eqb r "All" then true
      else mem_str r [_get_region_for_country (Attack.source_country a);
                      _get_region_for_country (Attack.target_country a)]
  end.

(** [get_attacks] (lines 181-219) on the rows of the table [attacks] and the
    reading of the clock. *)
Definition get_attacks (table : list Attack.t) (now : Z)
  (time_range region attack_type : option string) : list Attack.t :=
  let query := filter (in_time_window (start_time_of now time_range)) table in
  let query := filter (of_attack_type attack_type) query in
  filter (in_region region) query.

(** The columns of the dictionaries of lines 305-316, in order. *)
Definition ATTACK_COLUMNS : list string :=
  ["attack_type"; "source_country"; "target_country";
   "source_latitude"; "source_longitude"; "target_latitude"; "target_longitude";
   "timestamp"; "severity"; "source"].

(** One row of the table: the data source goes to the column named
    'source', which is carried by name only. *)
Definition row_of_attack (a : Attack.t) : Row :=
  mkRow (Attack.timestamp a)
        (mkCats (Attack.attack_type a) (Attack.source_country a)
                (Attack.target_country a) None)
        (mkNums (Attack.source_latitude a) (Attack.source_longitude a)
                (Attack.target_latitude a) (Attack.target_longitude a))
        (Attack.severity a)
        (mkTemporal 0 0 0 0 0) (mkFreqs None None) (mkMarks 0 0%Q 0).

(** [attacks_to_dataframe] (lines 300-319): [pd.DataFrame] of an empty
    list has no column. *)
Definition attacks_to_dataframe (attacks : list Attack.t) : DataFrame :=
  match attacks with
  | [] => empty_frame
  | _ :: _ => mkDataFrame ATTACK_COLUMNS (map row_of_attack attacks)
  end.

(** The [db_manager] of [train_models_on_attack_data] over a table and a
    clock reading: lines 641-644. *)
Definition db_manager_of (table : list Attack.t) (now : Z) (timeframe : option string)
  : exc DataFrame :=
  Ok (attacks_to_dataframe (get_attacks table now timeframe None None)).

(* ------------------------------------------------------------------ *)
(** ** Views of tables and results used to state the properties *)

(** What the anomaly fit computes from the table alone: the scored table,
    or nothing when a library call raises before the model is stored. *)
Definition scored_table (L : Libs) (df : DataFrame) (contamination : Q) : option DataFrame :=
  let data := preprocess_table df in
  let feature_cols := feature_cols_of NOT_FEATURES data in
  let categorical_cols := categorical_cols_of feature_cols in
  let numerical_cols := numerical_cols_of data categorical_cols feature_cols in
  let X := select feature_cols data in
  match iforest_fit L contamination RANDOM_STATE numerical_cols categorical_cols X with
  | Raise _ => None
  | Ok pipeline =>
      match decision_function L pipeline X, predict L pipeline X with
      | Ok scores, Ok predictions =>
          match assign_values "anomaly_score" set_anomaly_score scores data with
          | Ok data1 =>
              match assign_values "is_anomaly" set_is_anomaly
                      (map (fun p => if p =? -1 then 1 else 0) predictions) data1 with
              | Ok data2 => Some data2
              | Raise _ => None
              end
          | Raise _ => None
          end
      | _, _ => None
      end
  end.

(** The rows flagged is_anomaly=1, in table order. *)
Definition flagged (data : DataFrame) : list Row :=
  filter (fun r => is_anomaly (marks r) =? 1) (rows data).

(** The cluster labels of a clustered table. *)
Definition labels_of (data : DataFrame) : list Z :=
  map (fun r => cluster (marks r)) (rows data).

(** Number of missing cells, and of cells already holding the text
    'unknown', in a categorical column. *)
Definition count_missing (col : list (option string)) : Z :=
  count_if (fun c => match c with None => true | Some _ => false end) col.
Definition count_unknown (col : list (option string)) : Z :=
  count_if (opt_eqb String.eqb (Some "unknown")) col.

Definition cat_column (c : CatCol) (df : DataFrame) : list (option string) :=
  map (cat_cell c) (rows df).

Definition fill_unknown (cell : option string) : option string :=
  fillna (Some "unknown") cell.

(** The table on which the frequencies are computed. *)
Definition imputed (df : DataFrame) : DataFrame :=
  fold_left fill_categorical categorical_features
    (fold_left fill_numeric numerical_features (add_temporal df)).

Definition source_country_frequencies (df : DataFrame) : list (option Z) :=
  map (fun r => source_country_frequency (freqs r)) (rows df).
Definition attack_type_frequencies (df : DataFrame) : list (option Z) :=
  map (fun r => attack_type_frequency (freqs r)) (rows df).

Definition num_column (c : NumCol) (df : DataFrame) : list (option Q) :=
  map (num_cell c) (rows df).

(** The grouping key of a campaign, and the events of the engineered table
    that carry it. *)
Definition campaign_key (c : Campaign.t) : Key :=
  (Campaign.source_country c, Campaign.target_country c, Campaign.attack_type c).

Definition events_of (c : Campaign.t) (data : DataFrame) : list Row :=
  filter (in_group (campaign_key c)) (rows data).

(** The campaigns of a result; a failure carries none. *)
Definition campaigns_of {S} (r : exc (Result CampaignResult.t) * S) : list Campaign.t :=
  match fst r with
  | Ok (Success p) => CampaignResult.campaigns p
  | _ => []
  end.

(** The names of the columns that [preprocess_data] adds. *)
Definition DERIVED_COLUMNS : list string :=
  ["hour_of_day"; "day_of_week"; "month"; "year"; "weekend";
   "source_country_frequency"; "attack_type_frequency"].

(** The list that lines 511-545 build from the engineered table. *)
Definition campaigns_from (data : DataFrame) (timespan_days min_attacks : Z)
  : list Campaign.t :=
  sort_desc_Z Campaign.attack_count
    (if forallb (fun col => has_col col data) STRUCTURAL_COLUMNS
     then flat_map (campaign_of_group data timespan_days min_attacks) (groupby data)
     else []).

(** What a campaign of the table [data] is bound to for the parameters. *)
Definition campaign_within (data : DataFrame) (timespan_days min_attacks : Z)
  (c : Campaign.t) : Prop :=
  let g := events_of c data in
  g <> [] /\
  Campaign.attack_count c = Z.of_nat (List.length g) /\
  min_attacks <= Campaign.attack_count c /\
  Campaign.timespan_days c = td_days (group_last g - group_first g) /\
  Campaign.timespan_days c <= timespan_days /\
  group_last g - group_first g < timedelta_days (timespan_days + 1).

(** The spectrum that [analyze_temporal_patterns] examines for a table, and
    the components its loop keeps. *)
Definition spectrum (L : Libs) (data : DataFrame) : list Q :=
  fft_abs L (daily_counts_of data).

Definition half_spectrum (data : DataFrame) : Z :=
  Z.of_nat (List.length (fftfreq (Z.of_nat (List.length (daily_counts_of data))))) / 2.

Definition kept_components (L : Libs) (data : DataFrame) : list (Q * Q) :=
  dominant_periods_of (spectrum L data)
                      (fftfreq (Z.of_nat (List.length (daily_counts_of data)))).

(** The components the loop ranges over and compares with,
    [fft_values[1:half]]: the DC component (index 0) and the components from
    index [half] on are left out. *)
Definition scanned_components (L : Libs) (data : DataFrame) : list Q :=
  firstn (Z.to_nat (half_spectrum data - 1)) (skipn 1 (spectrum L data)).

Definition pattern_of (q : Q * Q) : Pattern.t := Pattern.mk (round1 (fst q)) (snd q).

Definition ts_column (df : DataFrame) : list Z := map timestamp (rows df).

(** A column seen through a projection of the rows. *)
Definition column_of {X} (proj : Row -> X) (df : DataFrame) : list X :=
  map proj (rows df).

(** The five derived cells of an instant, as lines 69-73 compute them. *)
Definition temporal_of (t : Z) : Temporal :=
  mkTemporal (dt_hour t) (dt_dayofweek t) (dt_month t) (dt_year t)
             (if 5 <=? dt_dayofweek t then 1 else 0).

(** Entries into [preprocess_data] recorded in a state. *)
Definition runs_of {L : Libs} (st : State L) : nat := preprocess_runs (self st).

(** A computation that does not enter [preprocess_data]. *)
Definition keeps_runs {L : Libs} {A} (c : M L A) : Prop :=
  forall st, runs_of (snd (c st)) = runs_of st.

(** [d'] has the columns of [d], in order, followed by some of [names]. *)
Definition extends_with (names : list string) (d d' : DataFrame) : Prop :=
  exists added, columns d' = columns d ++ added /\ incl added names.

(** The derived cells of a row agree with its timestamp and lie in their
    ranges. *)
Definition temporal_in_range (r : Row) : Prop :=
  let t := temporal r in
  hour_of_day t = dt_hour (timestamp r) /\ 0 <= hour_of_day t <= 23 /\
  day_of_week t = dt_dayofweek (timestamp r) /\ 0 <= day_of_week t <= 6 /\
  month t = dt_month (timestamp r) /\ 1 <= month t <= 12 /\
  year t = dt_year (timestamp r) /\
  weekend t = (if 5 <=? day_of_week t then 1 else 0).

(** A cell after imputation with [value]: a present cell is kept, a missing
    one takes the value. *)
Definition imputed_with {A} (value : A) (old new : option A) : Prop :=
  match old with
  | Some v => new = Some v
  | None => new = Some value
  end.

(** A frequency column against the categorical column it encodes: every
    cell holds the number of rows of the column with the same value. *)
Definition encodes_counts (col : list (option string)) (fs : list (option Z)) : Prop :=
  Forall2 (fun cell f =>
             exists v, cell = Some v /\
                       f = Some (count_if (opt_eqb String.eqb (Some v)) col) /\
                       1 <= count_if (opt_eqb String.eqb (Some v)) col
                         <= Z.of_nat (List.length col))
          col fs.

(** A computation that leaves a field of the analyzer as it is, whatever
    it returns or raises. *)
Definition preserves {L : Libs} {X A} (field : Analyzer L -> X) (c : M L A) : Prop :=
  forall st, field (self (snd (c st))) = field (self st).

(** The fit that [train_clustering_model] makes on a table (lines 110-136). *)
Definition clustering_fit (L : Libs) (df : DataFrame) : exc (Model L * list Z) :=
  let data := preprocess_table df in
  let feature_cols := feature_cols_of NOT_FEATURES data in
  let categorical_cols := categorical_cols_of feature_cols in
  let numerical_cols := numerical_cols_of data categorical_cols feature_cols in
  dbscan_fit L (5 # 10) 5 numerical_cols categorical_cols (select feature_cols data).

(** The write of a model of the given kind that a method makes when it
    starts in a state: the file is named after the clock reading. *)
Definition save_model (L : Libs) (kind : string) (m : Model L) (st : State L)
  : exc (World L) :=
  let (t, w) := now L (world st) in joblib_dump L m (model_path kind t) w.

(** A histogram of a calendar field over a list of instants, as
    [groupby(...).size().to_dict()] gives it: the values that occur, in
    increasing order, each with the number of instants that have it. *)
Definition histogram_of (field : Z -> Z) (ts : list Z) (h : list (Z * Z)) : Prop :=
  StronglySorted Z.lt (map fst h) /\
  (forall k, In k (map fst h) <-> In k (map field ts)) /\
  (forall k c, In (k, c) h -> c = count_if (fun t => field t =? k) ts /\ 1 <= c) /\
  sum_Z (map snd h) = Z.of_nat (List.length ts).

(** The peak of a histogram: the smallest value among those with the
    largest count. *)
Definition peak_of (h : list (Z * Z)) (k : Z) : Prop :=
  exists c, In (k, c) h /\
            forall k' c', In (k', c') h -> c' <= c /\ (c' = c -> k <= k').

(** The columns of the engineered one-row sample of
    [predict_attack_likelihood]. *)
Definition SAMPLE_COLUMNS : list string :=
  ["source_country"; "attack_type"; "timestamp";
   "hour_of_day"; "day_of_week"; "month"; "year"; "weekend";
   "source_country_frequency"; "attack_type_frequency"].

(** The three kinds of model, and the list [get_available_models] files a
    kind under. *)
Definition MODEL_KINDS : list string := ["clustering"; "anomaly"; "prediction"].

Definition listed (r : AvailableModels.t) (kind : string) : list string :=
  if String.eqb kind "clustering" then AvailableModels.clustering r
  else if String.eqb kind "anomaly" then AvailableModels.anomaly r
  else if String.eqb kind "prediction" then AvailableModels.prediction r
  else [].

(** The model slot [load_model] writes for a kind. *)
Definition set_model {L : Libs} (kind : string) (m : Model L) (a : Analyzer L) : Analyzer L :=
  if String.eqb kind "clustering" then set_clustering_model L m a
  else if String.eqb kind "anomaly" then set_anomaly_model L m a
  else if String.eqb kind "prediction" then set_prediction_model L m a
  else a.

(** The names [_get_region_for_country] can return. *)
Definition REGIONS : list string :=
  ["North America"; "South America"; "Europe"; "Asia"; "Middle East"; "Africa";
   "Oceania"; "Unknown"].

(** The time ranges that [get_attacks] knows. *)
Definition TIME_RANGES : list string :=
  ["Last 24 hours"; "Last 7 days"; "Last 30 days"; "Last 90 days"].

(* ------------------------------------------------------------------ *)
(** ** Concrete libraries and tables for the examples *)

(** A world that is only a clock: every reading advances it by a second and
    every write to the model store succeeds. *)
Definition tick (w : Z) : Z * Z := (w, w + NS_PER_SECOND).

(** The spectrum of a constant series: the whole mass sits in the DC
    component.  Exact on the daily counts of a table with the same number of
    events every day, which is all the examples feed it. *)
Definition flat_spectrum (x : list Z) : list Q :=
  match x with
  | [] => []
  | c :: t => inject_Z (fold_left Z.add t c) :: map (fun _ => 0%Q) t
  end.

Lemma flat_spectrum_length : forall x, List.length (flat_spectrum x) = List.length x.
Proof. intros [|c t]; simpl; [reflexivity | now rewrite length_map]. Qed.

(** DBSCAN on fewer rows than [min_samples]: no row has enough neighbours to
    be a core point, so every row is noise. *)
Definition dbscan_small (eps : Q) (min_samples : Z) (num cat : list string) (X : DataFrame)
  : exc (unit * list Z) :=
  if len X <? min_samples
  then Ok (tt, map (fun _ => -1) (rows X))
  else Raise "dbscan_small: more rows than the example covers".

(** An isolation forest that flags the rows whose hour of day is 3: a
    stand-in with the interface of the real one. *)
Definition night_scores (X : DataFrame) : list Q :=
  map (fun r => if hour_of_day (temporal r) =? 3 then (-1 # 10)%Q else (1 # 10)%Q) (rows X).
Definition night_flags (X : DataFrame) : list Z :=
  map (fun r => if hour_of_day (temporal r) =? 3 then -1 else 1) (rows X).

(** The libraries of the examples: clustering of small tables, the stand-in
    anomaly detector, no classifier. *)
Definition small_libs : Libs :=
  mkLibs unit unit Z
    tick
    (fun _ _ w => Ok w)
    dbscan_small
    (fun _ _ _ _ _ => Ok tt)
    (fun _ X => Ok (night_scores X))
    (fun _ X => Ok (night_flags X))
    (fun _ _ _ _ => Raise "With n_samples=1, the resulting train set will be empty")
    (fun _ _ _ _ _ _ => Raise "not fitted")
    (fun _ _ => Raise "not fitted")
    (fun _ _ => Raise "not fitted")
    (fun _ _ => Raise "not fitted")
    (fun _ _ => Raise "not fitted")
    (fun _ => None)
    (fun _ _ => Raise "not fitted")
    (fun _ _ => Raise "not fitted")
    flat_spectrum
    flat_spectrum_length.

(** Libraries in which every fit raises. *)
Definition failing_libs : Libs :=
  mkLibs unit unit Z
    tick
    (fun _ _ w => Ok w)
    (fun _ _ _ _ _ => Raise "Input contains NaN")
    (fun _ _ _ _ _ => Raise "Input contains NaN")
    (fun _ _ => Raise "not fitted")
    (fun _ _ => Raise "not fitted")
    (fun _ _ _ _ => Raise "not fitted")
    (fun _ _ _ _ _ _ => Raise "not fitted")
    (fun _ _ => Raise "not fitted")
    (fun _ _ => Raise "not fitted")
    (fun _ _ => Raise "not fitted")
    (fun _ _ => Raise "not fitted")
    (fun _ => None)
    (fun _ _ => Raise "not fitted")
    (fun _ _ => Raise "not fitted")
    flat_spectrum
    flat_spectrum_length.

Definition no_cats : Cats := mkCats None None None None.
Definition no_nums : Nums := mkNums None None None None.
Definition no_temporal : Temporal := mkTemporal 0 0 0 0 0.
Definition no_freqs : Freqs := mkFreqs None None.
Definition no_marks : Marks := mkMarks 0 0%Q 0.

(** A raw event: only the cells of the raw columns are given. *)
Definition event (t : Z) (k : Cats) (n : Nums) (sev : option string) : Row :=
  mkRow t k n sev no_temporal no_freqs no_marks.

(** 2024-01-01 00:00:00 *)
Definition T0 : Z := 19723 * NS_PER_DAY.

Definition initial_state (L : Libs) (w : World L) : State L :=
  mkState L (new_analyzer L) w.

(** A table that has its columns and no row. *)
Definition no_events : DataFrame :=
  mkDataFrame ["attack_type"; "source_country"; "target_country"; "timestamp"] [].

(** One event whose every optional field is missing, in a table without a
    timestamp column. *)
Definition bare_event : DataFrame :=
  mkDataFrame ["source_latitude"] [event T0 no_cats no_nums None].

(** The database hands out [bare_event] for every time range. *)
Definition fetch_bare_event (time_range : option string) : exc DataFrame := Ok bare_event.

(** Two events, at 03:00 and at 10:00 of the same day. *)
Definition two_nights : DataFrame :=
  mkDataFrame ["timestamp"]
    [event (T0 + 3 * NS_PER_HOUR) no_cats no_nums None;
     event (T0 + 10 * NS_PER_HOUR) no_cats no_nums None].

(** One event, in a table that has only the timestamp column. *)
Definition one_event : DataFrame :=
  mkDataFrame ["timestamp"] [event (T0 + 10 * NS_PER_HOUR) no_cats no_nums None].

(** Two events from the same unknown place: only the second says so. *)
Definition unknown_twice : DataFrame :=
  mkDataFrame ["timestamp"; "source_country"; "attack_type"]
    [event T0 (mkCats (Some "DDoS") None None None) no_nums None;
     event (T0 + NS_PER_HOUR) (mkCats None (Some "unknown") None None) no_nums None].

(** Two events without coordinates of the source; the target latitude is
    known for the first one. *)
Definition no_source_position : DataFrame :=
  mkDataFrame ["timestamp"; "source_latitude"; "target_latitude"]
    [event T0 no_cats (mkNums None None (Some (481 # 10)) None) None;
     event (T0 + NS_PER_HOUR) no_cats no_nums None].

Definition from_x_to_y : Cats := mkCats (Some "DDoS") (Some "X") (Some "Y") None.

(** Five DDoS events from X to Y; the last one comes thirty days and twelve
    hours after the first four. *)
Definition slow_campaign : DataFrame :=
  mkDataFrame ["timestamp"; "attack_type"; "source_country"; "target_country"]
    [event T0 from_x_to_y no_nums None;
     event T0 from_x_to_y no_nums None;
     event T0 from_x_to_y no_nums None;
     event T0 from_x_to_y no_nums None;
     event (T0 + 30 * NS_PER_DAY + 12 * NS_PER_HOUR) from_x_to_y no_nums None].

(** The same five events in a table that has no source_country column. *)
Definition no_source_column : DataFrame :=
  mkDataFrame ["timestamp"; "attack_type"; "target_country"] (rows slow_campaign).

(** Five events with their three structural columns and no timestamp. *)
Definition no_timestamp_column : DataFrame :=
  mkDataFrame ["attack_type"; "source_country"; "target_country"] (rows slow_campaign).

(** Events at 10:00 on two days out of three, for fifteen days: on, off, on. *)
Definition two_days_in_three : DataFrame :=
  mkDataFrame ["timestamp"]
    (flat_map
       (fun i =>
          if Nat.eqb (i mod 3) 1 then []
          else [event (T0 + Z.of_nat i * NS_PER_DAY + 10 * NS_PER_HOUR) no_cats no_nums None])
       (seq 0 15)).

(** The daily counts of [two_days_in_three], the series (1,0,1) repeated
    five times: its transform has its mass at the frequencies 0, 5 and 10,
    with magnitudes 10, 5 and 5. *)
Definition on_off_on : list Z := [1; 0; 1; 1; 0; 1; 1; 0; 1; 1; 0; 1; 1; 0; 1].
Definition on_off_on_spectrum : list Z := [10; 0; 0; 0; 0; 5; 0; 0; 0; 0; 5; 0; 0; 0; 0].

(** The series (6,0,6,1) repeated four times: its transform is
    4 * (6 + 6 + 1) = 52 at frequency 0, 4 * |6 - 6 + i| = 4 at the
    frequencies 4 and 12, and 4 * (6 - 0 + 6 - 1) = 44 at frequency 8. *)
Definition alternating : list Z := [6; 0; 6; 1; 6; 0; 6; 1; 6; 0; 6; 1; 6; 0; 6; 1].
Definition alternating_spectrum : list Z :=
  [52; 0; 0; 0; 4; 0; 0; 0; 44; 0; 0; 0; 4; 0; 0; 0].

Definition list_Z_eqb (x y : list Z) : bool :=
  Nat.eqb (List.length x) (List.length y)
  && forallb (fun ab => fst ab =? snd ab) (combine x y).

(** The magnitudes of the transform of the two series above; any other
    series gets [flat_spectrum]. *)
Definition known_spectrum (x : list Z) : list Q :=
  if list_Z_eqb x on_off_on then map inject_Z on_off_on_spectrum
  else if list_Z_eqb x alternating then map inject_Z alternating_spectrum
  else flat_spectrum x.

Definition comb_spectrum (x : list Z) : list Q :=
  if Nat.eqb (List.length (known_spectrum x)) (List.length x)
  then known_spectrum x
  else flat_spectrum x.

Lemma comb_spectrum_length : forall x, List.length (comb_spectrum x) = List.length x.
Proof.
  intros x. unfold comb_spectrum.
  destruct (Nat.eqb_spec (List.length (known_spectrum x)) (List.length x)) as [E | _].
  - exact E.
  - apply flat_spectrum_length.
Qed.

(** Sixteen days of events at 10:00: six, none, six and one a day, four
    times over. *)
Definition busy_every_other_day : DataFrame :=
  mkDataFrame ["timestamp"]
    (flat_map
       (fun i =>
          repeat (event (T0 + Z.of_nat i * NS_PER_DAY + 10 * NS_PER_HOUR) no_cats no_nums None)
                 (Z.to_nat (nth i alternating 0)))
       (seq 0 16)).

(** [small_libs] with the spectra of the two series. *)
Definition comb_libs : Libs :=
  mkLibs unit unit Z
    tick
    (fun _ _ w => Ok w)
    dbscan_small
    (fun _ _ _ _ _ => Ok tt)
    (fun _ X => Ok (night_scores X))
    (fun _ X => Ok (night_flags X))
    (fun _ _ _ _ => Raise "not fitted")
    (fun _ _ _ _ _ _ => Raise "not fitted")
    (fun _ _ => Raise "not fitted")
    (fun _ _ => Raise "not fitted")
    (fun _ _ => Raise "not fitted")
    (fun _ _ => Raise "not fitted")
    (fun _ => None)
    (fun _ _ => Raise "not fitted")
    (fun _ _ => Raise "not fitted")
    comb_spectrum
    comb_spectrum_length.

(** The database hands out [two_nights] for every time range. *)
Definition fetch_two_nights (time_range : option string) : exc DataFrame := Ok two_nights.

(** Twenty DDoS events from X to Y, one every six hours: they span four days
    and eighteen hours, and the twenty-first closes the fifth day. *)
Definition six_hourly (n : nat) : DataFrame :=
  mkDataFrame ["timestamp"; "attack_type"; "source_country"; "target_country";
               "severity"; "data_source"]
    (map (fun i =>
            event (T0 + Z.of_nat i * 6 * NS_PER_HOUR)
                  (mkCats (Some "DDoS") (Some "X") (Some "Y")
                          (if Nat.even i then Some "feed-a" else None))
                  no_nums
                  (if Nat.eqb (i mod 3) 0 then Some "High" else Some "Critical"))
         (seq 0 n)).

(** The database has no attack for any time range. *)
Definition fetch_nothing (time_range : option string) : exc DataFrame := Ok empty_frame.

(** [small_libs] with a model store that cannot be written. *)
Definition full_disk_libs : Libs :=
  mkLibs unit unit Z
    tick
    (fun _ _ _ => Raise "No space left on device")
    dbscan_small
    (fun _ _ _ _ _ => Ok tt)
    (fun _ X => Ok (night_scores X))
    (fun _ X => Ok (night_flags X))
    (fun _ _ _ _ => Raise "not fitted")
    (fun _ _ _ _ _ _ => Raise "not fitted")
    (fun _ _ => Raise "not fitted")
    (fun _ _ => Raise "not fitted")
    (fun _ _ => Raise "not fitted")
    (fun _ _ => Raise "not fitted")
    (fun _ => None)
    (fun _ _ => Raise "not fitted")
    (fun _ _ => Raise "not fitted")
    flat_spectrum
    flat_spectrum_length.

(** A stand-in classifier and model store for [small_libs]: three target
    countries with fixed probabilities, and a directory with two models,
    a text file and a backup. *)
Definition forest_store : StoreLibs small_libs :=
  mkStoreLibs small_libs
    (fun _ X => Ok (map (fun _ => [(2 # 10)%Q; (5 # 10)%Q; (3 # 10)%Q]) (rows X)))
    (fun _ => Ok ["W"; "Y"; "Z"])
    (fun _ => true)
    (fun path _ => String.eqb path MODEL_DIR || endswith ".joblib" path)
    (fun _ _ => Ok tt)
    (fun _ _ => Ok ["clustering_model_20240101_000000.joblib";
                    "anomaly_model_20240101_000001.joblib";
                    "notes.txt";
                    "prediction_model_20240101_000002.joblib.bak"]).

(** An analyzer that holds a prediction model and the feature names of an
    earlier training. *)
Definition trained_state : State small_libs :=
  mkState small_libs
    (mkAnalyzer small_libs None None (Some tt)
       ["attack_type"; "source_country"; "target_country"; "severity"] 1)
    T0.

(** Four attacks in the table [attacks]: two days, ten days and a hundred
    days before 2024-01-01, and one dated a day after it. *)
Definition attack_at (t : Z) (source target : option string) : Attack.t :=
  Attack.mk (Some "DDoS") source target None None None None t (Some "High")
            (Some "feed-a").

Definition sample_attacks : list Attack.t :=
  [attack_at (T0 - timedelta_days 100) (Some "China") (Some "Germany");
   attack_at (T0 - timedelta_days 10) (Some "Brazil") None;
   attack_at (T0 - timedelta_days 2) (Some "Atlantis") (Some "United States");
   attack_at (T0 + timedelta_days 1) (Some "Japan") (Some "Australia")].

(* ------------------------------------------------------------------ *)
(** * Properties *)

#[local] Arguments String.eqb : simpl never.

(** ** The monad *)

Section MonadFacts.
Context {L : Libs}.

Lemma bind_ok {A B} (c : M L A) (k : A -> M L B) st b st'' :
  bind c k st = (Ok b, st'') ->
  exists a st', c st = (Ok a, st') /\ k a st' = (Ok b, st'').
Proof.
  unfold bind. destruct (c st) as [[msg | a] st'] eqn:E; intros H.
  - discriminate.
  - now exists a, st'.
Qed.

(** A [try] whose handler builds a failure dictionary always returns. *)
Lemma try_except_returns {A} (body : M L (Result A)) st :
  exists r st', try_except body (fun e => ret (Failure e)) st = (Ok r, st').
Proof.
  unfold try_except. destruct (body st) as [[msg | a] st']; unfold ret; eauto.
Qed.

Lemma try_except_success {A} (body : M L (Result A)) st p st' :
  try_except body (fun e => ret (Failure e)) st = (Ok (Success p), st') ->
  body st = (Ok (Success p), st').
Proof.
  unfold try_except, ret. destruct (body st) as [[msg | a] st0]; intros H.
  - discriminate.
  - exact H.
Qed.
End MonadFacts.

(** Every fit/analyze method returns a dictionary: nothing is raised out of
    it, whatever the libraries do. *)
Lemma train_clustering_model_returns (L : Libs) df (st : State L) :
  exists r st', train_clustering_model df st = (Ok r, st').
Proof.
  unfold train_clustering_model. destruct (empty df).
  - unfold ret; eauto.
  - apply try_except_returns.
Qed.

Lemma train_anomaly_detection_model_returns (L : Libs) df c (st : State L) :
  exists r st', train_anomaly_detection_model df c st = (Ok r, st').
Proof.
  unfold train_anomaly_detection_model. destruct (empty df).
  - unfold ret; eauto.
  - apply try_except_returns.
Qed.

Lemma train_target_prediction_model_returns (L : Libs) df (st : State L) :
  exists r st', train_target_prediction_model df st = (Ok r, st').
Proof.
  unfold train_target_prediction_model. destruct (empty df).
  - unfold ret; eauto.
  - apply try_except_returns.
Qed.

Lemma analyze_temporal_patterns_returns (L : Libs) df (st : State L) :
  exists r st', analyze_temporal_patterns df st = (Ok r, st').
Proof.
  unfold analyze_temporal_patterns. destruct (empty df).
  - unfold ret; eauto.
  - apply try_except_returns.
Qed.

Lemma identify_attack_campaign_returns (L : Libs) df d m (st : State L) :
  exists r st', identify_attack_campaign df d m st = (Ok r, st').
Proof.
  unfold identify_attack_campaign. destruct (empty df).
  - unfold ret; eauto.
  - apply try_except_returns.
Qed.

Lemma empty_no_rows df : rows df = [] -> empty df = true.
Proof. unfold empty. now intros ->. Qed.

(** ** C1: empty input *)

(** C1. Called on a table with zero rows, each of [train_clustering_model],
    [train_anomaly_detection_model], [train_target_prediction_model],
    [analyze_temporal_patterns] and [identify_attack_campaign] returns
    (it does not raise) the dictionary with success=False and the non-empty
    message 'No data provided', and leaves the analyzer as it was. *)
Theorem C1_empty_table_fails_softly
  (L : Libs) (df : DataFrame) (st : State L) (contamination : Q)
  (timespan_days min_attacks : Z) :
  rows df = [] ->
  exists msg,
    msg <> "" /\
    train_clustering_model df st = (Ok (Failure msg), st) /\
    train_anomaly_detection_model df contamination st = (Ok (Failure msg), st) /\
    train_target_prediction_model df st = (Ok (Failure msg), st) /\
    analyze_temporal_patterns df st = (Ok (Failure msg), st) /\
    identify_attack_campaign df timespan_days min_attacks st = (Ok (Failure msg), st).
Proof.
  intros Hrows. apply empty_no_rows in Hrows.
  exists "No data provided". split; [discriminate |].
  unfold train_clustering_model, train_anomaly_detection_model,
    train_target_prediction_model, analyze_temporal_patterns, identify_attack_campaign.
  rewrite Hrows. unfold ret. repeat split.
Qed.

Lemma C1_empty_table_fails_softly_witness :
  rows no_events = [] /\
  exists msg,
    msg <> "" /\
    train_clustering_model no_events (initial_state small_libs T0)
      = (Ok (Failure msg), initial_state small_libs T0) /\
    train_anomaly_detection_model no_events DEFAULT_CONTAMINATION (initial_state small_libs T0)
      = (Ok (Failure msg), initial_state small_libs T0) /\
    train_target_prediction_model no_events (initial_state small_libs T0)
      = (Ok (Failure msg), initial_state small_libs T0) /\
    analyze_temporal_patterns no_events (initial_state small_libs T0)
      = (Ok (Failure msg), initial_state small_libs T0) /\
    identify_attack_campaign no_events 30 5 (initial_state small_libs T0)
      = (Ok (Failure msg), initial_state small_libs T0).
Proof.
  split; [reflexivity |].
  apply (C1_empty_table_fails_softly small_libs no_events (initial_state small_libs T0)
           DEFAULT_CONTAMINATION 30 5).
  reflexivity.
Defined.

(** ** C10: the top-level success flag *)

Lemma train_all_returns (L : Libs) df tf (st : State L) :
  exists r st',
    train_all df tf st = (Ok r, st') /\
    TrainingResult.data_size r = len df.
Proof.
  unfold train_all, bind.
  destruct (train_clustering_model_returns L df st) as (r1 & st1 & ->).
  destruct (train_anomaly_detection_model_returns L df DEFAULT_CONTAMINATION st1)
    as (r2 & st2 & ->).
  destruct (train_target_prediction_model_returns L df st2) as (r3 & st3 & ->).
  destruct (analyze_temporal_patterns_returns L df st3) as (r4 & st4 & ->).
  destruct (identify_attack_campaign_returns L df DEFAULT_TIMESPAN_DAYS DEFAULT_MIN_ATTACKS st4)
    as (r5 & st5 & ->).
  unfold datetime_now, ret. destruct (now L (world st5)) as [t w].
  eexists _, _. split; reflexivity.
Qed.

(** C10. For every non-empty table fetched from the database,
    [train_models_on_attack_data] returns success=True with the size of the
    table: the five nested results are stored as the components returned
    them and none of them is looked at, so the flag is True also when every
    one of them has success=False. *)
Theorem C10_top_level_success_ignores_components
  (L : Libs) (db_manager : option string -> exc DataFrame) (timeframe : option string)
  (w : World L) (attack_df : DataFrame) :
  db_manager timeframe = Ok attack_df ->
  empty attack_df = false ->
  exists r w',
    train_models_on_attack_data db_manager timeframe w = (Success r, w') /\
    success (fst (train_models_on_attack_data db_manager timeframe w)) = true /\
    TrainingResult.data_size r = len attack_df.
Proof.
  intros Hdb Hne. unfold train_models_on_attack_data. rewrite Hdb, Hne.
  destruct (train_all_returns L attack_df timeframe (mkState L (new_analyzer L) w))
    as (r & st' & -> & Hsize).
  exists r, (world st'). repeat split; auto.
Qed.

(** The five nested results of the run on [bare_event] with libraries whose
    every fit raises: all of them are failures, under a successful bundle. *)
Lemma C10_top_level_success_ignores_components_witness :
  fetch_bare_event None = Ok bare_event /\
  empty bare_event = false /\
  exists r w',
    train_models_on_attack_data (L := failing_libs) fetch_bare_event None T0
      = (Success r, w') /\
    success (TrainingResult.clustering r) = false /\
    success (TrainingResult.anomaly r) = false /\
    success (TrainingResult.prediction r) = false /\
    success (TrainingResult.temporal r) = false /\
    success (TrainingResult.campaigns r) = false.
Proof.
  split; [reflexivity |]. split; [reflexivity |].
  destruct (C10_top_level_success_ignores_components failing_libs
              fetch_bare_event None T0 bare_event eq_refl eq_refl)
    as (r & w' & Hrun & _ & _).
  exists r, w'. split; [exact Hrun |].
  vm_compute in Hrun. injection Hrun as <- <-. vm_compute. repeat split.
Defined.

(** ** Stepping through a method body *)

Section Stepping.
Context {L : Libs}.

Lemma call_ok {A} (r : exc A) (st st' : State L) a :
  call r st = (Ok a, st') -> r = Ok a /\ st' = st.
Proof. unfold call. intros H. injection H as -> ->. auto. Qed.

Lemma ret_ok {A} (x a : A) (st st' : State L) :
  ret x st = (Ok a, st') -> a = x /\ st' = st.
Proof. unfold ret. intros H. injection H as -> ->. auto. Qed.

Lemma preprocess_data_ok df (st st' : State L) data :
  preprocess_data df st = (Ok data, st') ->
  data = preprocess_table df.
Proof.
  unfold preprocess_data, bind, modify_self, ret.
  destruct (empty df) eqn:He; simpl; intros H; injection H as <- _.
  - unfold preprocess_table. now rewrite He.
  - reflexivity.
Qed.

Lemma preprocess_data_returns df (st : State L) :
  exists st', preprocess_data df st = (Ok (preprocess_table df), st').
Proof.
  unfold preprocess_data, bind, modify_self, ret.
  destruct (empty df) eqn:He; simpl.
  - unfold preprocess_table. rewrite He. eauto.
  - eauto.
Qed.
End Stepping.

(** [run H] opens the binds of the successful run [H] one after the other,
    leaving one equation for each library call. *)
Ltac run H :=
  repeat
    (let v := fresh "v" in
     let st := fresh "st" in
     let E := fresh "E" in
     apply bind_ok in H; destruct H as (v & st & E & H);
     first [ apply call_ok in E; destruct E as (E & ->)
           | apply preprocess_data_ok in E; subst v
           | idtac ];
     repeat match type of H with
            | context [match ?x with pair _ _ => _ end] => is_var x; destruct x
            end).

Ltac rewrite_calls :=
  repeat match goal with
         | E : _ = Ok _ |- _ => rewrite E; clear E
         end.


(** ** C7: repeated anomaly fits *)

Lemma anomaly_success_scored (L : Libs) df c (st st' : State L) p :
  train_anomaly_detection_model df c st = (Ok (Success p), st') ->
  let data := AnomalyResult.data_with_scores p in
  scored_table L df c = Some data /\
  AnomalyResult.anomalous_data p
  = mkDataFrame (columns data)
      (sort_by (fun x y => Qle_bool (anomaly_score (marks x)) (anomaly_score (marks y)))
               (flagged data)) /\
  AnomalyResult.anomaly_count p
  = sum_Z (map (fun r => is_anomaly (marks r)) (rows data)).
Proof.
  unfold train_anomaly_detection_model. destruct (empty df).
  - intros H. apply ret_ok in H. destruct H; discriminate.
  - intros H. apply try_except_success in H.
    run H. apply ret_ok in H. destruct H as (H & _). injection H as ->.
    unfold scored_table. simpl. rewrite_calls. auto.
Qed.

(** C7. Two runs of [train_anomaly_detection_model] on the same table with
    the same contamination (the seed is the constant [random_state=42] of
    both), started from any two analyzer states, clocks and model stores,
    flag the same rows: when both succeed, their scored tables, their
    flagged rows, their tables of anomalous rows and their anomaly counts
    are equal. *)
Theorem C7_anomaly_fit_deterministic
  (L : Libs) (df : DataFrame) (contamination : Q)
  (st1 st2 st1' st2' : State L) (p1 p2 : AnomalyResult.t) :
  train_anomaly_detection_model df contamination st1 = (Ok (Success p1), st1') ->
  train_anomaly_detection_model df contamination st2 = (Ok (Success p2), st2') ->
  AnomalyResult.data_with_scores p1 = AnomalyResult.data_with_scores p2 /\
  flagged (AnomalyResult.data_with_scores p1) = flagged (AnomalyResult.data_with_scores p2) /\
  AnomalyResult.anomalous_data p1 = AnomalyResult.anomalous_data p2 /\
  AnomalyResult.anomaly_count p1 = AnomalyResult.anomaly_count p2.
Proof.
  intros H1 H2.
  destruct (anomaly_success_scored L df contamination st1 st1' p1 H1) as (S1 & R1 & C1).
  destruct (anomaly_success_scored L df contamination st2 st2' p2 H2) as (S2 & R2 & C2).
  assert (Heq : AnomalyResult.data_with_scores p1 = AnomalyResult.data_with_scores p2)
    by congruence.
  rewrite R1, R2, C1, C2, Heq. auto.
Qed.

(** The second run starts from the analyzer, the clock and the model store
    that the first one left. *)
Lemma C7_anomaly_fit_deterministic_witness :
  exists p1 p2 st1 st2,
    train_anomaly_detection_model two_nights DEFAULT_CONTAMINATION
      (initial_state small_libs T0) = (Ok (Success p1), st1) /\
    train_anomaly_detection_model two_nights DEFAULT_CONTAMINATION st1
      = (Ok (Success p2), st2) /\
    AnomalyResult.model_filename p1 <> AnomalyResult.model_filename p2 /\
    List.length (flagged (AnomalyResult.data_with_scores p1)) = 1%nat /\
    AnomalyResult.data_with_scores p1 = AnomalyResult.data_with_scores p2 /\
    flagged (AnomalyResult.data_with_scores p1) = flagged (AnomalyResult.data_with_scores p2) /\
    AnomalyResult.anomalous_data p1 = AnomalyResult.anomalous_data p2 /\
    AnomalyResult.anomaly_count p1 = AnomalyResult.anomaly_count p2.
Proof.
  destruct (train_anomaly_detection_model two_nights DEFAULT_CONTAMINATION
              (initial_state small_libs T0)) as [[m1 | [m1 | p1]] st1] eqn:E1;
    try (vm_compute in E1; discriminate).
  destruct (train_anomaly_detection_model two_nights DEFAULT_CONTAMINATION st1)
    as [[m2 | [m2 | p2]] st2] eqn:E2;
    try (vm_compute in E1; injection E1 as <- <-; vm_compute in E2; discriminate).
  exists p1, p2, st1, st2. split; [reflexivity |]. split; [exact E2 |].
  split; [| split].
  - vm_compute in E1. injection E1 as <- <-. vm_compute in E2. injection E2 as <- <-.
    vm_compute. discriminate.
  - vm_compute in E1. injection E1 as <- <-. reflexivity.
  - exact (C7_anomaly_fit_deterministic small_libs two_nights DEFAULT_CONTAMINATION
             (initial_state small_libs T0) st1 st1 st2 p1 p2 E1 E2).
Defined.

(** ** Rows through [preprocess_data] *)

Lemma rows_assign name f df : rows (assign name f df) = map f (rows df).
Proof. reflexivity. Qed.

Lemma length_rows_assign name f df :
  List.length (rows (assign name f df)) = List.length (rows df).
Proof. simpl. apply length_map. Qed.

Lemma length_rows_fill_numeric data col :
  List.length (rows (fill_numeric data col)) = List.length (rows data).
Proof.
  unfold fill_numeric. destruct (has_col _ data); [apply length_rows_assign | reflexivity].
Qed.

Lemma length_rows_fill_categorical data col :
  List.length (rows (fill_categorical data col)) = List.length (rows data).
Proof.
  unfold fill_categorical. destruct (has_col _ data); [apply length_rows_assign | reflexivity].
Qed.

Lemma length_rows_fold {C} (f : DataFrame -> C -> DataFrame) (cols : list C) :
  (forall d c, List.length (rows (f d c)) = List.length (rows d)) ->
  forall data, List.length (rows (fold_left f cols data)) = List.length (rows data).
Proof.
  intros Hf. induction cols as [|c cols IH]; intros data; simpl.
  - reflexivity.
  - now rewrite IH, Hf.
Qed.

(** Feature engineering drops no row. *)
Lemma length_rows_preprocess_table df :
  empty df = false ->
  List.length (rows (preprocess_table df)) = List.length (rows df).
Proof.
  intros He. unfold preprocess_table. rewrite He.
  unfold add_attack_type_frequency, add_source_country_frequency.
  repeat match goal with
         | |- context [if has_col ?c ?d then _ else _] => destruct (has_col c d)
         end;
    repeat rewrite length_rows_assign;
    rewrite (length_rows_fold fill_categorical _ length_rows_fill_categorical);
    rewrite (length_rows_fold fill_numeric _ length_rows_fill_numeric);
    unfold add_temporal; destruct (has_col "timestamp" df);
    repeat rewrite length_rows_assign; reflexivity.
Qed.

(** ** C3: the noise figure of the clustering fit *)

Lemma zip_rows_cluster labels rs :
  List.length labels = List.length rs ->
  map (fun r => cluster (marks r)) (zip_rows set_cluster labels rs) = labels.
Proof.
  revert rs. induction labels as [|l labels IH]; intros [|r rs] Hlen; simpl in *;
    try discriminate; try reflexivity.
  f_equal. apply IH. now injection Hlen.
Qed.

Lemma assign_values_ok {B} name (set : B -> Row -> Row) values df data :
  assign_values name set values df = Ok data ->
  List.length values = List.length (rows df) /\
  rows data = zip_rows set values (rows df).
Proof.
  unfold assign_values.
  destruct (Nat.eqb (List.length values) (List.length (rows df))) eqn:E; intros H.
  - injection H as <-. apply Nat.eqb_eq in E. auto.
  - discriminate.
Qed.

Lemma length_zip_rows {B} (set : B -> Row -> Row) values rs :
  List.length values = List.length rs ->
  List.length (zip_rows set values rs) = List.length rs.
Proof.
  revert rs. induction values as [|v values IH]; intros [|r rs] Hlen; simpl in *;
    try discriminate; try reflexivity.
  f_equal. apply IH. now injection Hlen.
Qed.

Lemma count_if_bounds {A} (p : A -> bool) l :
  0 <= count_if p l <= Z.of_nat (List.length l).
Proof.
  unfold count_if. pose proof (filter_length_le p l). lia.
Qed.

Lemma percentage_bounds (c n : Z) :
  0 <= c <= n -> 0 < n ->
  (0 <= inject_Z c / inject_Z n * inject_Z 100 <= 100)%Q.
Proof.
  intros Hc Hn. destruct n as [|n|n]; try lia.
  unfold Qle, Qdiv, Qmult, Qinv, inject_Z. simpl. split; nia.
Qed.

Lemma clustering_success_labels (L : Libs) df (st st' : State L) p :
  train_clustering_model df st = (Ok (Success p), st') ->
  empty df = false /\
  List.length (rows (ClusteringResult.clustered_data p)) = List.length (rows df) /\
  ClusteringResult.noise_percentage p
  = noise_percentage_of (labels_of (ClusteringResult.clustered_data p)) /\
  ClusteringResult.n_clusters p
  = n_clusters_of (labels_of (ClusteringResult.clustered_data p)).
Proof.
  unfold train_clustering_model. destruct (empty df) eqn:He.
  - intros H. apply ret_ok in H. destruct H; discriminate.
  - intros H. apply try_except_success in H.
    run H. apply ret_ok in H. destruct H as (H & _). injection H as ->. simpl.
    match goal with
    | E : assign_values _ _ _ _ = Ok _ |- _ =>
        apply assign_values_ok in E; destruct E as (Hlen & Hrows)
    end.
    unfold labels_of. rewrite Hrows, zip_rows_cluster by exact Hlen.
    rewrite length_zip_rows by exact Hlen.
    rewrite length_rows_preprocess_table by exact He. auto.
Qed.

(** C3 as stated fails: on a table of one event the fit labels the row as
    noise, so one row out of one is labelled -1 and the ratio is 1, but the
    value returned is 100. *)
Lemma C3_noise_ratio_counterexample :
  empty one_event = false /\
  exists p st',
    train_clustering_model one_event (initial_state small_libs T0) = (Ok (Success p), st') /\
    labels_of (ClusteringResult.clustered_data p) = [-1] /\
    (ClusteringResult.noise_percentage p == inject_Z 100)%Q /\
    ~ (ClusteringResult.noise_percentage p == inject_Z 1 / inject_Z 1)%Q /\
    ~ (ClusteringResult.noise_percentage p <= 1)%Q.
Proof.
  split; [reflexivity |].
  destruct (train_clustering_model one_event (initial_state small_libs T0))
    as [[m | [m | p]] st'] eqn:E; try (vm_compute in E; discriminate).
  exists p, st'. split; [reflexivity |].
  vm_compute in E. injection E as <- <-.
  split; [reflexivity |]. split; [reflexivity |]. split.
  - vm_compute. discriminate.
  - vm_compute. intros H. apply H. reflexivity.
Qed.

(** C3, amended. Whenever [train_clustering_model] succeeds, the table is
    non-empty, the clustered table has the rows of the input, and the figure
    returned as noise_percentage is the share of rows labelled -1 expressed
    in percent: 100 * (rows labelled -1) / (total rows), between 0 and 100. *)
Theorem C3_noise_percentage
  (L : Libs) (df : DataFrame) (st st' : State L) (p : ClusteringResult.t) :
  train_clustering_model df st = (Ok (Success p), st') ->
  let labels := labels_of (ClusteringResult.clustered_data p) in
  let total := Z.of_nat (List.length labels) in
  total = len df /\ 0 < total /\
  (ClusteringResult.noise_percentage p
   == inject_Z 100 * (inject_Z (count_if (Z.eqb (-1)) labels) / inject_Z total))%Q /\
  (0 <= ClusteringResult.noise_percentage p <= 100)%Q.
Proof.
  intros H. destruct (clustering_success_labels L df st st' p H) as (He & Hlen & Hnp & _).
  intros labels total.
  assert (Htotal : total = len df).
  { unfold total, labels, labels_of, len. now rewrite length_map, Hlen. }
  assert (Hpos : 0 < total).
  { rewrite Htotal. unfold len. unfold empty in He.
    destruct (rows df); [discriminate | simpl; lia]. }
  split; [exact Htotal |]. split; [exact Hpos |].
  rewrite Hnp. unfold noise_percentage_of. fold labels. fold total.
  destruct (Z.ltb_spec 0 total) as [_ | Hbad]; [| lia].
  split.
  - field. intros Hz. unfold Qeq in Hz. simpl in Hz. lia.
  - apply percentage_bounds; [apply count_if_bounds | exact Hpos].
Qed.

Lemma C3_noise_percentage_witness :
  exists p st',
    train_clustering_model one_event (initial_state small_libs T0) = (Ok (Success p), st') /\
    let labels := labels_of (ClusteringResult.clustered_data p) in
    let total := Z.of_nat (List.length labels) in
    total = len one_event /\ 0 < total /\
    (ClusteringResult.noise_percentage p
     == inject_Z 100 * (inject_Z (count_if (Z.eqb (-1)) labels) / inject_Z total))%Q /\
    (0 <= ClusteringResult.noise_percentage p <= 100)%Q.
Proof.
  destruct (train_clustering_model one_event (initial_state small_libs T0))
    as [[m | [m | p]] st'] eqn:E; try (vm_compute in E; discriminate).
  exists p, st'. split; [reflexivity |].
  exact (C3_noise_percentage small_libs one_event (initial_state small_libs T0) st' p E).
Defined.

(** ** Columns through [preprocess_data] *)

Lemma has_col_assign c name f df :
  has_col c (assign name f df) = has_col c df || String.eqb c name.
Proof.
  unfold assign, has_col, mem_str, memb. simpl.
  destruct (existsb (String.eqb name) (columns df)) eqn:E.
  - destruct (String.eqb_spec c name) as [-> | Hne].
    + now rewrite E.
    + now rewrite orb_false_r.
  - rewrite existsb_app. simpl. now rewrite orb_false_r.
Qed.

Lemma has_col_assign_mono c name f df :
  has_col c df = true -> has_col c (assign name f df) = true.
Proof. intros H. now rewrite has_col_assign, H. Qed.

Lemma has_col_add_temporal_mono c df :
  has_col c df = true -> has_col c (add_temporal df) = true.
Proof.
  intros H. unfold add_temporal. destruct (has_col "timestamp" df); [| exact H].
  now repeat apply has_col_assign_mono.
Qed.

Lemma has_col_fill_numeric_mono c df col :
  has_col c df = true -> has_col c (fill_numeric df col) = true.
Proof.
  intros H. unfold fill_numeric. destruct (has_col (num_name col) df); [| exact H].
  now apply has_col_assign_mono.
Qed.

Lemma has_col_fill_categorical_mono c df col :
  has_col c df = true -> has_col c (fill_categorical df col) = true.
Proof.
  intros H. unfold fill_categorical. destruct (has_col (cat_name col) df); [| exact H].
  now apply has_col_assign_mono.
Qed.

Lemma has_col_fold_mono {C} (f : DataFrame -> C -> DataFrame) c (cols : list C) :
  (forall d x, has_col c d = true -> has_col c (f d x) = true) ->
  forall df, has_col c df = true -> has_col c (fold_left f cols df) = true.
Proof.
  intros Hf. induction cols as [|x cols IH]; intros df H; simpl; auto.
Qed.

(** ** Categorical cells through [preprocess_data] *)

Lemma cat_column_assign c name f df :
  (forall r, cat_cell c (f r) = cat_cell c r) ->
  cat_column c (assign name f df) = cat_column c df.
Proof.
  intros Hf. unfold cat_column. simpl. rewrite map_map. now apply map_ext.
Qed.

Lemma cat_column_add_temporal c df : cat_column c (add_temporal df) = cat_column c df.
Proof.
  unfold add_temporal. destruct (has_col "timestamp" df); [| reflexivity].
  repeat (rewrite cat_column_assign; [| intros r; destruct c; reflexivity]).
  reflexivity.
Qed.

Lemma cat_column_fill_numeric c df col :
  cat_column c (fill_numeric df col) = cat_column c df.
Proof.
  unfold fill_numeric. destruct (has_col (num_name col) df); [| reflexivity].
  apply cat_column_assign. intros r. destruct c, col; reflexivity.
Qed.

Lemma cat_column_fold_numeric c cols :
  forall df, cat_column c (fold_left fill_numeric cols df) = cat_column c df.
Proof.
  induction cols as [|x cols IH]; intros df; simpl; [reflexivity |].
  now rewrite IH, cat_column_fill_numeric.
Qed.

Lemma cat_column_fill_same c df :
  has_col (cat_name c) df = true ->
  cat_column c (fill_categorical df c) = map fill_unknown (cat_column c df).
Proof.
  intros H. unfold fill_categorical. rewrite H. unfold cat_column. simpl.
  rewrite !map_map. apply map_ext. intros r. destruct c; reflexivity.
Qed.

Lemma cat_column_fill_other c c' df :
  c <> c' -> cat_column c (fill_categorical df c') = cat_column c df.
Proof.
  intros Hne. unfold fill_categorical. destruct (has_col (cat_name c') df); [| reflexivity].
  apply cat_column_assign. intros r. destruct c, c'; try reflexivity; congruence.
Qed.

Lemma fill_unknown_idem cell : fill_unknown (fill_unknown cell) = fill_unknown cell.
Proof. now destruct cell. Qed.

(** After the loop of lines 80-82 a categorical column that the table has
    holds 'unknown' wherever it was missing. *)
Lemma cat_column_fold_categorical c df :
  has_col (cat_name c) df = true ->
  cat_column c (fold_left fill_categorical categorical_features df)
  = map fill_unknown (cat_column c df).
Proof.
  intros H. unfold categorical_features. simpl.
  destruct c.
  - rewrite !cat_column_fill_other by discriminate. now apply cat_column_fill_same.
  - rewrite !cat_column_fill_other by discriminate.
    rewrite cat_column_fill_same by now apply has_col_fill_categorical_mono.
    now rewrite cat_column_fill_other by discriminate.
  - rewrite !cat_column_fill_other by discriminate.
    rewrite cat_column_fill_same by now repeat apply has_col_fill_categorical_mono.
    now rewrite !cat_column_fill_other by discriminate.
  - rewrite cat_column_fill_same by now repeat apply has_col_fill_categorical_mono.
    now rewrite !cat_column_fill_other by discriminate.
Qed.

Lemma cat_column_imputed c df :
  has_col (cat_name c) df = true ->
  cat_column c (imputed df) = map fill_unknown (cat_column c df).
Proof.
  intros H. unfold imputed.
  rewrite cat_column_fold_categorical.
  - now rewrite cat_column_fold_numeric, cat_column_add_temporal.
  - apply has_col_fold_mono; [apply has_col_fill_numeric_mono |].
    now apply has_col_add_temporal_mono.
Qed.

Lemma has_col_imputed_mono c df :
  has_col c df = true -> has_col c (imputed df) = true.
Proof.
  intros H. unfold imputed.
  apply has_col_fold_mono; [apply has_col_fill_categorical_mono |].
  apply has_col_fold_mono; [apply has_col_fill_numeric_mono |].
  now apply has_col_add_temporal_mono.
Qed.

Lemma preprocess_table_imputed df :
  empty df = false ->
  preprocess_table df
  = add_attack_type_frequency (add_source_country_frequency (imputed df)).
Proof. intros He. unfold preprocess_table. now rewrite He. Qed.

(** ** C9: the frequency of the imputed value *)

Lemma source_country_frequencies_add d :
  has_col "source_country" d = true ->
  source_country_frequencies (add_attack_type_frequency (add_source_country_frequency d))
  = map (frequency (cat_column SourceCountry d)) (cat_column SourceCountry d).
Proof.
  intros H. unfold source_country_frequencies, add_attack_type_frequency,
    add_source_country_frequency, cat_column.
  rewrite H.
  match goal with
  | |- context [if has_col "attack_type" ?x then _ else _] => destruct (has_col "attack_type" x)
  end; simpl; rewrite !map_map; reflexivity.
Qed.

Lemma attack_type_frequencies_add d :
  has_col "attack_type" d = true ->
  attack_type_frequencies (add_attack_type_frequency (add_source_country_frequency d))
  = map (frequency (cat_column AttackType d)) (cat_column AttackType d).
Proof.
  intros H.
  assert (Hcol : cat_column AttackType (add_source_country_frequency d)
                 = cat_column AttackType d).
  { unfold add_source_country_frequency.
    destruct (has_col "source_country" d); [| reflexivity].
    now apply cat_column_assign. }
  assert (Hhas : has_col "attack_type" (add_source_country_frequency d) = true).
  { unfold add_source_country_frequency.
    destruct (has_col "source_country" d); [| exact H].
    now apply has_col_assign_mono. }
  rewrite <- Hcol.
  generalize dependent (add_source_country_frequency d). intros d' _ Hhas.
  unfold attack_type_frequencies, add_attack_type_frequency, cat_column.
  rewrite Hhas. simpl. rewrite !map_map. reflexivity.
Qed.

Lemma source_country_frequencies_preprocess df :
  empty df = false ->
  has_col "source_country" df = true ->
  source_country_frequencies (preprocess_table df)
  = map (frequency (map fill_unknown (cat_column SourceCountry df)))
        (map fill_unknown (cat_column SourceCountry df)).
Proof.
  intros He H. rewrite preprocess_table_imputed by exact He.
  rewrite source_country_frequencies_add by now apply has_col_imputed_mono.
  now rewrite cat_column_imputed.
Qed.

Lemma attack_type_frequencies_preprocess df :
  empty df = false ->
  has_col "attack_type" df = true ->
  attack_type_frequencies (preprocess_table df)
  = map (frequency (map fill_unknown (cat_column AttackType df)))
        (map fill_unknown (cat_column AttackType df)).
Proof.
  intros He H. rewrite preprocess_table_imputed by exact He.
  rewrite attack_type_frequencies_add by now apply has_col_imputed_mono.
  now rewrite cat_column_imputed.
Qed.

(** The rows equal to 'unknown' after imputation are the rows that were
    missing and the rows that already said 'unknown'. *)
Lemma count_unknown_imputed col :
  count_unknown (map fill_unknown col) = count_missing col + count_unknown col.
Proof.
  unfold count_unknown, count_missing, count_if.
  induction col as [|[v|] col IH].
  - reflexivity.
  - cbn [map filter fill_unknown fillna opt_eqb].
    destruct (String.eqb "unknown" v); cbn [List.length];
      rewrite ?Nat2Z.inj_succ; rewrite IH; lia.
  - cbn [map filter fill_unknown fillna opt_eqb]. rewrite String.eqb_refl.
    cbn [List.length]. rewrite ?Nat2Z.inj_succ, IH. lia.
Qed.

Lemma frequency_of_missing col :
  Forall2 (fun cell f => cell = None -> f = Some (count_missing col + count_unknown col))
          col
          (map (frequency (map fill_unknown col)) (map fill_unknown col)).
Proof.
  rewrite map_map.
  pose proof (count_unknown_imputed col) as Hc.
  set (filled := map fill_unknown col) in *.
  clearbody filled. revert Hc. generalize (count_missing col + count_unknown col).
  intros n Hc. induction col as [|cell col IH]; simpl; constructor; auto.
  intros ->. simpl. unfold count_unknown in Hc. now rewrite Hc.
Qed.

(** C9 as stated fails: the first event of [unknown_twice] has no source
    country and is the only such row, yet its source_country_frequency is 2:
    the second event, whose source country is the text 'unknown', is counted
    with it. *)
Lemma C9_frequency_of_missing_counterexample :
  exists data st',
    preprocess_data unknown_twice (initial_state small_libs T0) = (Ok data, st') /\
    nth_error (cat_column SourceCountry unknown_twice) 0 = Some None /\
    count_missing (cat_column SourceCountry unknown_twice) = 1 /\
    nth_error (source_country_frequencies data) 0 = Some (Some 2).
Proof.
  destruct (preprocess_data_returns (L := small_libs) unknown_twice
              (initial_state small_libs T0)) as (st' & E).
  exists (preprocess_table unknown_twice), st'.
  split; [exact E |]. repeat split.
Qed.

(** C9, amended. [preprocess_data] imputes the categorical columns before it
    counts frequencies: on a non-empty table, every row whose source_country
    (attack_type) is missing receives as source_country_frequency
    (attack_type_frequency) the number of rows in which that field is
    missing plus the number of rows in which it already holds the text
    'unknown'. *)
Theorem C9_frequency_of_missing
  (L : Libs) (df : DataFrame) (st : State L) :
  empty df = false ->
  exists st',
    preprocess_data df st = (Ok (preprocess_table df), st') /\
    (has_col "source_country" df = true ->
     let col := cat_column SourceCountry df in
     Forall2 (fun cell f => cell = None -> f = Some (count_missing col + count_unknown col))
             col (source_country_frequencies (preprocess_table df))) /\
    (has_col "attack_type" df = true ->
     let col := cat_column AttackType df in
     Forall2 (fun cell f => cell = None -> f = Some (count_missing col + count_unknown col))
             col (attack_type_frequencies (preprocess_table df))).
Proof.
  intros He. destruct (preprocess_data_returns df st) as (st' & E).
  exists st'. split; [exact E |]. split; intros H col.
  - rewrite source_country_frequencies_preprocess by assumption.
    apply frequency_of_missing.
  - rewrite attack_type_frequencies_preprocess by assumption.
    apply frequency_of_missing.
Qed.

Lemma C9_frequency_of_missing_witness :
  empty unknown_twice = false /\
  exists st',
    preprocess_data unknown_twice (initial_state small_libs T0)
      = (Ok (preprocess_table unknown_twice), st') /\
    (has_col "source_country" unknown_twice = true ->
     let col := cat_column SourceCountry unknown_twice in
     Forall2 (fun cell f => cell = None -> f = Some (count_missing col + count_unknown col))
             col (source_country_frequencies (preprocess_table unknown_twice))) /\
    (has_col "attack_type" unknown_twice = true ->
     let col := cat_column AttackType unknown_twice in
     Forall2 (fun cell f => cell = None -> f = Some (count_missing col + count_unknown col))
             col (attack_type_frequencies (preprocess_table unknown_twice))).
Proof.
  split; [reflexivity |].
  apply (C9_frequency_of_missing small_libs unknown_twice (initial_state small_libs T0)).
  reflexivity.
Defined.

(** ** C4: a numeric column that is entirely missing *)

(** C4. On [no_source_position] the column source_latitude is entirely
    missing; after [preprocess_data] it still is: its median is NaN and
    filling with NaN changes nothing.  The column target_latitude, which has
    one value, is filled with it. *)
Lemma C4_all_missing_column_stays_missing :
  exists data st',
    preprocess_data no_source_position (initial_state small_libs T0) = (Ok data, st') /\
    has_col "source_latitude" data = true /\
    num_column SourceLatitude no_source_position = [None; None] /\
    num_column SourceLatitude data = [None; None] /\
    num_column SourceLatitude data <> [Some 0%Q; Some 0%Q] /\
    num_column TargetLatitude data = [Some (481 # 10); Some (481 # 10)].
Proof.
  destruct (preprocess_data_returns (L := small_libs) no_source_position
              (initial_state small_libs T0)) as (st' & E).
  exists (preprocess_table no_source_position), st'.
  split; [exact E |]. repeat split. vm_compute. discriminate.
Qed.

(** ** Sorting *)

Section Sorting.
Context {A : Type} (leb : A -> A -> bool).

Lemma insert_by_perm x l : Permutation (insert_by leb x l) (x :: l).
Proof.
  induction l as [|y l IH]; simpl.
  - reflexivity.
  - destruct (leb x y).
    + reflexivity.
    + rewrite IH. apply perm_swap.
Qed.

Lemma sort_by_perm l : Permutation (sort_by leb l) l.
Proof.
  induction l as [|x l IH]; simpl.
  - reflexivity.
  - unfold sort_by in *. simpl. rewrite insert_by_perm. now constructor.
Qed.

Lemma sort_by_length l : List.length (sort_by leb l) = List.length l.
Proof. apply Permutation_length, sort_by_perm. Qed.

Lemma sort_by_Forall (P : A -> Prop) l : Forall P l -> Forall P (sort_by leb l).
Proof.
  intros H. eapply Permutation_Forall; [| exact H].
  apply Permutation_sym, sort_by_perm.
Qed.

Hypothesis leb_total : forall a b, leb a b = true \/ leb b a = true.

Lemma insert_by_sorted x l :
  Sorted (fun a b => leb a b = true) l ->
  Sorted (fun a b => leb a b = true) (insert_by leb x l).
Proof.
  induction l as [|y l IH]; intros Hs; simpl.
  - repeat constructor.
  - destruct (leb x y) eqn:E.
    + constructor; [exact Hs |]. now constructor.
    + inversion Hs as [|? ? Hs' Hhd]; subst.
      constructor; [now apply IH |].
      destruct l as [|z l]; simpl.
      * constructor. destruct (leb_total x y); congruence.
      * destruct (leb x z).
        -- constructor. destruct (leb_total x y); congruence.
        -- inversion Hhd; subst. now constructor.
Qed.

Lemma sort_by_sorted l : Sorted (fun a b => leb a b = true) (sort_by leb l).
Proof.
  induction l as [|x l IH]; simpl.
  - constructor.
  - unfold sort_by in *. simpl. now apply insert_by_sorted.
Qed.
End Sorting.

(** [l.sort(key=..., reverse=True)] leaves the keys in decreasing order. *)
Lemma sort_desc_Z_sorted {A} (key : A -> Z) (l : list A) :
  StronglySorted (fun a b => key b <= key a) (sort_desc_Z key l).
Proof.
  assert (Hs : Sorted (fun a b => key b <= key a) (sort_desc_Z key l)).
  { unfold sort_desc_Z.
    eapply Sorted_ind with
      (P := fun l => Sorted (fun a b => key b <= key a) l);
      [constructor | | apply (sort_by_sorted (fun x y => key y <=? key x))].
    - intros a l0 _ IH Hhd. constructor; [exact IH |].
      destruct Hhd; constructor. now apply Z.leb_le.
    - intros a b. destruct (Z.le_ge_cases (key a) (key b)); [right | left];
        now apply Z.leb_le. }
  apply Sorted_StronglySorted; [| exact Hs].
  intros a b c Hab Hbc. lia.
Qed.

(** ** Earliest and latest event of a group *)

Lemma min_Z_spec x l :
  In (min_Z x l) (x :: l) /\ Forall (fun y => min_Z x l <= y) (x :: l).
Proof.
  unfold min_Z. revert x. induction l as [|y l IH]; intros x; simpl.
  - split; [auto | repeat constructor; lia].
  - destruct (IH (Z.min x y)) as (Hin & Hall). split.
    + destruct Hin as [Hin | Hin]; [| auto].
      rewrite <- Hin. destruct (Z.min_spec x y) as [[_ ->] | [_ ->]]; auto.
    + inversion Hall as [|? ? Hhd Htl]; subst.
      constructor; [lia |]. constructor; [lia | exact Htl].
Qed.

Lemma max_Z_spec x l :
  In (max_Z x l) (x :: l) /\ Forall (fun y => y <= max_Z x l) (x :: l).
Proof.
  unfold max_Z. revert x. induction l as [|y l IH]; intros x; simpl.
  - split; [auto | repeat constructor; lia].
  - destruct (IH (Z.max x y)) as (Hin & Hall). split.
    + destruct Hin as [Hin | Hin]; [| auto].
      rewrite <- Hin. destruct (Z.max_spec x y) as [[_ ->] | [_ ->]]; auto.
    + inversion Hall as [|? ? Hhd Htl]; subst.
      constructor; [lia |]. constructor; [lia | exact Htl].
Qed.

Lemma group_first_spec g :
  g <> [] ->
  In (group_first g) (map timestamp g) /\
  Forall (fun t => group_first g <= t) (map timestamp g).
Proof.
  intros Hne. unfold group_first. destruct g as [|r g]; [congruence |].
  simpl. apply min_Z_spec.
Qed.

Lemma group_last_spec g :
  g <> [] ->
  In (group_last g) (map timestamp g) /\
  Forall (fun t => t <= group_last g) (map timestamp g).
Proof.
  intros Hne. unfold group_last. destruct g as [|r g]; [congruence |].
  simpl. apply max_Z_spec.
Qed.

Lemma group_first_perm g g' : Permutation g g' -> group_first g = group_first g'.
Proof.
  intros Hp. destruct g as [|r g].
  - apply Permutation_nil in Hp. now subst.
  - assert (Hne : g' <> []).
    { intros ->. apply Permutation_sym, Permutation_nil in Hp. discriminate. }
    destruct (group_first_spec (r :: g)) as (Hin & Hall); [discriminate |].
    destruct (group_first_spec g' Hne) as (Hin' & Hall').
    rewrite Forall_forall in Hall, Hall'.
    assert (Hpm : Permutation (map timestamp (r :: g)) (map timestamp g'))
      by now apply Permutation_map.
    pose proof (Hall _ (Permutation_in _ (Permutation_sym Hpm) Hin')).
    pose proof (Hall' _ (Permutation_in _ Hpm Hin)).
    lia.
Qed.

Lemma group_last_perm g g' : Permutation g g' -> group_last g = group_last g'.
Proof.
  intros Hp. destruct g as [|r g].
  - apply Permutation_nil in Hp. now subst.
  - assert (Hne : g' <> []).
    { intros ->. apply Permutation_sym, Permutation_nil in Hp. discriminate. }
    destruct (group_last_spec (r :: g)) as (Hin & Hall); [discriminate |].
    destruct (group_last_spec g' Hne) as (Hin' & Hall').
    rewrite Forall_forall in Hall, Hall'.
    assert (Hpm : Permutation (map timestamp (r :: g)) (map timestamp g'))
      by now apply Permutation_map.
    pose proof (Hall _ (Permutation_in _ (Permutation_sym Hpm) Hin')).
    pose proof (Hall' _ (Permutation_in _ Hpm Hin)).
    lia.
Qed.

(** ** The result of [identify_attack_campaign] *)

(** The duration of line 508 can be built for at most [MAX_TIMEDELTA_DAYS]
    days either way. *)
Lemma py_timedelta_ok d :
  Z.abs d <= MAX_TIMEDELTA_DAYS -> py_timedelta d = Ok (timedelta_days d).
Proof.
  unfold py_timedelta, MAX_TIMEDELTA_DAYS, INT64_MAX, timedelta_days, NS_PER_DAY,
    NS_PER_SECOND.
  intros H.
  destruct (Z.ltb_spec 999999999 (Z.abs d)); [lia |].
  destruct (Z.ltb_spec 9223372036854775807 (Z.abs (d * (86400 * 1000000000))));
    [lia | reflexivity].
Qed.

Lemma py_timedelta_overflow d :
  MAX_TIMEDELTA_DAYS < Z.abs d -> exists msg, py_timedelta d = Raise msg.
Proof.
  unfold py_timedelta, MAX_TIMEDELTA_DAYS, INT64_MAX, timedelta_days, NS_PER_DAY,
    NS_PER_SECOND.
  intros H.
  destruct (Z.ltb_spec 999999999 (Z.abs d)); [eauto |].
  destruct (Z.ltb_spec 9223372036854775807 (Z.abs (d * (86400 * 1000000000))));
    [eauto | lia].
Qed.

Lemma py_timedelta_default :
  py_timedelta DEFAULT_TIMESPAN_DAYS = Ok (timedelta_days DEFAULT_TIMESPAN_DAYS).
Proof. apply py_timedelta_ok. unfold DEFAULT_TIMESPAN_DAYS, MAX_TIMEDELTA_DAYS. lia. Qed.

Lemma identify_attack_campaign_result (L : Libs) df ts ma (st : State L) :
  empty df = false ->
  exists st',
    identify_attack_campaign df ts ma st
    = (Ok (if negb (has_col "timestamp" (preprocess_table df))
           then Failure "Timestamp column is required for campaign identification"
           else match py_timedelta ts with
                | Raise e => Failure e
                | Ok _ =>
                    Success
                      (CampaignResult.mk
                         (campaigns_from (preprocess_table df) ts ma)
                         (Z.of_nat
                            (List.length (campaigns_from (preprocess_table df) ts ma)))
                         ts ma)
                end),
       st').
Proof.
  intros He. unfold identify_attack_campaign. rewrite He.
  unfold try_except, bind.
  destruct (preprocess_data_returns df st) as (st' & ->).
  exists st'. unfold campaigns_from.
  destruct (has_col "timestamp" (preprocess_table df)); [| reflexivity].
  cbn [negb]. unfold call. destruct (py_timedelta ts); reflexivity.
Qed.

Lemma campaigns_of_identify (L : Libs) df ts ma (st : State L) :
  campaigns_of (identify_attack_campaign df ts ma st) = [] \/
  campaigns_of (identify_attack_campaign df ts ma st)
  = campaigns_from (preprocess_table df) ts ma.
Proof.
  destruct (empty df) eqn:He.
  - left. unfold identify_attack_campaign. rewrite He. reflexivity.
  - destruct (identify_attack_campaign_result L df ts ma st He) as (st' & ->).
    unfold campaigns_of. simpl fst.
    destruct (negb (has_col "timestamp" (preprocess_table df))); [auto |].
    destruct (py_timedelta ts); auto.
Qed.

(** ** C2: what a returned campaign is bound to *)

Lemma unique_In {A} (eqb : A -> A -> bool) x l : In x (unique eqb l) -> In x l.
Proof.
  induction l as [|y l IH]; simpl; [auto |].
  intros [-> | H]; [auto |]. right. apply IH. now apply filter_In in H.
Qed.

Lemma present_In {A} (x : A) col : In x (present col) -> In (Some x) col.
Proof.
  unfold present. rewrite in_flat_map. intros ([y |] & Hin & Hx); simpl in Hx.
  - destruct Hx as [-> | []]. exact Hin.
  - destruct Hx.
Qed.

Lemma key_eqb_refl k : key_eqb k k = true.
Proof. destruct k as [[s t] a]. unfold key_eqb. now rewrite !String.eqb_refl. Qed.

Lemma groupby_group data k g :
  In (k, g) (groupby data) ->
  g = filter (in_group k) (rows data) /\ g <> [].
Proof.
  unfold groupby. rewrite in_map_iff. intros (k' & Heq & Hin).
  injection Heq as <- <-. split; [reflexivity |].
  apply (Permutation_in _ (sort_by_perm key_leb _)) in Hin.
  apply unique_In, present_In in Hin.
  apply in_map_iff in Hin. destruct Hin as (r & Hkey & Hr).
  intros Hnil.
  assert (Hf : In r (filter (in_group k') (rows data))).
  { apply filter_In. split; [exact Hr |].
    unfold in_group. rewrite Hkey. simpl. apply key_eqb_refl. }
  rewrite Hnil in Hf. exact Hf.
Qed.

Lemma span_below x d :
  td_days x <= d -> x < timedelta_days (d + 1).
Proof.
  unfold td_days, timedelta_days, NS_PER_DAY, NS_PER_SECOND. intros H.
  pose proof (Z.mod_pos_bound x (86400 * 1000000000) ltac:(lia)).
  pose proof (Z.div_mod x (86400 * 1000000000) ltac:(lia)). nia.
Qed.

Lemma campaign_of_group_within data ts ma k g c :
  g = filter (in_group k) (rows data) -> g <> [] ->
  In c (campaign_of_group data ts ma (k, g)) ->
  campaign_within data ts ma c.
Proof.
  intros Hg Hne. unfold campaign_of_group. destruct k as [[s t] a].
  destruct (Z.ltb_spec (Z.of_nat (List.length g)) ma) as [Hlt | Hge]; [intros [] |].
  unfold sort_asc_Z.
  rewrite (group_first_perm _ _ (sort_by_perm _ g)).
  rewrite (group_last_perm _ _ (sort_by_perm _ g)).
  rewrite sort_by_length.
  destruct (Z.leb_spec (td_days (group_last g - group_first g)) ts) as [Hle | Hgt];
    [| intros []].
  intros [<- | []]. unfold campaign_within, events_of, campaign_key. simpl.
  rewrite <- Hg. repeat split; auto. now apply span_below.
Qed.

Lemma campaigns_from_within data ts ma :
  Forall (campaign_within data ts ma) (campaigns_from data ts ma) /\
  StronglySorted (fun a b => Campaign.attack_count b <= Campaign.attack_count a)
                 (campaigns_from data ts ma).
Proof.
  unfold campaigns_from. split; [| apply sort_desc_Z_sorted].
  apply sort_by_Forall.
  destruct (forallb (fun col => has_col col data) STRUCTURAL_COLUMNS); [| constructor].
  apply Forall_forall. intros c Hc. apply in_flat_map in Hc.
  destruct Hc as ([k g] & Hkg & Hc).
  destruct (groupby_group data k g Hkg) as (Hg & Hne).
  now apply (campaign_of_group_within data ts ma k g c).
Qed.

(** C2 as stated fails: with timespan_days=30 and min_attacks=5 the five
    events of [slow_campaign] are returned as one campaign although the last
    event comes 30 days and 12 hours after the first, more than 30 days. *)
Lemma C2_span_counterexample :
  exists c,
    campaigns_of (identify_attack_campaign slow_campaign 30 5 (initial_state small_libs T0))
      = [c] /\
    let g := events_of c (preprocess_table slow_campaign) in
    Campaign.attack_count c = 5 /\
    Campaign.timespan_days c = 30 /\
    group_last g - group_first g = timedelta_days 30 + 12 * NS_PER_HOUR /\
    ~ group_last g - group_first g <= timedelta_days 30.
Proof.
  eexists. split; [vm_compute; reflexivity |].
  vm_compute. repeat split. intros H. apply H. reflexivity.
Qed.

(** C2, amended. For every table and all parameters, every campaign that
    [identify_attack_campaign] returns has attack_count >= min_attacks,
    counts exactly the events of the engineered table with its key, and has
    as timespan_days the whole days from its earliest to its latest event
    (a started day is dropped), which is <= timespan_days: the events span
    less than timespan_days + 1 days.  The list is in decreasing order of
    attack_count. *)
Theorem C2_campaigns_within_parameters
  (L : Libs) (df : DataFrame) (timespan_days min_attacks : Z) (st : State L) :
  let campaigns := campaigns_of (identify_attack_campaign df timespan_days min_attacks st) in
  Forall (campaign_within (preprocess_table df) timespan_days min_attacks) campaigns /\
  StronglySorted (fun a b => Campaign.attack_count b <= Campaign.attack_count a) campaigns.
Proof.
  intros campaigns. unfold campaigns.
  destruct (campaigns_of_identify L df timespan_days min_attacks st) as [-> | ->].
  - split; constructor.
  - apply campaigns_from_within.
Qed.

(** ** C5: missing structural columns *)

Lemma has_col_assign_present c name f df :
  has_col name df = true -> has_col c (assign name f df) = has_col c df.
Proof.
  intros H. rewrite has_col_assign. destruct (String.eqb_spec c name) as [-> | _].
  - now rewrite H.
  - apply orb_false_r.
Qed.

Lemma has_col_assign_other c name f df :
  String.eqb c name = false -> has_col c (assign name f df) = has_col c df.
Proof. intros H. rewrite has_col_assign, H. apply orb_false_r. Qed.

Lemma has_col_fill_numeric c df col : has_col c (fill_numeric df col) = has_col c df.
Proof.
  unfold fill_numeric. destruct (has_col (num_name col) df) eqn:E; [| reflexivity].
  now apply has_col_assign_present.
Qed.

Lemma has_col_fill_categorical c df col :
  has_col c (fill_categorical df col) = has_col c df.
Proof.
  unfold fill_categorical. destruct (has_col (cat_name col) df) eqn:E; [| reflexivity].
  now apply has_col_assign_present.
Qed.

Lemma has_col_fold {C} (f : DataFrame -> C -> DataFrame) c (cols : list C) :
  (forall d x, has_col c (f d x) = has_col c d) ->
  forall df, has_col c (fold_left f cols df) = has_col c df.
Proof.
  intros Hf. induction cols as [|x cols IH]; intros df; simpl; [reflexivity |].
  now rewrite IH, Hf.
Qed.

(** [preprocess_data] adds the derived columns and no other. *)
Lemma has_col_preprocess_table c df :
  empty df = false ->
  mem_str c DERIVED_COLUMNS = false ->
  has_col c (preprocess_table df) = has_col c df.
Proof.
  intros He Hc. rewrite preprocess_table_imputed by exact He.
  unfold DERIVED_COLUMNS, mem_str, memb in Hc. simpl in Hc.
  repeat (apply orb_false_elim in Hc; destruct Hc as (? & Hc)).
  unfold add_attack_type_frequency, add_source_country_frequency.
  repeat match goal with
         | |- context [if has_col ?x ?d then _ else _] =>
             match x with
             | "source_country" => destruct (has_col x d)
             | "attack_type" => destruct (has_col x d)
             end
         end;
    rewrite ?has_col_assign_other by assumption;
    unfold imputed;
    rewrite (has_col_fold fill_categorical c _ (has_col_fill_categorical c));
    rewrite (has_col_fold fill_numeric c _ (has_col_fill_numeric c));
    unfold add_temporal; destruct (has_col "timestamp" df);
    rewrite ?has_col_assign_other by assumption; reflexivity.
Qed.

Lemma campaigns_from_missing_column data ts ma :
  has_col "source_country" data = false \/
  has_col "target_country" data = false \/
  has_col "attack_type" data = false ->
  campaigns_from data ts ma = [].
Proof.
  intros H. unfold campaigns_from, STRUCTURAL_COLUMNS. simpl forallb.
  destruct H as [-> | [-> | ->]]; rewrite ?andb_false_r; reflexivity.
Qed.

(** C5 as stated fails: [no_source_column] has events and no source_country
    column, and [identify_attack_campaign] returns success=True, with an
    empty list of campaigns. *)
Lemma C5_missing_column_counterexample :
  empty no_source_column = false /\
  has_col "source_country" no_source_column = false /\
  exists p st',
    identify_attack_campaign no_source_column DEFAULT_TIMESPAN_DAYS DEFAULT_MIN_ATTACKS
      (initial_state small_libs T0) = (Ok (Success p), st') /\
    success (Success p) = true /\
    CampaignResult.campaigns p = [].
Proof.
  split; [reflexivity |]. split; [reflexivity |].
  eexists _, _. split; [vm_compute; reflexivity |]. split; reflexivity.
Qed.

(** C5, amended. On a non-empty table without a timestamp column
    [identify_attack_campaign] returns success=False with the message
    'Timestamp column is required for campaign identification'.  On a
    non-empty table that has the timestamp column, the start date of line
    508 is computed first: when [timespan_days] exceeds the 106751 days
    either way that a duration can hold, the method returns success=False
    with the message of the overflow, whatever the columns.  Otherwise,
    the start date being representable, a table that lacks source_country,
    target_country or attack_type gives success=True with no campaign at
    all (campaign_count 0): nothing is built from the partial data. *)
Theorem C5_missing_structural_column
  (L : Libs) (df : DataFrame) (timespan_days min_attacks : Z) (st : State L) :
  empty df = false ->
  (has_col "timestamp" df = false ->
   exists st',
     identify_attack_campaign df timespan_days min_attacks st
     = (Ok (Failure "Timestamp column is required for campaign identification"), st')) /\
  (has_col "timestamp" df = true ->
   MAX_TIMEDELTA_DAYS < Z.abs timespan_days ->
   exists msg st',
     identify_attack_campaign df timespan_days min_attacks st = (Ok (Failure msg), st')) /\
  (has_col "timestamp" df = true ->
   Z.abs timespan_days <= MAX_TIMEDELTA_DAYS ->
   representable (ts_min df - timedelta_days timespan_days) ->
   has_col "source_country" df = false \/
   has_col "target_country" df = false \/
   has_col "attack_type" df = false ->
   exists st',
     identify_attack_campaign df timespan_days min_attacks st
     = (Ok (Success (CampaignResult.mk [] 0 timespan_days min_attacks)), st')).
Proof.
  intros He.
  destruct (identify_attack_campaign_result L df timespan_days min_attacks st He)
    as (st' & ->).
  rewrite !has_col_preprocess_table by (exact He || reflexivity).
  split; [| split].
  - intros ->. exists st'. reflexivity.
  - intros -> Hbig. destruct (py_timedelta_overflow timespan_days Hbig) as (msg & ->).
    exists msg, st'. reflexivity.
  - intros -> Hfit _ Hmiss. exists st'.
    rewrite (py_timedelta_ok timespan_days Hfit).
    rewrite campaigns_from_missing_column; [reflexivity |].
    rewrite !has_col_preprocess_table by (exact He || reflexivity). exact Hmiss.
Qed.

Lemma C5_missing_structural_column_witness :
  empty no_timestamp_column = false /\
  has_col "timestamp" no_timestamp_column = false /\
  (exists st',
     identify_attack_campaign no_timestamp_column 30 5 (initial_state small_libs T0)
     = (Ok (Failure "Timestamp column is required for campaign identification"), st')) /\
  empty no_source_column = false /\
  has_col "timestamp" no_source_column = true /\
  MAX_TIMEDELTA_DAYS < Z.abs 1000000000 /\
  (exists msg st',
     identify_attack_campaign no_source_column 1000000000 5 (initial_state small_libs T0)
     = (Ok (Failure msg), st')) /\
  Z.abs 30 <= MAX_TIMEDELTA_DAYS /\
  representable (ts_min no_source_column - timedelta_days 30) /\
  has_col "source_country" no_source_column = false /\
  (exists st',
     identify_attack_campaign no_source_column 30 5 (initial_state small_libs T0)
     = (Ok (Success (CampaignResult.mk [] 0 30 5)), st')).
Proof.
  assert (Hbig : MAX_TIMEDELTA_DAYS < Z.abs 1000000000) by reflexivity.
  assert (Hfit : Z.abs 30 <= MAX_TIMEDELTA_DAYS) by (vm_compute; discriminate).
  assert (Hrep : representable (ts_min no_source_column - timedelta_days 30))
    by (vm_compute; discriminate).
  split; [reflexivity |]. split; [reflexivity |]. split.
  - apply (C5_missing_structural_column small_libs no_timestamp_column 30 5
             (initial_state small_libs T0) eq_refl).
    reflexivity.
  - split; [reflexivity |]. split; [reflexivity |]. split; [exact Hbig |]. split.
    + apply (C5_missing_structural_column small_libs no_source_column 1000000000 5
               (initial_state small_libs T0) eq_refl); [reflexivity | exact Hbig].
    + split; [exact Hfit |]. split; [exact Hrep |]. split; [reflexivity |].
      apply (C5_missing_structural_column small_libs no_source_column 30 5
               (initial_state small_libs T0) eq_refl);
        [reflexivity | exact Hfit | exact Hrep | left; reflexivity].
Defined.

(** ** Calendar bounds *)

Lemma dt_dayofweek_bounds t : 0 <= dt_dayofweek t < 7.
Proof. unfold dt_dayofweek. apply Z.mod_pos_bound. lia. Qed.

Lemma dt_month_bounds t : 1 <= dt_month t <= 12.
Proof.
  unfold dt_month, civil_from_days. cbn [fst snd].
  generalize (day_number t + 719468). intros z.
  set (era := z / 146097).
  set (doe := z - era * 146097).
  assert (Hdoe : 0 <= doe < 146097).
  { unfold doe, era. pose proof (Z.mod_pos_bound z 146097 ltac:(lia)).
    rewrite Z.mod_eq in H by lia. lia. }
  clearbody doe. clear era z.
  set (yoe := (doe - doe / 1460 + doe / 36524 - doe / 146096) / 365).
  set (doy := doe - (365 * yoe + yoe / 4 - yoe / 100)).
  assert (Hdoy : 0 <= doy <= 365).
  { unfold doy, yoe. Z.div_mod_to_equations. lia. }
  clearbody doy. clear yoe Hdoe doe.
  set (mp := (5 * doy + 2) / 153).
  assert (Hmp : 0 <= mp <= 11) by (unfold mp; Z.div_mod_to_equations; lia).
  clearbody mp. destruct (Z.ltb_spec mp 10); lia.
Qed.

(** ** Timestamps through [preprocess_data] *)

Lemma ts_column_assign name f df :
  (forall r, timestamp (f r) = timestamp r) ->
  ts_column (assign name f df) = ts_column df.
Proof.
  intros Hf. unfold ts_column. simpl. rewrite map_map. now apply map_ext.
Qed.

Lemma ts_column_fill_numeric df col : ts_column (fill_numeric df col) = ts_column df.
Proof.
  unfold fill_numeric. destruct (has_col (num_name col) df); [| reflexivity].
  apply ts_column_assign. intros r. destruct col; reflexivity.
Qed.

Lemma ts_column_fill_categorical df col :
  ts_column (fill_categorical df col) = ts_column df.
Proof.
  unfold fill_categorical. destruct (has_col (cat_name col) df); [| reflexivity].
  apply ts_column_assign. intros r. destruct col; reflexivity.
Qed.

Lemma ts_column_fold {C} (f : DataFrame -> C -> DataFrame) (cols : list C) :
  (forall d x, ts_column (f d x) = ts_column d) ->
  forall df, ts_column (fold_left f cols df) = ts_column df.
Proof.
  intros Hf. induction cols as [|x cols IH]; intros df; simpl; [reflexivity |].
  now rewrite IH, Hf.
Qed.

Lemma ts_column_imputed df : ts_column (imputed df) = ts_column df.
Proof.
  unfold imputed.
  rewrite (ts_column_fold fill_categorical _ ts_column_fill_categorical).
  rewrite (ts_column_fold fill_numeric _ ts_column_fill_numeric).
  unfold add_temporal. destruct (has_col "timestamp" df); [| reflexivity].
  now rewrite !ts_column_assign.
Qed.

(** Feature engineering leaves the timestamps as they are. *)
Lemma ts_column_preprocess_table df :
  empty df = false -> ts_column (preprocess_table df) = ts_column df.
Proof.
  intros He. rewrite preprocess_table_imputed by exact He.
  rewrite <- (ts_column_imputed df). generalize (imputed df). intros d.
  unfold add_attack_type_frequency, add_source_country_frequency.
  repeat match goal with
         | |- context [if has_col ?x ?y then _ else _] => destruct (has_col x y)
         end;
    now rewrite ?ts_column_assign.
Qed.

Lemma ts_min_preprocess_table df :
  empty df = false -> ts_min (preprocess_table df) = ts_min df.
Proof.
  intros He. unfold ts_min. fold (ts_column (preprocess_table df)). fold (ts_column df).
  now rewrite ts_column_preprocess_table.
Qed.

Lemma ts_max_preprocess_table df :
  empty df = false -> ts_max (preprocess_table df) = ts_max df.
Proof.
  intros He. unfold ts_max. fold (ts_column (preprocess_table df)). fold (ts_column df).
  now rewrite ts_column_preprocess_table.
Qed.

(** ** Peaks of the histograms *)

Lemma idxmax_In s k : idxmax s = Ok k -> In k (map fst s).
Proof.
  unfold idxmax. destruct s as [|kv s]; [discriminate |]. intros H. injection H as <-.
  assert (Hgen : forall (l : list (Z * Z)) (best : Z * Z),
             In (fst (fold_left (fun b kv' => if snd b <? snd kv' then kv' else b) l best))
                (map fst (best :: l))).
  { induction l as [|x l IH]; intros best; simpl; [auto |].
    destruct (IH (if snd best <? snd x then x else best)) as [H | H].
    - destruct (snd best <? snd x); rewrite <- H; auto.
    - auto. }
  apply Hgen.
Qed.

Lemma group_sizes_keys key rs k :
  In k (map fst (group_sizes key rs)) -> In k (map key rs).
Proof.
  unfold group_sizes, sort_asc_Z. rewrite map_map. simpl. rewrite map_id.
  intros H. apply (Permutation_in _ (sort_by_perm _ _)) in H.
  now apply unique_In in H.
Qed.

Lemma group_sizes_nonempty key rs : rs <> [] -> group_sizes key rs <> [].
Proof.
  intros Hne Hnil. destruct rs as [|r rs]; [congruence |].
  apply (f_equal (@List.length _)) in Hnil.
  unfold group_sizes, sort_asc_Z in Hnil. rewrite length_map, sort_by_length in Hnil.
  simpl in Hnil. discriminate.
Qed.

Lemma idxmax_peak key rs :
  rs <> [] ->
  exists k, idxmax (group_sizes key rs) = Ok k /\ In k (map key rs).
Proof.
  intros Hne. pose proof (group_sizes_nonempty key rs Hne) as Hs.
  destruct (idxmax (group_sizes key rs)) as [m | k] eqn:E.
  - unfold idxmax in E. destruct (group_sizes key rs); [congruence | discriminate].
  - exists k. split; [reflexivity |].
    now apply group_sizes_keys, idxmax_In.
Qed.

Lemma py_index_ok names i :
  0 <= i < Z.of_nat (List.length names) ->
  exists name, py_index names i = Ok name.
Proof.
  intros Hi. unfold py_index.
  destruct (Z.ltb_spec i 0); [lia |].
  destruct (Z.leb_spec 0 i); [| lia].
  destruct (Z.ltb_spec i (Z.of_nat (List.length names))); [| lia].
  simpl. eauto.
Qed.

Lemma rows_nonempty df : empty df = false -> rows df <> [].
Proof. unfold empty. destruct (rows df); [discriminate | discriminate]. Qed.

(** On a non-empty table with a timestamp column the temporal analysis
    succeeds, and its periodic patterns are the rounded top periods. *)
Lemma analyze_temporal_patterns_result (L : Libs) df (st : State L) :
  empty df = false ->
  has_col "timestamp" df = true ->
  exists p st',
    analyze_temporal_patterns df st = (Ok (Success p), st') /\
    TemporalResult.periodic_patterns p
    = map pattern_of (top_periods_of L (preprocess_table df)).
Proof.
  intros He Hts. unfold analyze_temporal_patterns. rewrite He.
  unfold try_except, bind.
  destruct (preprocess_data_returns df st) as (st' & ->).
  rewrite has_col_preprocess_table by (exact He || reflexivity). rewrite Hts.
  cbn [negb].
  assert (Hrows : rows (preprocess_table df) <> []).
  { intros Hnil. apply (f_equal (@List.length _)) in Hnil.
    rewrite length_rows_preprocess_table in Hnil by exact He.
    apply rows_nonempty in He. destruct (rows df); [congruence | discriminate]. }
  set (data := preprocess_table df) in *. clearbody data.
  destruct (idxmax_peak (fun r => dt_hour (timestamp r)) (rows data) Hrows) as (h & Eh & _).
  destruct (idxmax_peak (fun r => dt_dayofweek (timestamp r)) (rows data) Hrows)
    as (d & Ed & Hd).
  destruct (idxmax_peak (fun r => dt_month (timestamp r)) (rows data) Hrows)
    as (m & Em & Hm).
  unfold call. rewrite Eh, Ed, Em.
  apply in_map_iff in Hd. destruct Hd as (rd & <- & _).
  apply in_map_iff in Hm. destruct Hm as (rm & <- & _).
  destruct (py_index_ok day_names (dt_dayofweek (timestamp rd))) as (dn & ->).
  { pose proof (dt_dayofweek_bounds (timestamp rd)). simpl. lia. }
  destruct (py_index_ok month_names (dt_month (timestamp rm) - 1)) as (mn & ->).
  { pose proof (dt_month_bounds (timestamp rm)). simpl. lia. }
  unfold ret. eexists _, _. split; reflexivity.
Qed.

(** ** Ranges and frequencies *)

Lemma length_range a b : List.length (range a b) = Z.to_nat (b - a).
Proof. unfold range. now rewrite length_map, length_seq. Qed.

Lemma In_range a b i : In i (range a b) <-> a <= i < b.
Proof.
  unfold range. rewrite in_map_iff. split.
  - intros (k & <- & Hk). apply in_seq in Hk. lia.
  - intros Hi. exists (Z.to_nat (i - a)). split; [lia |]. apply in_seq. lia.
Qed.

Lemma nth_range a b k d :
  (k < Z.to_nat (b - a))%nat -> nth k (range a b) d = a + Z.of_nat k.
Proof.
  intros Hk. unfold range.
  set (f := fun i => a + Z.of_nat i).
  rewrite (nth_indep _ d (f 0%nat)) by now rewrite length_map, length_seq.
  rewrite (map_nth f). now rewrite seq_nth.
Qed.

Lemma length_fftfreq n : 0 <= n -> Z.of_nat (List.length (fftfreq n)) = n.
Proof.
  intros Hn. unfold fftfreq. rewrite length_map, length_app, !length_range.
  Z.div_mod_to_equations. lia.
Qed.

(** The frequency of index [i] below the middle is [i / n]. *)
Lemma nth_fftfreq n i :
  0 <= i < n / 2 ->
  nth (Z.to_nat i) (fftfreq n) 0%Q = (inject_Z i / inject_Z n)%Q.
Proof.
  intros Hi. unfold fftfreq.
  assert (Hlt : (Z.to_nat i < List.length (range 0 ((n - 1) / 2 + 1)))%nat).
  { rewrite length_range. Z.div_mod_to_equations. lia. }
  set (f := fun k => (inject_Z k / inject_Z n)%Q).
  rewrite (nth_indep _ _ (f 0)) by (rewrite length_map, length_app; lia).
  rewrite (map_nth f), app_nth1 by exact Hlt. unfold f.
  rewrite nth_range by now rewrite length_range in Hlt.
  f_equal. f_equal. lia.
Qed.

(** Below the middle of the spectrum every period is at least two days. *)
Lemma period_at_least_two n i :
  1 <= i < n / 2 ->
  (2 <= 1 / Qabs (inject_Z i / inject_Z n))%Q.
Proof.
  intros Hi.
  assert (Hn : 2 * i + 2 <= n) by (Z.div_mod_to_equations; lia).
  destruct n as [|n|n]; try lia. destruct i as [|i|i]; try lia.
  unfold Qle, Qdiv, Qmult, Qinv, Qabs, inject_Z. simpl. lia.
Qed.

(** ** Rounding *)

Lemma rint_floor x : Qfloor x <= rint x.
Proof.
  unfold rint.
  destruct (Qgtb (1 # 2) (x - inject_Z (Qfloor x))); [lia |].
  destruct (Qgtb (x - inject_Z (Qfloor x)) (1 # 2)); [lia |].
  destruct (Z.even (Qfloor x)); lia.
Qed.

Lemma round1_above_one x : (2 <= x)%Q -> (1 < round1 x)%Q.
Proof.
  intros Hx. unfold round1.
  assert (H20 : 20 <= rint (x * inject_Z 10)).
  { eapply Z.le_trans; [| apply rint_floor].
    rewrite <- (Qfloor_Z 20). apply Qfloor_resp_le.
    change (inject_Z 20) with (2 * inject_Z 10)%Q.
    apply Qmult_le_compat_r; [exact Hx | discriminate]. }
  generalize dependent (rint (x * inject_Z 10)). intros r Hr.
  unfold Qlt, Qdiv, Qmult, Qinv, inject_Z. simpl. lia.
Qed.

(** ** Maxima of magnitudes *)

Lemma Qgtb_lt a b : Qgtb a b = true -> (b < a)%Q.
Proof.
  unfold Qgtb. intros H. apply negb_true_iff in H.
  apply Qnot_le_lt. intros Hle. apply Qle_bool_iff in Hle. congruence.
Qed.

Lemma max_Q_spec x l :
  In (max_Q x l) (x :: l) /\ Forall (fun y => (y <= max_Q x l)%Q) (x :: l).
Proof.
  unfold max_Q. revert x. induction l as [|y l IH]; intros x; simpl.
  - split; [auto | repeat constructor; apply Qle_refl].
  - destruct (IH (Qmaxb x y)) as (Hin & Hall).
    inversion Hall as [|? ? Hhd Htl]; subst.
    unfold Qmaxb in *. destruct (Qle_bool x y) eqn:E.
    + split; [destruct Hin; auto |].
      apply Qle_bool_iff in E.
      constructor; [eapply Qle_trans; eassumption |]. now constructor.
    + split; [destruct Hin as [<- | Hin]; auto |].
      assert (Hyx : (y <= x)%Q).
      { apply Qlt_le_weak, Qnot_le_lt. intros Hle. apply Qle_bool_iff in Hle. congruence. }
      constructor; [exact Hhd |]. constructor; [eapply Qle_trans; eassumption | exact Htl].
Qed.

(** [max_scanned] is the largest of the components it ranges over. *)
Lemma max_scanned_spec fft_values half :
  let slice := firstn (Z.to_nat (half - 1)) (skipn 1 fft_values) in
  slice <> [] ->
  In (max_scanned fft_values half) slice /\
  Forall (fun a => (a <= max_scanned fft_values half)%Q) slice.
Proof.
  intros slice Hne. unfold max_scanned. fold slice.
  destruct slice as [|x t]; [congruence |]. apply max_Q_spec.
Qed.

(** ** The components kept by the loop of lines 389-394 *)

Lemma half_spectrum_eq data :
  half_spectrum data = Z.of_nat (List.length (daily_counts_of data)) / 2.
Proof. unfold half_spectrum. rewrite length_fftfreq by lia. reflexivity. Qed.

Lemma component_in_slice (l : list Q) (half i : Z) :
  1 <= i < half -> half <= Z.of_nat (List.length l) ->
  In (nth (Z.to_nat i) l 0%Q) (firstn (Z.to_nat (half - 1)) (skipn 1 l)).
Proof.
  intros Hi Hlen.
  assert (Hidx : (Z.to_nat i - 1 < List.length (firstn (Z.to_nat (half - 1)) (skipn 1 l)))%nat).
  { rewrite length_firstn, length_skipn. lia. }
  replace (nth (Z.to_nat i) l 0%Q)
    with (nth (Z.to_nat i - 1) (firstn (Z.to_nat (half - 1)) (skipn 1 l)) 0%Q).
  - now apply nth_In.
  - rewrite nth_firstn.
    destruct (Nat.ltb_spec (Z.to_nat i - 1) (Z.to_nat (half - 1))); [| lia].
    rewrite nth_skipn. f_equal. lia.
Qed.

Lemma kept_components_spec (L : Libs) data :
  Forall (fun q =>
            (2 <= fst q)%Q /\
            ((1 # 10) * max_scanned (spectrum L data) (half_spectrum data) < snd q)%Q /\
            In (snd q) (scanned_components L data))
         (kept_components L data).
Proof.
  unfold kept_components, dominant_periods_of. fold (half_spectrum data).
  apply Forall_forall. intros q Hq. apply in_flat_map in Hq.
  destruct Hq as (i & Hi & Hq). apply In_range in Hi.
  destruct (Qgtb (nth (Z.to_nat i) (spectrum L data) 0%Q)
                 ((1 # 10) * max_scanned (spectrum L data) (half_spectrum data))) eqn:Ea;
    [| destruct Hq].
  match type of Hq with context [Qgtb ?p 1%Q] => destruct (Qgtb p 1%Q) end; [| destruct Hq].
  destruct Hq as [<- | []]. cbn [fst snd].
  pose proof (half_spectrum_eq data) as Hh. split; [| split].
  - rewrite nth_fftfreq by (rewrite <- Hh; lia).
    apply period_at_least_two. rewrite <- Hh. exact Hi.
  - now apply Qgtb_lt.
  - unfold scanned_components. apply component_in_slice; [exact Hi |].
    unfold spectrum. rewrite fft_abs_length, Hh. Z.div_mod_to_equations. lia.
Qed.

(** ** C6: periodic patterns *)

Lemma sort_desc_Q_sorted {A} (key : A -> Q) (l : list A) :
  StronglySorted (fun a b => (key b <= key a)%Q) (sort_desc_Q key l).
Proof.
  assert (Hs : Sorted (fun a b => (key b <= key a)%Q) (sort_desc_Q key l)).
  { unfold sort_desc_Q.
    eapply Sorted_ind with
      (P := fun l => Sorted (fun a b => (key b <= key a)%Q) l);
      [constructor | | apply (sort_by_sorted (fun x y => Qle_bool (key y) (key x)))].
    - intros a l0 _ IH Hhd. constructor; [exact IH |].
      destruct Hhd; constructor. now apply Qle_bool_iff.
    - intros a b. destruct (Qlt_le_dec (key a) (key b)) as [Hlt | Hle];
        [right | left]; apply Qle_bool_iff; [now apply Qlt_le_weak | exact Hle]. }
  apply Sorted_StronglySorted; [| exact Hs].
  intros a b c Hab Hbc. eapply Qle_trans; eassumption.
Qed.

Lemma StronglySorted_app_inv {A} (R : A -> A -> Prop) l1 l2 :
  StronglySorted R (l1 ++ l2) ->
  forall a b, In a l1 -> In b l2 -> R a b.
Proof.
  induction l1 as [|x l1 IH]; simpl; intros Hs a b Ha Hb; [destruct Ha |].
  apply StronglySorted_inv in Hs. destruct Hs as (Hs & Hall).
  destruct Ha as [<- | Ha].
  - rewrite Forall_forall in Hall. apply Hall, in_or_app. now right.
  - now apply IH.
Qed.

(** The first three of the list in decreasing order of magnitude are the
    three largest. *)
Lemma top_three_largest (kept : list (Q * Q)) :
  let top := firstn 3 (sort_desc_Q snd kept) in
  let rest := skipn 3 (sort_desc_Q snd kept) in
  Permutation (top ++ rest) kept /\
  (List.length top <= 3)%nat /\
  (forall t r, In t top -> In r rest -> (snd r <= snd t)%Q).
Proof.
  intros top rest. unfold top, rest. split; [| split].
  - rewrite firstn_skipn. apply sort_by_perm.
  - apply firstn_le_length.
  - intros t r Ht Hr.
    apply (StronglySorted_app_inv (fun a b => (snd b <= snd a)%Q)
             (firstn 3 (sort_desc_Q snd kept)) (skipn 3 (sort_desc_Q snd kept)));
      [| exact Ht | exact Hr].
    rewrite firstn_skipn. apply sort_desc_Q_sorted.
Qed.

Lemma scanned_components_below_max (L : Libs) data :
  Forall (fun a => (a <= max_scanned (spectrum L data) (half_spectrum data))%Q)
         (scanned_components L data).
Proof.
  destruct (scanned_components L data) as [|x t] eqn:E; [constructor |].
  rewrite <- E. apply (max_scanned_spec (spectrum L data) (half_spectrum data)).
  unfold scanned_components in E. rewrite E. discriminate.
Qed.




(** ** Which stage of [preprocess_data] writes which cells *)

Section Projections.
Context {X : Type} (proj : Row -> X).

Lemma column_of_assign name f df :
  (forall r, proj (f r) = proj r) ->
  column_of proj (assign name f df) = column_of proj df.
Proof.
  intros Hf. unfold column_of. simpl. rewrite map_map. now apply map_ext.
Qed.

Lemma column_of_fold {C} (f : DataFrame -> C -> DataFrame) (cols : list C) :
  (forall d x, column_of proj (f d x) = column_of proj d) ->
  forall df, column_of proj (fold_left f cols df) = column_of proj df.
Proof.
  intros Hf. induction cols as [|x cols IH]; intros df; simpl; [reflexivity |].
  now rewrite IH, Hf.
Qed.

Lemma column_of_add_temporal df :
  (forall r t, proj (with_temporal t r) = proj r) ->
  column_of proj (add_temporal df) = column_of proj df.
Proof.
  intros Hp. unfold add_temporal. destruct (has_col "timestamp" df); [| reflexivity].
  unfold set_hour_of_day, set_day_of_week, set_month, set_year, set_weekend.
  now rewrite !column_of_assign.
Qed.

Lemma column_of_fill_numeric df col :
  (forall r v, proj (set_num_cell col v r) = proj r) ->
  column_of proj (fill_numeric df col) = column_of proj df.
Proof.
  intros Hp. unfold fill_numeric. destruct (has_col (num_name col) df); [| reflexivity].
  now apply column_of_assign.
Qed.

Lemma column_of_fill_categorical df col :
  (forall r v, proj (set_cat_cell col v r) = proj r) ->
  column_of proj (fill_categorical df col) = column_of proj df.
Proof.
  intros Hp. unfold fill_categorical. destruct (has_col (cat_name col) df); [| reflexivity].
  now apply column_of_assign.
Qed.

Lemma column_of_frequencies df :
  (forall r f, proj (with_freqs f r) = proj r) ->
  column_of proj (add_attack_type_frequency (add_source_country_frequency df))
  = column_of proj df.
Proof.
  intros Hp. unfold add_attack_type_frequency, add_source_country_frequency.
  repeat match goal with
         | |- context [if has_col ?x ?y then _ else _] => destruct (has_col x y)
         end;
    now rewrite ?column_of_assign.
Qed.
End Projections.

(** *** The derived temporal columns *)

Lemma temporal_after_add_temporal df :
  has_col "timestamp" df = true ->
  column_of temporal (add_temporal df)
  = map (fun r => temporal_of (timestamp r)) (rows df).
Proof.
  intros H. unfold add_temporal. rewrite H. unfold column_of. simpl.
  rewrite !map_map. apply map_ext. intros r. reflexivity.
Qed.

Lemma temporal_preprocess_table df :
  empty df = false ->
  has_col "timestamp" df = true ->
  column_of temporal (preprocess_table df)
  = map (fun r => temporal_of (timestamp r)) (rows df).
Proof.
  intros He H. rewrite preprocess_table_imputed by exact He.
  rewrite column_of_frequencies by reflexivity.
  unfold imputed.
  rewrite (column_of_fold temporal fill_categorical)
    by (intros d x; apply column_of_fill_categorical; intros r v; destruct x; reflexivity).
  rewrite (column_of_fold temporal fill_numeric)
    by (intros d x; apply column_of_fill_numeric; intros r v; destruct x; reflexivity).
  now apply temporal_after_add_temporal.
Qed.

(** *** The numeric columns *)

Lemma num_after_fill_same df col :
  has_col (num_name col) df = true ->
  column_of (num_cell col) (fill_numeric df col)
  = map (fillna (median (column_of (num_cell col) df))) (column_of (num_cell col) df).
Proof.
  intros H. unfold fill_numeric. rewrite H. unfold column_of. simpl.
  rewrite !map_map. apply map_ext. intros r. destruct col; reflexivity.
Qed.

Lemma num_after_fill_other df col col' :
  col <> col' ->
  column_of (num_cell col) (fill_numeric df col') = column_of (num_cell col) df.
Proof.
  intros Hne. apply column_of_fill_numeric. intros r v.
  destruct col, col'; try reflexivity; congruence.
Qed.

Lemma num_after_loop df col :
  has_col (num_name col) df = true ->
  column_of (num_cell col) (fold_left fill_numeric numerical_features df)
  = map (fillna (median (column_of (num_cell col) df))) (column_of (num_cell col) df).
Proof.
  intros H. unfold numerical_features. simpl.
  destruct col.
  - rewrite !num_after_fill_other by discriminate. now apply num_after_fill_same.
  - rewrite !num_after_fill_other by discriminate.
    rewrite num_after_fill_same by now rewrite has_col_fill_numeric.
    now rewrite num_after_fill_other by discriminate.
  - rewrite !num_after_fill_other by discriminate.
    rewrite num_after_fill_same by now rewrite !has_col_fill_numeric.
    now rewrite !num_after_fill_other by discriminate.
  - rewrite num_after_fill_same by now rewrite !has_col_fill_numeric.
    now rewrite !num_after_fill_other by discriminate.
Qed.

Lemma num_preprocess_table df col :
  empty df = false ->
  has_col (num_name col) df = true ->
  column_of (num_cell col) (preprocess_table df)
  = map (fillna (median (column_of (num_cell col) df))) (column_of (num_cell col) df).
Proof.
  intros He H. rewrite preprocess_table_imputed by exact He.
  rewrite column_of_frequencies by (intros r f; destruct col; reflexivity).
  unfold imputed.
  rewrite (column_of_fold (num_cell col) fill_categorical)
    by (intros d x; apply column_of_fill_categorical; intros r v;
        destruct col, x; reflexivity).
  rewrite num_after_loop by now apply has_col_add_temporal_mono.
  now rewrite column_of_add_temporal by (intros r t; destruct col; reflexivity).
Qed.

(** *** The categorical columns *)

Lemma cat_preprocess_table df col :
  empty df = false ->
  has_col (cat_name col) df = true ->
  cat_column col (preprocess_table df) = map fill_unknown (cat_column col df).
Proof.
  intros He H. rewrite preprocess_table_imputed by exact He.
  rewrite <- cat_column_imputed by exact H.
  generalize (imputed df). intros d. unfold cat_column.
  apply (column_of_frequencies (cat_cell col)). intros r f. destruct col; reflexivity.
Qed.

(** ** Feature engineering is idempotent *)

Lemma assign_id name f df :
  has_col name df = true ->
  (forall r, In r (rows df) -> f r = r) ->
  assign name f df = df.
Proof.
  intros H Hf. unfold assign. rewrite H. destruct df as [cols rs]. simpl in *.
  f_equal. rewrite <- (map_id rs) at 2. now apply map_ext_in.
Qed.

Lemma has_col_assign_self name f df : has_col name (assign name f df) = true.
Proof. rewrite has_col_assign, String.eqb_refl. apply orb_true_r. Qed.

Lemma pointwise {X} (f g : Row -> X) (rs : list Row) :
  map f rs = map g rs -> forall r, In r rs -> f r = g r.
Proof. intros H. now apply map_ext_in_iff. Qed.

Lemma add_temporal_fix d :
  (has_col "timestamp" d = true ->
   (forall name, In name ["hour_of_day"; "day_of_week"; "month"; "year"; "weekend"] ->
                 has_col name d = true) /\
   forall r, In r (rows d) -> temporal r = temporal_of (timestamp r)) ->
  add_temporal d = d.
Proof.
  intros H. unfold add_temporal. destruct (has_col "timestamp" d); [| reflexivity].
  destruct (H eq_refl) as (Hcols & Hrows).
  assert (Hfix : forall set,
             In set [set_hour_of_day; set_day_of_week; set_month; set_year; set_weekend] ->
             forall r, In r (rows d) -> set r = r).
  { intros set Hset r Hr. specialize (Hrows r Hr).
    destruct r as [t k n s tm f m]. simpl in Hrows. subst tm.
    simpl in Hset. decompose [or] Hset; subst; try contradiction; reflexivity. }
  rewrite (assign_id "hour_of_day") by (apply Hcols || apply Hfix; simpl; auto).
  rewrite (assign_id "day_of_week") by (apply Hcols || apply Hfix; simpl; auto).
  rewrite (assign_id "month") by (apply Hcols || apply Hfix; simpl; auto).
  rewrite (assign_id "year") by (apply Hcols || apply Hfix; simpl; auto 6).
  rewrite (assign_id "weekend") by (apply Hcols || apply Hfix; simpl; auto 6).
  reflexivity.
Qed.

Lemma set_num_cell_same col r : set_num_cell col (num_cell col r) r = r.
Proof. destruct r as [t k [a b c d] s tm f m]. destruct col; reflexivity. Qed.

Lemma set_cat_cell_same col r : set_cat_cell col (cat_cell col r) r = r.
Proof. destruct r as [t [a b c d] n s tm f m]. destruct col; reflexivity. Qed.

Lemma fill_numeric_fix d col :
  (has_col (num_name col) d = true ->
   forall r, In r (rows d) ->
             fillna (median (map (num_cell col) (rows d))) (num_cell col r) = num_cell col r) ->
  fill_numeric d col = d.
Proof.
  intros H. unfold fill_numeric. destruct (has_col (num_name col) d) eqn:E; [| reflexivity].
  apply assign_id; [exact E |]. intros r Hr. rewrite (H eq_refl r Hr).
  apply set_num_cell_same.
Qed.

Lemma fill_categorical_fix d col :
  (has_col (cat_name col) d = true ->
   forall r, In r (rows d) -> fill_unknown (cat_cell col r) = cat_cell col r) ->
  fill_categorical d col = d.
Proof.
  intros H. unfold fill_categorical. destruct (has_col (cat_name col) d) eqn:E; [| reflexivity].
  apply assign_id; [exact E |]. intros r Hr.
  change (fillna (Some "unknown") (cat_cell col r)) with (fill_unknown (cat_cell col r)).
  rewrite (H eq_refl r Hr). apply set_cat_cell_same.
Qed.

Lemma fold_fix {C} (f : DataFrame -> C -> DataFrame) (cols : list C) d :
  (forall x, f d x = d) -> fold_left f cols d = d.
Proof.
  intros Hf. induction cols as [|x cols IH]; simpl; [reflexivity |]. now rewrite Hf.
Qed.

Lemma add_source_country_frequency_fix d :
  (has_col "source_country" d = true ->
   has_col "source_country_frequency" d = true /\
   forall r, In r (rows d) ->
             source_country_frequency (freqs r)
             = frequency (map (cat_cell SourceCountry) (rows d)) (cat_cell SourceCountry r)) ->
  add_source_country_frequency d = d.
Proof.
  intros H. unfold add_source_country_frequency.
  destruct (has_col "source_country" d); [| reflexivity].
  destruct (H eq_refl) as (Hcol & Hrows).
  apply assign_id; [exact Hcol |]. intros r Hr. rewrite <- (Hrows r Hr).
  destruct r as [t k n s tm [a b] m]. reflexivity.
Qed.

Lemma add_attack_type_frequency_fix d :
  (has_col "attack_type" d = true ->
   has_col "attack_type_frequency" d = true /\
   forall r, In r (rows d) ->
             attack_type_frequency (freqs r)
             = frequency (map (cat_cell AttackType) (rows d)) (cat_cell AttackType r)) ->
  add_attack_type_frequency d = d.
Proof.
  intros H. unfold add_attack_type_frequency.
  destruct (has_col "attack_type" d); [| reflexivity].
  destruct (H eq_refl) as (Hcol & Hrows).
  apply assign_id; [exact Hcol |]. intros r Hr. rewrite <- (Hrows r Hr).
  destruct r as [t k n s tm [a b] m]. reflexivity.
Qed.

(** Filling a filled column with its median changes nothing. *)
Lemma fillna_None {A} (c : option A) : fillna None c = c.
Proof. now destruct c. Qed.

Lemma fill_median_fix (col : list (option Q)) c :
  let filled := map (fillna (median col)) col in
  In c filled -> fillna (median filled) c = c.
Proof.
  intros filled Hc. unfold filled in *. destruct (median col) as [v |] eqn:Em.
  - apply in_map_iff in Hc. destruct Hc as ([x |] & <- & _); reflexivity.
  - assert (Hsame : map (fillna None) col = col).
    { rewrite <- (map_id col) at 2. apply map_ext. intros x. apply fillna_None. }
    rewrite Hsame, Em. apply fillna_None.
Qed.

Lemma has_col_frequencies_mono c d :
  has_col c d = true ->
  has_col c (add_attack_type_frequency (add_source_country_frequency d)) = true.
Proof.
  intros H. unfold add_attack_type_frequency, add_source_country_frequency.
  repeat match goal with
         | |- context [if has_col ?x ?y then _ else _] => destruct (has_col x y)
         end;
    repeat apply has_col_assign_mono; exact H.
Qed.

Lemma has_col_preprocess_table_mono c df :
  empty df = false -> has_col c df = true -> has_col c (preprocess_table df) = true.
Proof.
  intros He H. rewrite preprocess_table_imputed by exact He.
  apply has_col_frequencies_mono, has_col_imputed_mono, H.
Qed.

Lemma empty_preprocess_table df :
  empty df = false -> empty (preprocess_table df) = false.
Proof.
  intros He. pose proof (length_rows_preprocess_table df He) as Hlen.
  assert (Hcols : exists c, has_col c df = true).
  { unfold empty in He. unfold has_col, mem_str, memb.
    destruct (rows df); [discriminate |].
    destruct (columns df) as [|c cs]; [discriminate |].
    exists c. simpl. now rewrite String.eqb_refl. }
  destruct Hcols as (c & Hc).
  apply (has_col_preprocess_table_mono c df He) in Hc.
  pose proof (rows_nonempty df He) as Hrows.
  unfold empty. unfold has_col, mem_str, memb in Hc.
  destruct (rows (preprocess_table df)).
  - destruct (rows df); [congruence | discriminate].
  - destruct (columns (preprocess_table df)); [discriminate | reflexivity].
Qed.

Lemma has_col_temporal_names df name :
  empty df = false ->
  has_col "timestamp" df = true ->
  In name ["hour_of_day"; "day_of_week"; "month"; "year"; "weekend"] ->
  has_col name (preprocess_table df) = true.
Proof.
  intros He H Hname. rewrite preprocess_table_imputed by exact He.
  apply has_col_frequencies_mono. unfold imputed.
  apply has_col_fold_mono; [apply has_col_fill_categorical_mono |].
  apply has_col_fold_mono; [apply has_col_fill_numeric_mono |].
  unfold add_temporal. rewrite H.
  simpl in Hname. decompose [or] Hname; subst; try contradiction;
    repeat (apply has_col_assign_self || apply has_col_assign_mono).
Qed.

Lemma has_col_source_country_frequency df :
  empty df = false ->
  has_col "source_country" df = true ->
  has_col "source_country_frequency" (preprocess_table df) = true.
Proof.
  intros He H. rewrite preprocess_table_imputed by exact He.
  pose proof (has_col_imputed_mono _ _ H) as Hi.
  unfold add_attack_type_frequency, add_source_country_frequency. rewrite Hi.
  match goal with
  | |- context [if has_col ?x ?y then _ else _] => destruct (has_col x y)
  end; repeat (apply has_col_assign_self || apply has_col_assign_mono).
Qed.

Lemma has_col_attack_type_frequency df :
  empty df = false ->
  has_col "attack_type" df = true ->
  has_col "attack_type_frequency" (preprocess_table df) = true.
Proof.
  intros He H. rewrite preprocess_table_imputed by exact He.
  pose proof (has_col_imputed_mono _ _ H) as Hi.
  unfold add_attack_type_frequency.
  assert (Hhas : has_col "attack_type" (add_source_country_frequency (imputed df)) = true).
  { unfold add_source_country_frequency.
    destruct (has_col "source_country" (imputed df)); [| exact Hi].
    apply has_col_assign_mono, Hi. }
  rewrite Hhas. apply has_col_assign_self.
Qed.

(** Running the feature engineer on its own output returns that output. *)
Theorem preprocess_table_idempotent df :
  empty df = false ->
  preprocess_table (preprocess_table df) = preprocess_table df.
Proof.
  intros He.
  pose proof (empty_preprocess_table df He) as HeP.
  rewrite (preprocess_table_imputed (preprocess_table df) HeP). unfold imputed.
  assert (HT : add_temporal (preprocess_table df) = preprocess_table df).
  { apply add_temporal_fix. intros Hts.
    rewrite has_col_preprocess_table in Hts by (exact He || reflexivity).
    split.
    - intros name Hname. now apply has_col_temporal_names.
    - apply (pointwise temporal (fun r => temporal_of (timestamp r))).
      fold (column_of temporal (preprocess_table df)).
      rewrite temporal_preprocess_table by assumption.
      transitivity (map temporal_of (ts_column (preprocess_table df))).
      + rewrite ts_column_preprocess_table by exact He.
        unfold ts_column. now rewrite map_map.
      + unfold ts_column. now rewrite map_map. }
  rewrite HT.
  assert (HN : fold_left fill_numeric numerical_features (preprocess_table df)
               = preprocess_table df).
  { apply fold_fix. intros col. apply fill_numeric_fix. intros Hcol r Hr.
    rewrite has_col_preprocess_table in Hcol by (exact He || (destruct col; reflexivity)).
    fold (column_of (num_cell col) (preprocess_table df)).
    rewrite num_preprocess_table by assumption.
    apply fill_median_fix.
    rewrite <- num_preprocess_table by assumption.
    unfold column_of. now apply in_map. }
  rewrite HN.
  assert (HC : fold_left fill_categorical categorical_features (preprocess_table df)
               = preprocess_table df).
  { apply fold_fix. intros col. apply fill_categorical_fix. intros Hcol r Hr.
    rewrite has_col_preprocess_table in Hcol by (exact He || (destruct col; reflexivity)).
    assert (Hin : In (cat_cell col r) (cat_column col (preprocess_table df)))
      by (unfold cat_column; now apply in_map).
    rewrite cat_preprocess_table in Hin by assumption.
    apply in_map_iff in Hin. destruct Hin as (c & <- & _). apply fill_unknown_idem. }
  rewrite HC.
  assert (HS : add_source_country_frequency (preprocess_table df) = preprocess_table df).
  { apply add_source_country_frequency_fix. intros Hcol.
    rewrite has_col_preprocess_table in Hcol by (exact He || reflexivity).
    split; [now apply has_col_source_country_frequency |].
    apply (pointwise (fun r => source_country_frequency (freqs r))
             (fun r => frequency (map (cat_cell SourceCountry) (rows (preprocess_table df)))
                                 (cat_cell SourceCountry r))).
    fold (source_country_frequencies (preprocess_table df)).
    fold (cat_column SourceCountry (preprocess_table df)).
    rewrite source_country_frequencies_preprocess by assumption.
    rewrite <- (cat_preprocess_table df SourceCountry) by assumption.
    unfold cat_column. now rewrite map_map. }
  rewrite HS.
  apply add_attack_type_frequency_fix. intros Hcol.
  rewrite has_col_preprocess_table in Hcol by (exact He || reflexivity).
  split; [now apply has_col_attack_type_frequency |].
  apply (pointwise (fun r => attack_type_frequency (freqs r))
           (fun r => frequency (map (cat_cell AttackType) (rows (preprocess_table df)))
                               (cat_cell AttackType r))).
  fold (attack_type_frequencies (preprocess_table df)).
  fold (cat_column AttackType (preprocess_table df)).
  rewrite attack_type_frequencies_preprocess by assumption.
  rewrite <- (cat_preprocess_table df AttackType) by assumption.
  unfold cat_column. now rewrite map_map.
Qed.

(** ** The components on the engineered table *)

Lemma preprocess_data_run (L : Libs) df (st : State L) :
  empty df = false ->
  preprocess_data df st
  = (Ok (preprocess_table df),
     mkState L (set_features L (columns (preprocess_table df))
                  (count_preprocess_run L (self st)))
             (world st)).
Proof.
  intros He. unfold preprocess_data, bind, modify_self, ret. rewrite He. reflexivity.
Qed.

Lemma preprocess_data_engineered (L : Libs) df (st : State L) :
  empty df = false ->
  preprocess_data (preprocess_table df) st = preprocess_data df st.
Proof.
  intros He.
  rewrite (preprocess_data_run L df st He).
  rewrite (preprocess_data_run L _ st (empty_preprocess_table df He)).
  now rewrite preprocess_table_idempotent.
Qed.

Ltac on_engineered He :=
  rewrite He, (empty_preprocess_table _ He);
  unfold try_except, bind;
  rewrite (preprocess_data_engineered _ _ _ He);
  reflexivity.

Lemma train_clustering_model_engineered (L : Libs) df (st : State L) :
  empty df = false ->
  train_clustering_model (preprocess_table df) st = train_clustering_model df st.
Proof. intros He. unfold train_clustering_model. on_engineered He. Qed.

Lemma train_anomaly_detection_model_engineered (L : Libs) df c (st : State L) :
  empty df = false ->
  train_anomaly_detection_model (preprocess_table df) c st
  = train_anomaly_detection_model df c st.
Proof. intros He. unfold train_anomaly_detection_model. on_engineered He. Qed.

Lemma train_target_prediction_model_engineered (L : Libs) df (st : State L) :
  empty df = false ->
  train_target_prediction_model (preprocess_table df) st
  = train_target_prediction_model df st.
Proof. intros He. unfold train_target_prediction_model. on_engineered He. Qed.

Lemma analyze_temporal_patterns_engineered (L : Libs) df (st : State L) :
  empty df = false ->
  analyze_temporal_patterns (preprocess_table df) st = analyze_temporal_patterns df st.
Proof. intros He. unfold analyze_temporal_patterns. on_engineered He. Qed.

Lemma identify_attack_campaign_engineered (L : Libs) df d m (st : State L) :
  empty df = false ->
  identify_attack_campaign (preprocess_table df) d m st
  = identify_attack_campaign df d m st.
Proof. intros He. unfold identify_attack_campaign. on_engineered He. Qed.

Lemma len_preprocess_table df : empty df = false -> len (preprocess_table df) = len df.
Proof. intros He. unfold len. now rewrite length_rows_preprocess_table. Qed.

(** ** Counting the runs of the feature engineer *)

Section Runs.
Context {L : Libs}.

Lemma keeps_ret {A} (a : A) : keeps_runs (ret (L := L) a).
Proof. intros st. reflexivity. Qed.

Lemma keeps_call {A} (r : exc A) : keeps_runs (call (L := L) r).
Proof. intros st. reflexivity. Qed.

Lemma keeps_modify_self f :
  (forall a, preprocess_runs (f a) = preprocess_runs a) ->
  keeps_runs (modify_self L f).
Proof. intros Hf st. unfold runs_of. simpl. apply Hf. Qed.

Lemma keeps_datetime_now : keeps_runs (datetime_now L).
Proof. intros st. unfold datetime_now. destruct (now L (world st)). reflexivity. Qed.

Lemma keeps_dump m f : keeps_runs (dump L m f).
Proof. intros st. unfold dump. destruct (joblib_dump L m f (world st)); reflexivity. Qed.

Lemma keeps_bind {A B} (c : M L A) (k : A -> M L B) :
  keeps_runs c -> (forall a, keeps_runs (k a)) -> keeps_runs (bind c k).
Proof.
  intros Hc Hk st. unfold bind. specialize (Hc st).
  destruct (c st) as [[msg | a] st']; simpl in *; [exact Hc |].
  now rewrite Hk.
Qed.

(** A method body: one entry into [preprocess_data], then a continuation
    that makes none, inside [try]. *)
Lemma method_runs {A} df (k : DataFrame -> M L (Result A)) (st : State L) :
  (forall data, keeps_runs (k data)) ->
  runs_of (snd (try_except (bind (preprocess_data df) k) (fun e => ret (Failure e)) st))
  = S (runs_of st).
Proof.
  intros Hk. unfold try_except, bind.
  destruct (preprocess_data_returns df st) as (st' & E).
  assert (Hst' : runs_of st' = S (runs_of st)).
  { pose proof E as E'. unfold preprocess_data, bind, modify_self, ret in E'.
    destruct (empty df); [injection E' as _ <- | injection E' as <-]; reflexivity. }
  rewrite E. cbv beta iota. specialize (Hk (preprocess_table df) st').
  destruct (k (preprocess_table df) st') as [[msg | r] st'']; simpl in *; congruence.
Qed.
End Runs.

Ltac keeps :=
  repeat first
    [ apply keeps_ret
    | apply keeps_call
    | apply keeps_datetime_now
    | apply keeps_dump
    | apply keeps_modify_self; intros ?; reflexivity
    | apply keeps_bind; [| intros ?]
    | match goal with
      | |- keeps_runs (match ?x with pair _ _ => _ end) => destruct x
      | |- keeps_runs (if ?b then _ else _) => destruct b
      | |- keeps_runs (match ?x with Some _ => _ | None => _ end) => destruct x
      end ].

Lemma train_clustering_model_runs (L : Libs) df (st : State L) :
  empty df = false ->
  runs_of (snd (train_clustering_model df st)) = S (runs_of st).
Proof.
  intros He. unfold train_clustering_model. rewrite He.
  apply method_runs. intros data. keeps.
Qed.

Lemma train_anomaly_detection_model_runs (L : Libs) df c (st : State L) :
  empty df = false ->
  runs_of (snd (train_anomaly_detection_model df c st)) = S (runs_of st).
Proof.
  intros He. unfold train_anomaly_detection_model. rewrite He.
  apply method_runs. intros data. keeps.
Qed.

Lemma train_target_prediction_model_runs (L : Libs) df (st : State L) :
  empty df = false ->
  runs_of (snd (train_target_prediction_model df st)) = S (runs_of st).
Proof.
  intros He. unfold train_target_prediction_model. rewrite He.
  apply method_runs. intros data. keeps.
Qed.

Lemma analyze_temporal_patterns_runs (L : Libs) df (st : State L) :
  empty df = false ->
  runs_of (snd (analyze_temporal_patterns df st)) = S (runs_of st).
Proof.
  intros He. unfold analyze_temporal_patterns. rewrite He.
  apply method_runs. intros data. keeps.
Qed.

Lemma identify_attack_campaign_runs (L : Libs) df d m (st : State L) :
  empty df = false ->
  runs_of (snd (identify_attack_campaign df d m st)) = S (runs_of st).
Proof.
  intros He. unfold identify_attack_campaign. rewrite He.
  apply method_runs. intros data. keeps.
Qed.

Lemma train_all_runs (L : Libs) df tf (st : State L) :
  empty df = false ->
  runs_of (snd (train_all df tf st)) = (5 + runs_of st)%nat.
Proof.
  intros He. unfold train_all, bind.
  pose proof (train_clustering_model_runs L df st He) as H1.
  destruct (train_clustering_model_returns L df st) as (r1 & st1 & E1).
  rewrite E1 in *. simpl in H1.
  pose proof (train_anomaly_detection_model_runs L df DEFAULT_CONTAMINATION st1 He) as H2.
  destruct (train_anomaly_detection_model_returns L df DEFAULT_CONTAMINATION st1)
    as (r2 & st2 & E2).
  rewrite E2 in *. simpl in H2.
  pose proof (train_target_prediction_model_runs L df st2 He) as H3.
  destruct (train_target_prediction_model_returns L df st2) as (r3 & st3 & E3).
  rewrite E3 in *. simpl in H3.
  pose proof (analyze_temporal_patterns_runs L df st3 He) as H4.
  destruct (analyze_temporal_patterns_returns L df st3) as (r4 & st4 & E4).
  rewrite E4 in *. simpl in H4.
  pose proof (identify_attack_campaign_runs L df DEFAULT_TIMESPAN_DAYS DEFAULT_MIN_ATTACKS
                st4 He) as H5.
  destruct (identify_attack_campaign_returns L df DEFAULT_TIMESPAN_DAYS DEFAULT_MIN_ATTACKS st4)
    as (r5 & st5 & E5).
  rewrite E5 in *. simpl in H5.
  pose proof (keeps_datetime_now (L := L) st5) as H6.
  unfold datetime_now in *. destruct (now L (world st5)) as [t w]. simpl in *.
  unfold runs_of in *. simpl in *. lia.
Qed.

(** ** C8: who runs the feature engineer *)

Lemma train_all_engineered (L : Libs) df tf (st : State L) :
  empty df = false ->
  train_all (preprocess_table df) tf st = train_all df tf st.
Proof.
  intros He. unfold train_all, bind.
  rewrite train_clustering_model_engineered by exact He.
  destruct (train_clustering_model df st) as [[m1 | r1] st1]; [reflexivity |].
  rewrite train_anomaly_detection_model_engineered by exact He.
  destruct (train_anomaly_detection_model df DEFAULT_CONTAMINATION st1)
    as [[m2 | r2] st2]; [reflexivity |].
  rewrite train_target_prediction_model_engineered by exact He.
  destruct (train_target_prediction_model df st2) as [[m3 | r3] st3]; [reflexivity |].
  rewrite analyze_temporal_patterns_engineered by exact He.
  destruct (analyze_temporal_patterns df st3) as [[m4 | r4] st4]; [reflexivity |].
  rewrite identify_attack_campaign_engineered by exact He.
  destruct (identify_attack_campaign df DEFAULT_TIMESPAN_DAYS DEFAULT_MIN_ATTACKS st4)
    as [[m5 | r5] st5]; [reflexivity |].
  now rewrite len_preprocess_table.
Qed.

(** C8 as stated fails: in the run of [train_models_on_attack_data] on the
    two events of [two_nights] the feature engineer is entered five times,
    once by each component, not once. *)
Lemma C8_feature_engineer_runs_counterexample :
  fetch_two_nights None = Ok two_nights /\
  empty two_nights = false /\
  (exists r w,
     train_models_on_attack_data (L := small_libs) fetch_two_nights None T0
     = (Success r, w)) /\
  runs_of (snd (train_all two_nights None (initial_state small_libs T0))) = 5%nat /\
  runs_of (snd (train_all two_nights None (initial_state small_libs T0))) <> 1%nat.
Proof.
  split; [reflexivity |]. split; [reflexivity |]. split.
  - eexists _, _. vm_compute. reflexivity.
  - split; vm_compute; [reflexivity | discriminate].
Qed.

(** C8, amended. For every non-empty raw event table,
    [train_models_on_attack_data] does not run the feature engineer itself:
    it hands the raw table to each of the five components, and each of them
    runs the feature engineer once, five runs in all.  Feature engineering
    is idempotent, so every component returns on the raw table what it
    returns on the feature-engineered table, and the aggregated bundle is
    the one obtained from that table. *)
Theorem C8_components_run_the_feature_engineer
  (L : Libs) (attack_df : DataFrame) (timeframe : option string) (st : State L) :
  empty attack_df = false ->
  let engineered := preprocess_table attack_df in
  runs_of (snd (train_all attack_df timeframe st)) = (5 + runs_of st)%nat /\
  preprocess_table engineered = engineered /\
  train_clustering_model attack_df st = train_clustering_model engineered st /\
  train_anomaly_detection_model attack_df DEFAULT_CONTAMINATION st
    = train_anomaly_detection_model engineered DEFAULT_CONTAMINATION st /\
  train_target_prediction_model attack_df st = train_target_prediction_model engineered st /\
  analyze_temporal_patterns attack_df st = analyze_temporal_patterns engineered st /\
  identify_attack_campaign attack_df DEFAULT_TIMESPAN_DAYS DEFAULT_MIN_ATTACKS st
    = identify_attack_campaign engineered DEFAULT_TIMESPAN_DAYS DEFAULT_MIN_ATTACKS st /\
  train_all attack_df timeframe st = train_all engineered timeframe st /\
  train_models_on_attack_data (fun _ => Ok attack_df) timeframe (world st)
    = train_models_on_attack_data (fun _ => Ok engineered) timeframe (world st).
Proof.
  intros He engineered. unfold engineered.
  split; [now apply train_all_runs |].
  split; [now apply preprocess_table_idempotent |].
  split; [symmetry; now apply train_clustering_model_engineered |].
  split; [symmetry; now apply train_anomaly_detection_model_engineered |].
  split; [symmetry; now apply train_target_prediction_model_engineered |].
  split; [symmetry; now apply analyze_temporal_patterns_engineered |].
  split; [symmetry; now apply identify_attack_campaign_engineered |].
  split; [symmetry; now apply train_all_engineered |].
  unfold train_models_on_attack_data.
  rewrite He, (empty_preprocess_table attack_df He).
  now rewrite train_all_engineered.
Qed.

Lemma C8_components_run_the_feature_engineer_witness :
  empty two_nights = false /\
  let st := initial_state small_libs T0 in
  let engineered := preprocess_table two_nights in
  runs_of (snd (train_all two_nights None st)) = (5 + runs_of st)%nat /\
  preprocess_table engineered = engineered /\
  train_clustering_model two_nights st = train_clustering_model engineered st /\
  train_anomaly_detection_model two_nights DEFAULT_CONTAMINATION st
    = train_anomaly_detection_model engineered DEFAULT_CONTAMINATION st /\
  train_target_prediction_model two_nights st = train_target_prediction_model engineered st /\
  analyze_temporal_patterns two_nights st = analyze_temporal_patterns engineered st /\
  identify_attack_campaign two_nights DEFAULT_TIMESPAN_DAYS DEFAULT_MIN_ATTACKS st
    = identify_attack_campaign engineered DEFAULT_TIMESPAN_DAYS DEFAULT_MIN_ATTACKS st /\
  train_all two_nights None st = train_all engineered None st /\
  train_models_on_attack_data (fun _ => Ok two_nights) None (world st)
    = train_models_on_attack_data (fun _ => Ok engineered) None (world st).
Proof.
  split; [reflexivity |].
  apply (C8_components_run_the_feature_engineer small_libs two_nights None
           (initial_state small_libs T0)).
  reflexivity.
Defined.

(** ** Worked examples *)

Example strftime_leap_day :
  strftime_full (19782 * NS_PER_DAY + 13 * NS_PER_HOUR + 5 * NS_PER_SECOND)
  = "2024-02-29 13:00:05" /\
  dt_dayofweek (19782 * NS_PER_DAY) = 3 /\
  model_path "anomaly" T0 = "models/anomaly_model_20240101_000000.joblib".
Proof. vm_compute. repeat split. Qed.

Example strftime_before_epoch :
  strftime_compact (- NS_PER_SECOND) = "19691231_235959" /\
  dt_dayofweek (- NS_PER_SECOND) = 2.
Proof. vm_compute. repeat split. Qed.

Example median_examples :
  median [Some 3%Q; None; Some 1%Q; Some 2%Q] = Some 2%Q /\
  median [Some 4%Q; Some 1%Q; Some 5%Q; Some 2%Q; Some 3%Q] = Some 3%Q /\
  median [None; None] = None /\
  (exists m, median [Some 1%Q; Some 4%Q] = Some m /\ (m == 5 # 2)%Q).
Proof.
  repeat split. eexists. split; [vm_compute; reflexivity | reflexivity].
Qed.

Example fftfreq_examples :
  Forall2 Qeq (fftfreq 5) [0; 1 # 5; 2 # 5; -2 # 5; -1 # 5]%Q /\
  Forall2 Qeq (fftfreq 4) [0; 1 # 4; -2 # 4; -1 # 4]%Q.
Proof. split; repeat constructor. Qed.

Example round1_examples :
  (round1 (7 # 2) == 7 # 2)%Q /\ (round1 (10 # 3) == 33 # 10)%Q /\
  (round1 (45 # 20) == 22 # 10)%Q /\ (round1 (47 # 20) == 24 # 10)%Q.
Proof. repeat split. Qed.

(** Twenty events from X to Y of type DDoS over five days, min_attacks=5,
    timespan_days=30: exactly one campaign, with attack_count 20,
    timespan_days 5 and four attacks a day. *)
Example one_campaign_of_twenty :
  exists c,
    campaigns_of (identify_attack_campaign (six_hourly 21) 30 5 (initial_state small_libs T0))
    = [c] /\
    campaign_key c = ("X", "Y", "DDoS") /\
    Campaign.attack_count c = 21 /\
    Campaign.timespan_days c = 5 /\
    (Campaign.attack_frequency c == 21 # 5)%Q /\
    Campaign.start_date c = "2024-01-01" /\
    Campaign.end_date c = "2024-01-06" /\
    Campaign.data_sources c = [Some "feed-a"; Some "unknown"] /\
    Campaign.severity c = "Critical".
Proof. eexists. split; [vm_compute; reflexivity |]. repeat split. Qed.

(** The same events without the last one span four days and eighteen
    hours: timespan_days is 4 and the frequency is five a day. *)
Example campaign_of_a_started_day :
  exists c,
    campaigns_of (identify_attack_campaign (six_hourly 20) 30 5 (initial_state small_libs T0))
    = [c] /\
    Campaign.attack_count c = 20 /\
    Campaign.timespan_days c = 4 /\
    (Campaign.attack_frequency c == 5)%Q.
Proof. eexists. split; [vm_compute; reflexivity |]. repeat split. Qed.

(** With no attack in the database the orchestrator returns one failure and
    calls no component. *)
Example no_attack_data :
  train_models_on_attack_data (L := small_libs) fetch_nothing None T0
  = (Failure "No attack data available", T0).
Proof. reflexivity. Qed.

(** * Further properties of the code *)

(** ** The feature engineer *)

Lemma columns_assign name f df :
  columns (assign name f df)
  = columns df ++ (if has_col name df then [] else [name]).
Proof.
  unfold assign. simpl. destruct (has_col name df); [now rewrite app_nil_r | reflexivity].
Qed.

Lemma extends_refl names d : extends_with names d d.
Proof. exists []. split; [now rewrite app_nil_r | intros x []]. Qed.

Lemma extends_trans names d1 d2 d3 :
  extends_with names d1 d2 -> extends_with names d2 d3 -> extends_with names d1 d3.
Proof.
  intros (a1 & E1 & I1) (a2 & E2 & I2). exists (a1 ++ a2). split.
  - now rewrite E2, E1, app_assoc.
  - now apply incl_app.
Qed.

Lemma extends_assign names name f d :
  (has_col name d = false -> In name names) ->
  extends_with names d (assign name f d).
Proof.
  intros H. exists (if has_col name d then [] else [name]).
  split; [apply columns_assign |].
  destruct (has_col name d); intros x Hx; [destruct Hx |].
  destruct Hx as [<- | []]. now apply H.
Qed.

Lemma extends_fold {C} names (f : DataFrame -> C -> DataFrame) (cols : list C) :
  (forall d x, extends_with names d (f d x)) ->
  forall d, extends_with names d (fold_left f cols d).
Proof.
  intros Hf. induction cols as [|x cols IH]; intros d; simpl.
  - apply extends_refl.
  - eapply extends_trans; [apply Hf | apply IH].
Qed.

Lemma extends_frequencies d :
  extends_with DERIVED_COLUMNS d
    (add_attack_type_frequency (add_source_country_frequency d)).
Proof.
  apply (extends_trans _ d (add_source_country_frequency d)).
  - unfold add_source_country_frequency.
    destruct (has_col "source_country" d); [| apply extends_refl].
    apply extends_assign. intros _. unfold DERIVED_COLUMNS. simpl. tauto.
  - generalize (add_source_country_frequency d). intros d'.
    unfold add_attack_type_frequency.
    destruct (has_col "attack_type" d'); [| apply extends_refl].
    apply extends_assign. intros _. unfold DERIVED_COLUMNS. simpl. tauto.
Qed.

Lemma extends_add_temporal d : extends_with DERIVED_COLUMNS d (add_temporal d).
Proof.
  unfold add_temporal. destruct (has_col "timestamp" d); [| apply extends_refl].
  set (d1 := assign "hour_of_day" set_hour_of_day d).
  set (d2 := assign "day_of_week" set_day_of_week d1).
  set (d3 := assign "month" set_month d2).
  set (d4 := assign "year" set_year d3).
  apply (extends_trans _ d d1);
    [apply extends_assign; intros _; unfold DERIVED_COLUMNS; simpl; tauto |].
  apply (extends_trans _ d1 d2);
    [apply extends_assign; intros _; unfold DERIVED_COLUMNS; simpl; tauto |].
  apply (extends_trans _ d2 d3);
    [apply extends_assign; intros _; unfold DERIVED_COLUMNS; simpl; tauto |].
  apply (extends_trans _ d3 d4);
    [apply extends_assign; intros _; unfold DERIVED_COLUMNS; simpl; tauto |].
  apply extends_assign; intros _; unfold DERIVED_COLUMNS; simpl; tauto.
Qed.

Lemma extends_preprocess_table df :
  empty df = false -> extends_with DERIVED_COLUMNS df (preprocess_table df).
Proof.
  intros He. rewrite preprocess_table_imputed by exact He. unfold imputed.
  set (d1 := add_temporal df).
  set (d2 := fold_left fill_numeric numerical_features d1).
  set (d3 := fold_left fill_categorical categorical_features d2).
  apply (extends_trans _ df d1); [apply extends_add_temporal |].
  apply (extends_trans _ d1 d2).
  { apply (extends_fold DERIVED_COLUMNS fill_numeric). intros d x. unfold fill_numeric.
    destruct (has_col (num_name x) d) eqn:E; [| apply extends_refl].
    apply extends_assign. congruence. }
  apply (extends_trans _ d2 d3).
  { apply (extends_fold DERIVED_COLUMNS fill_categorical). intros d x. unfold fill_categorical.
    destruct (has_col (cat_name x) d) eqn:E; [| apply extends_refl].
    apply extends_assign. congruence. }
  apply extends_frequencies.
Qed.

Lemma severity_preprocess_table df :
  empty df = false ->
  column_of severity (preprocess_table df) = column_of severity df.
Proof.
  intros He. rewrite preprocess_table_imputed by exact He.
  rewrite column_of_frequencies by reflexivity. unfold imputed.
  rewrite (column_of_fold severity fill_categorical)
    by (intros d x; apply column_of_fill_categorical; intros r v; destruct x; reflexivity).
  rewrite (column_of_fold severity fill_numeric)
    by (intros d x; apply column_of_fill_numeric; intros r v; destruct x; reflexivity).
  now rewrite column_of_add_temporal by reflexivity.
Qed.

(** X1. On a non-empty table [preprocess_data] returns a table with the
    same number of rows, the same timestamps and severities, and the
    columns of the input in their order followed only by derived columns;
    it leaves that list of columns in [self.features]. *)
Theorem preprocess_data_keeps_the_table (L : Libs) (df : DataFrame) (st : State L) :
  empty df = false ->
  exists data st',
    preprocess_data df st = (Ok data, st') /\
    features (self st') = columns data /\
    world st' = world st /\
    List.length (rows data) = List.length (rows df) /\
    ts_column data = ts_column df /\
    column_of severity data = column_of severity df /\
    exists added, columns data = columns df ++ added /\ incl added DERIVED_COLUMNS.
Proof.
  intros He. rewrite (preprocess_data_run L df st He).
  eexists _, _. split; [reflexivity |]. cbn [self world features set_features].
  split; [reflexivity |]. split; [reflexivity |].
  split; [now apply length_rows_preprocess_table |].
  split; [now apply ts_column_preprocess_table |].
  split; [now apply severity_preprocess_table |].
  now apply extends_preprocess_table.
Qed.

Lemma preprocess_data_keeps_the_table_witness :
  empty unknown_twice = false /\
  exists data st',
    preprocess_data unknown_twice (initial_state small_libs T0) = (Ok data, st') /\
    features (self st') = columns data /\
    world st' = world (initial_state small_libs T0) /\
    List.length (rows data) = List.length (rows unknown_twice) /\
    ts_column data = ts_column unknown_twice /\
    column_of severity data = column_of severity unknown_twice /\
    exists added, columns data = columns unknown_twice ++ added /\ incl added DERIVED_COLUMNS.
Proof.
  split; [reflexivity |].
  apply (preprocess_data_keeps_the_table small_libs unknown_twice
           (initial_state small_libs T0)).
  reflexivity.
Defined.

(** X2. Handing [preprocess_data] its own output changes nothing: the second
    run returns the same table and leaves the same [self.features]. *)
Theorem preprocess_data_twice (L : Libs) (df : DataFrame) (st : State L) :
  empty df = false ->
  exists data st1 st2,
    preprocess_data df st = (Ok data, st1) /\
    preprocess_data data st1 = (Ok data, st2) /\
    features (self st2) = features (self st1) /\
    empty data = false.
Proof.
  intros He. pose proof (empty_preprocess_table df He) as HeP.
  rewrite (preprocess_data_run L df st He).
  eexists _, _, _. split; [reflexivity |].
  rewrite (preprocess_data_run L (preprocess_table df) _ HeP).
  rewrite preprocess_table_idempotent by exact He.
  split; [reflexivity |]. split; [reflexivity | exact HeP].
Qed.

Lemma preprocess_data_twice_witness :
  empty slow_campaign = false /\
  exists data st1 st2,
    preprocess_data slow_campaign (initial_state small_libs T0) = (Ok data, st1) /\
    preprocess_data data st1 = (Ok data, st2) /\
    features (self st2) = features (self st1) /\
    empty data = false.
Proof.
  split; [reflexivity |].
  apply (preprocess_data_twice small_libs slow_campaign (initial_state small_libs T0)).
  reflexivity.
Defined.

Lemma dt_hour_bounds t : 0 <= dt_hour t <= 23.
Proof.
  unfold dt_hour, NS_PER_DAY, NS_PER_HOUR, NS_PER_SECOND.
  Z.div_mod_to_equations. lia.
Qed.

Lemma temporal_of_in_range r :
  temporal r = temporal_of (timestamp r) -> temporal_in_range r.
Proof.
  intros H. unfold temporal_in_range. rewrite H. unfold temporal_of.
  cbn [hour_of_day day_of_week month year weekend].
  pose proof (dt_hour_bounds (timestamp r)).
  pose proof (dt_dayofweek_bounds (timestamp r)).
  pose proof (dt_month_bounds (timestamp r)).
  repeat split; lia.
Qed.

(** X3. When the table has a timestamp column, every row that
    [preprocess_data] returns has hour_of_day in 0..23, day_of_week in 0..6
    (Monday 0), month in 1..12 and the year of its timestamp, and weekend
    is 1 exactly on the days 5 and 6. *)
Theorem preprocess_data_temporal_columns (L : Libs) (df : DataFrame) (st : State L) :
  empty df = false ->
  has_col "timestamp" df = true ->
  exists data st',
    preprocess_data df st = (Ok data, st') /\
    (forall name, In name ["hour_of_day"; "day_of_week"; "month"; "year"; "weekend"] ->
                  has_col name data = true) /\
    Forall temporal_in_range (rows data).
Proof.
  intros He Hts. rewrite (preprocess_data_run L df st He).
  eexists _, _. split; [reflexivity |]. split.
  - intros name Hname. now apply has_col_temporal_names.
  - apply Forall_forall. intros r Hr. apply temporal_of_in_range.
    revert r Hr. apply (pointwise temporal (fun r => temporal_of (timestamp r))).
    fold (column_of temporal (preprocess_table df)).
    rewrite temporal_preprocess_table by assumption.
    transitivity (map temporal_of (ts_column (preprocess_table df))).
    + rewrite ts_column_preprocess_table by exact He.
      unfold ts_column. now rewrite map_map.
    + unfold ts_column. now rewrite map_map.
Qed.

Lemma preprocess_data_temporal_columns_witness :
  empty slow_campaign = false /\
  has_col "timestamp" slow_campaign = true /\
  exists data st',
    preprocess_data slow_campaign (initial_state small_libs T0) = (Ok data, st') /\
    (forall name, In name ["hour_of_day"; "day_of_week"; "month"; "year"; "weekend"] ->
                  has_col name data = true) /\
    Forall temporal_in_range (rows data).
Proof.
  split; [reflexivity |]. split; [reflexivity |].
  apply (preprocess_data_temporal_columns small_libs slow_campaign
           (initial_state small_libs T0)); reflexivity.
Defined.

Lemma In_present {A} (v : A) col : In v (present col) <-> In (Some v) col.
Proof.
  split; [apply present_In |].
  intros H. unfold present. apply in_flat_map. exists (Some v). split; [exact H | now left].
Qed.

Lemma nth_sorted_present (col : list (option Q)) i d :
  (i < List.length (sort_Q (present col)))%nat ->
  In (Some (nth i (sort_Q (present col)) d)) col.
Proof.
  intros Hi. apply In_present.
  apply (Permutation_in _ (sort_by_perm Qle_bool (present col))).
  now apply nth_In.
Qed.

(** The median of a column with a present value exists and lies between
    any bounds of the present values. *)
Lemma median_between (col : list (option Q)) :
  (exists v, In (Some v) col) ->
  exists m,
    median col = Some m /\
    forall lo hi, (forall v, In (Some v) col -> (lo <= v <= hi)%Q) -> (lo <= m <= hi)%Q.
Proof.
  intros (v & Hv). apply In_present in Hv.
  apply (Permutation_in _ (Permutation_sym (sort_by_perm Qle_bool (present col)))) in Hv.
  unfold median. fold (sort_Q (present col)) in *.
  pose proof (nth_sorted_present col) as Hnth.
  destruct (sort_Q (present col)) as [|x s] eqn:Es; [destruct Hv |].
  set (n := List.length (x :: s)) in *.
  assert (Hn : (0 < n)%nat) by (unfold n; simpl; lia).
  assert (Hhalf : (n / 2 < n)%nat) by (apply Nat.div_lt; lia).
  destruct (Nat.even n).
  - eexists. split; [reflexivity |]. intros lo hi Hb.
    pose proof (Hb _ (Hnth (n / 2 - 1)%nat x ltac:(lia))) as H1.
    pose proof (Hb _ (Hnth (n / 2)%nat x Hhalf)) as H2.
    revert H1 H2.
    generalize (nth (n / 2 - 1) (x :: s) x), (nth (n / 2) (x :: s) x).
    intros a b Ha Hb'.
    assert (Hc : ((a + b) / 2 * 2 == a + b)%Q) by field.
    revert Hc. generalize ((a + b) / 2)%Q. intros c Hc. lra.
  - eexists. split; [reflexivity |]. intros lo hi Hb.
    exact (Hb _ (Hnth (n / 2)%nat x Hhalf)).
Qed.

Lemma imputed_with_fillna {A} (m : A) col :
  Forall2 (imputed_with m) col (map (fillna (Some m)) col).
Proof. induction col as [|[v |] col IH]; simpl; constructor; auto; reflexivity. Qed.

(** X4. A numeric column that the table has and that holds at least one
    value comes out of [preprocess_data] without a missing cell: the
    present cells are kept and every missing cell holds the median of the
    present ones, a value between their smallest and largest. *)
Theorem preprocess_data_fills_numeric
  (L : Libs) (df : DataFrame) (st : State L) (col : NumCol) :
  empty df = false ->
  has_col (num_name col) df = true ->
  (exists v, In (Some v) (num_column col df)) ->
  exists data st' m,
    preprocess_data df st = (Ok data, st') /\
    median (num_column col df) = Some m /\
    Forall2 (imputed_with m) (num_column col df) (num_column col data) /\
    ~ In None (num_column col data) /\
    forall lo hi,
      (forall v, In (Some v) (num_column col df) -> (lo <= v <= hi)%Q) -> (lo <= m <= hi)%Q.
Proof.
  intros He Hcol Hv. rewrite (preprocess_data_run L df st He).
  destruct (median_between (num_column col df) Hv) as (m & Hm & Hb).
  eexists _, _, m. split; [reflexivity |]. split; [exact Hm |].
  assert (Hcolumn : num_column col (preprocess_table df)
                    = map (fillna (Some m)) (num_column col df)).
  { unfold num_column in *. rewrite <- Hm.
    exact (num_preprocess_table df col He Hcol). }
  rewrite Hcolumn. split; [apply imputed_with_fillna |]. split; [| exact Hb].
  intros Hin. apply in_map_iff in Hin. destruct Hin as ([x |] & Hx & _); discriminate.
Qed.

Lemma preprocess_data_fills_numeric_witness :
  empty no_source_position = false /\
  has_col "target_latitude" no_source_position = true /\
  (exists v, In (Some v) (num_column TargetLatitude no_source_position)) /\
  exists data st' m,
    preprocess_data no_source_position (initial_state small_libs T0) = (Ok data, st') /\
    median (num_column TargetLatitude no_source_position) = Some m /\
    Forall2 (imputed_with m) (num_column TargetLatitude no_source_position)
            (num_column TargetLatitude data) /\
    ~ In None (num_column TargetLatitude data) /\
    forall lo hi,
      (forall v, In (Some v) (num_column TargetLatitude no_source_position) ->
                 (lo <= v <= hi)%Q) ->
      (lo <= m <= hi)%Q.
Proof.
  split; [reflexivity |]. split; [reflexivity |].
  assert (Hv : exists v, In (Some v) (num_column TargetLatitude no_source_position))
    by (exists (481 # 10)%Q; left; reflexivity).
  split; [exact Hv |].
  exact (preprocess_data_fills_numeric small_libs no_source_position
           (initial_state small_libs T0) TargetLatitude eq_refl eq_refl Hv).
Defined.

(** X5. A categorical column that the table has comes out of
    [preprocess_data] without a missing cell: present cells are kept and
    missing ones hold 'unknown'. *)
Theorem preprocess_data_fills_categorical
  (L : Libs) (df : DataFrame) (st : State L) (col : CatCol) :
  empty df = false ->
  has_col (cat_name col) df = true ->
  exists data st',
    preprocess_data df st = (Ok data, st') /\
    Forall2 (imputed_with "unknown") (cat_column col df) (cat_column col data) /\
    ~ In None (cat_column col data).
Proof.
  intros He Hcol. rewrite (preprocess_data_run L df st He).
  eexists _, _. split; [reflexivity |].
  rewrite (cat_preprocess_table df col He Hcol). split.
  - exact (imputed_with_fillna "unknown" _).
  - intros Hin. apply in_map_iff in Hin. destruct Hin as ([x |] & Hx & _); discriminate.
Qed.

Lemma preprocess_data_fills_categorical_witness :
  empty unknown_twice = false /\
  has_col "attack_type" unknown_twice = true /\
  exists data st',
    preprocess_data unknown_twice (initial_state small_libs T0) = (Ok data, st') /\
    Forall2 (imputed_with "unknown") (cat_column AttackType unknown_twice)
            (cat_column AttackType data) /\
    ~ In None (cat_column AttackType data).
Proof.
  split; [reflexivity |]. split; [reflexivity |].
  exact (preprocess_data_fills_categorical small_libs unknown_twice
           (initial_state small_libs T0) AttackType eq_refl eq_refl).
Defined.

Lemma count_if_pos {A} (p : A -> bool) l x :
  In x l -> p x = true -> 1 <= count_if p l.
Proof.
  intros Hin Hp. unfold count_if.
  assert (H : In x (filter p l)) by (apply filter_In; auto).
  destruct (filter p l); [destruct H | simpl; lia].
Qed.

Lemma Forall2_map_same {A B} (R : A -> B -> Prop) (f : A -> B) l :
  (forall x, In x l -> R x (f x)) -> Forall2 R l (map f l).
Proof.
  induction l as [|x l IH]; intros H; simpl; constructor.
  - apply H. now left.
  - apply IH. intros y Hy. apply H. now right.
Qed.

Lemma frequency_encodes_counts col :
  ~ In None col -> encodes_counts col (map (frequency col) col).
Proof.
  intros Hnone. apply Forall2_map_same. intros [v |] Hin; [| contradiction].
  exists v. split; [reflexivity |]. split; [reflexivity |]. split.
  - apply (count_if_pos _ col (Some v) Hin). simpl. apply String.eqb_refl.
  - apply count_if_bounds.
Qed.

Lemma fill_unknown_no_missing col : ~ In None (map fill_unknown col).
Proof.
  intros Hin. apply in_map_iff in Hin. destruct Hin as ([x |] & Hx & _); discriminate.
Qed.

(** X6. The two frequency columns that [preprocess_data] adds count rows
    of the table it returns: the frequency of a row is the number of rows
    of the returned table with the same (filled) source country,
    respectively attack type; it is at least 1 and at most the number of
    rows. *)
Theorem preprocess_data_frequencies
  (L : Libs) (df : DataFrame) (st : State L) :
  empty df = false ->
  has_col "source_country" df = true ->
  has_col "attack_type" df = true ->
  exists data st',
    preprocess_data df st = (Ok data, st') /\
    encodes_counts (cat_column SourceCountry data) (source_country_frequencies data) /\
    encodes_counts (cat_column AttackType data) (attack_type_frequencies data).
Proof.
  intros He Hsrc Hatt. rewrite (preprocess_data_run L df st He).
  eexists _, _. split; [reflexivity |].
  rewrite (source_country_frequencies_preprocess df He Hsrc).
  rewrite (attack_type_frequencies_preprocess df He Hatt).
  rewrite (cat_preprocess_table df SourceCountry He Hsrc).
  rewrite (cat_preprocess_table df AttackType He Hatt).
  split; apply frequency_encodes_counts, fill_unknown_no_missing.
Qed.

Lemma preprocess_data_frequencies_witness :
  empty unknown_twice = false /\
  has_col "source_country" unknown_twice = true /\
  has_col "attack_type" unknown_twice = true /\
  exists data st',
    preprocess_data unknown_twice (initial_state small_libs T0) = (Ok data, st') /\
    encodes_counts (cat_column SourceCountry data) (source_country_frequencies data) /\
    encodes_counts (cat_column AttackType data) (attack_type_frequencies data).
Proof.
  split; [reflexivity |]. split; [reflexivity |]. split; [reflexivity |].
  exact (preprocess_data_frequencies small_libs unknown_twice
           (initial_state small_libs T0) eq_refl eq_refl eq_refl).
Defined.

(** ** Distinct values and their counts *)

Section Unique.
Context {A : Type} (eqb : A -> A -> bool).
Hypothesis eqb_eq : forall x y, eqb x y = true <-> x = y.

Lemma eqb_same x : eqb x x = true.
Proof. now apply eqb_eq. Qed.

Lemma unique_complete x l : In x l -> In x (unique eqb l).
Proof.
  induction l as [|y l IH]; simpl; [auto |].
  intros [-> | H]; [now left |].
  destruct (eqb y x) eqn:E.
  - left. now apply eqb_eq.
  - right. apply filter_In. split; [now apply IH | now rewrite E].
Qed.

Lemma unique_NoDup l : NoDup (unique eqb l).
Proof.
  induction l as [|y l IH]; simpl; constructor.
  - intros H. apply filter_In in H. destruct H as (_ & H).
    now rewrite eqb_same in H.
  - now apply NoDup_filter.
Qed.

Lemma memb_In x l : memb eqb x l = true <-> In x l.
Proof.
  unfold memb. rewrite existsb_exists. split.
  - intros (y & Hy & E). apply eqb_eq in E. now subst.
  - intros H. exists x. split; [exact H | apply eqb_same].
Qed.
End Unique.

Lemma sum_Z_from (l : list Z) (a : Z) : fold_left Z.add l a = a + sum_Z l.
Proof.
  unfold sum_Z. revert a. induction l as [|x l IH]; intros a; simpl.
  - lia.
  - rewrite (IH (a + x)), (IH x). lia.
Qed.

Lemma sum_Z_cons (x : Z) l : sum_Z (x :: l) = x + sum_Z l.
Proof. unfold sum_Z at 1. simpl. apply sum_Z_from. Qed.

Lemma sum_Z_perm l l' : Permutation l l' -> sum_Z l = sum_Z l'.
Proof.
  induction 1 as [| x l l' _ IH | x y l | l l' l'' _ IH1 _ IH2].
  - reflexivity.
  - rewrite !sum_Z_cons. lia.
  - rewrite !sum_Z_cons. lia.
  - lia.
Qed.

Lemma count_if_cons {A} (p : A -> bool) x l :
  count_if p (x :: l) = (if p x then 1 else 0) + count_if p l.
Proof.
  unfold count_if. cbn [filter]. destruct (p x); cbn [List.length]; lia.
Qed.

Lemma count_if_perm {A} (p : A -> bool) l l' :
  Permutation l l' -> count_if p l = count_if p l'.
Proof.
  induction 1 as [| x l l' _ IH | x y l | l l' l'' _ IH1 _ IH2].
  - reflexivity.
  - rewrite !count_if_cons. lia.
  - rewrite !count_if_cons. lia.
  - lia.
Qed.

Lemma count_if_ext {A} (p q : A -> bool) l :
  (forall x, In x l -> p x = q x) -> count_if p l = count_if q l.
Proof.
  induction l as [|x l IH]; intros H; [reflexivity |].
  rewrite !count_if_cons, (H x) by (left; reflexivity).
  rewrite IH; [reflexivity |]. intros y Hy. apply H. now right.
Qed.

Lemma count_if_all {A} (p : A -> bool) l :
  (forall x, In x l -> p x = true) -> count_if p l = Z.of_nat (List.length l).
Proof.
  induction l as [|x l IH]; intros H; [reflexivity |].
  rewrite count_if_cons, (H x) by (left; reflexivity).
  rewrite IH; [cbn [List.length]; lia |]. intros y Hy. apply H. now right.
Qed.

Lemma count_if_none {A} (p : A -> bool) l :
  (forall x, In x l -> p x = false) -> count_if p l = 0.
Proof.
  induction l as [|x l IH]; intros H; [reflexivity |].
  rewrite count_if_cons, (H x) by (left; reflexivity).
  rewrite IH; [reflexivity |]. intros y Hy. apply H. now right.
Qed.

Lemma count_if_map {A B} (f : A -> B) (p : B -> bool) l :
  count_if p (map f l) = count_if (fun x => p (f x)) l.
Proof.
  induction l as [|x l IH]; [reflexivity |].
  simpl map. rewrite !count_if_cons, IH. reflexivity.
Qed.

Section Counting.
Context {A : Type} (eqb : A -> A -> bool).
Hypothesis eqb_eq : forall x y, eqb x y = true <-> x = y.

Lemma memb_cons y a (u : list A) : memb eqb y (a :: u) = eqb y a || memb eqb y u.
Proof. reflexivity. Qed.

(** The counts of distinct values add up to the number of elements that
    are among them. *)
Lemma sum_counts_NoDup (u l : list A) :
  NoDup u ->
  sum_Z (map (fun v => count_if (eqb v) l) u) = count_if (fun y => memb eqb y u) l.
Proof.
  induction 1 as [| a u Hnotin _ IH]; simpl map.
  - unfold sum_Z. simpl. symmetry. now apply count_if_none.
  - rewrite sum_Z_cons, IH. clear IH.
    induction l as [|y l IHl]; [reflexivity |].
    rewrite !count_if_cons, <- IHl, memb_cons.
    destruct (eqb a y) eqn:Ea.
    + apply eqb_eq in Ea. subst y.
      rewrite (eqb_same eqb eqb_eq a). cbn [orb].
      destruct (memb eqb a u) eqn:Em; [| lia].
      apply (memb_In eqb eqb_eq) in Em. contradiction.
    + destruct (eqb y a) eqn:Eya.
      * apply eqb_eq in Eya. subst y. now rewrite (eqb_same eqb eqb_eq a) in Ea.
      * cbn [orb]. destruct (memb eqb y u); lia.
Qed.

Lemma sum_counts_unique (l : list A) :
  sum_Z (map (fun v => count_if (eqb v) l) (unique eqb l)) = Z.of_nat (List.length l).
Proof.
  rewrite sum_counts_NoDup by apply (unique_NoDup eqb eqb_eq).
  apply count_if_all. intros x Hx.
  apply (memb_In eqb eqb_eq). now apply (unique_complete eqb eqb_eq).
Qed.

(** In a list without repetition a value occurs once or not at all. *)
Lemma count_if_NoDup (u : list A) x :
  NoDup u -> count_if (eqb x) u = if memb eqb x u then 1 else 0.
Proof.
  induction 1 as [| a u Hnotin _ IH]; [reflexivity |].
  rewrite count_if_cons, IH, memb_cons.
  destruct (eqb x a) eqn:E; cbn [orb]; [| lia].
  apply eqb_eq in E. subst a.
  destruct (memb eqb x u) eqn:Em; [| reflexivity].
  apply (memb_In eqb eqb_eq) in Em. contradiction.
Qed.
End Counting.

Lemma count_if_negb {A} (p : A -> bool) l :
  count_if (fun x => negb (p x)) l = Z.of_nat (List.length l) - count_if p l.
Proof.
  induction l as [|x l IH]; [reflexivity |].
  rewrite !count_if_cons, IH. cbn [List.length]. destruct (p x); cbn [negb]; lia.
Qed.

Lemma Z_eqb_eq' (x y : Z) : Z.eqb x y = true <-> x = y.
Proof. apply Z.eqb_eq. Qed.

(** ** [value_counts] *)

Lemma value_counts_perm col :
  Permutation (value_counts col)
              (map (fun v => (v, count_if (Z.eqb v) col)) (unique Z.eqb col)).
Proof. unfold value_counts, sort_desc_Z. apply sort_by_perm. Qed.

Lemma value_counts_keys col :
  Permutation (map fst (value_counts col)) (unique Z.eqb col).
Proof.
  rewrite (Permutation_map fst (value_counts_perm col)), map_map. simpl.
  now rewrite map_id.
Qed.

Lemma value_counts_entry col k c :
  In (k, c) (value_counts col) -> c = count_if (Z.eqb k) col /\ In k col.
Proof.
  intros H. apply (Permutation_in _ (value_counts_perm col)) in H.
  apply in_map_iff in H. destruct H as (v & Hv & Hin). injection Hv as -> <-.
  split; [reflexivity | now apply unique_In in Hin].
Qed.

Lemma value_counts_sum col :
  sum_Z (map snd (value_counts col)) = Z.of_nat (List.length col).
Proof.
  rewrite (sum_Z_perm _ _ (Permutation_map snd (value_counts_perm col))), map_map.
  simpl. apply (sum_counts_unique Z.eqb Z_eqb_eq').
Qed.

Lemma value_counts_sorted col :
  StronglySorted (fun a b => snd b <= snd a) (value_counts col).
Proof. unfold value_counts. apply sort_desc_Z_sorted. Qed.

Lemma n_clusters_of_counts labels :
  n_clusters_of labels
  = count_if (fun kc => negb (fst kc =? -1)) (value_counts labels).
Proof.
  unfold n_clusters_of.
  rewrite (count_if_perm _ _ _ (value_counts_perm labels)), count_if_map. simpl.
  rewrite (count_if_ext (fun x => negb (x =? -1)) (fun x => negb (-1 =? x)))
    by (intros x _; now rewrite Z.eqb_sym).
  rewrite count_if_negb.
  rewrite (count_if_NoDup Z.eqb Z_eqb_eq') by apply (unique_NoDup Z.eqb Z_eqb_eq').
  replace (memb Z.eqb (-1) (unique Z.eqb labels)) with (memb Z.eqb (-1) labels);
    [reflexivity |].
  destruct (memb Z.eqb (-1) labels) eqn:E.
  - symmetry. apply (memb_In Z.eqb Z_eqb_eq').
    apply (unique_complete Z.eqb Z_eqb_eq'). now apply (memb_In Z.eqb Z_eqb_eq').
  - destruct (memb Z.eqb (-1) (unique Z.eqb labels)) eqn:E'; [| reflexivity].
    apply (memb_In Z.eqb Z_eqb_eq'), unique_In, (memb_In Z.eqb Z_eqb_eq') in E'.
    congruence.
Qed.

Lemma clustering_success_counts (L : Libs) df (st st' : State L) p :
  train_clustering_model df st = (Ok (Success p), st') ->
  ClusteringResult.cluster_counts p
  = value_counts (labels_of (ClusteringResult.clustered_data p)).
Proof.
  unfold train_clustering_model. destruct (empty df) eqn:He.
  - intros H. apply ret_ok in H. destruct H; discriminate.
  - intros H. apply try_except_success in H.
    run H. apply ret_ok in H. destruct H as (H & _). injection H as ->. reflexivity.
Qed.

(** ** Clustering *)

(** X7. In a successful clustering result, [cluster_counts] has one entry
    for each distinct label of the clustered table and no other, every
    entry holds the number of rows with that label (at least one), the
    entries come with the largest count first, the counts add up to the
    number of rows of the input, and [n_clusters] is the number of entries
    whose label is not the noise label -1. *)
Theorem clustering_counts
  (L : Libs) (df : DataFrame) (st st' : State L) (p : ClusteringResult.t) :
  train_clustering_model df st = (Ok (Success p), st') ->
  let labels := labels_of (ClusteringResult.clustered_data p) in
  let counts := ClusteringResult.cluster_counts p in
  NoDup (map fst counts) /\
  (forall k, In k (map fst counts) <-> In k labels) /\
  (forall k c, In (k, c) counts -> c = count_if (Z.eqb k) labels /\ 1 <= c) /\
  StronglySorted (fun a b => snd b <= snd a) counts /\
  sum_Z (map snd counts) = len df /\
  ClusteringResult.n_clusters p = count_if (fun kc => negb (fst kc =? -1)) counts.
Proof.
  intros H labels counts.
  destruct (clustering_success_labels L df st st' p H) as (He & Hlen & _ & Hn).
  pose proof (clustering_success_counts L df st st' p H) as Hc.
  fold labels in Hc, Hn. fold counts in Hc. clearbody counts. subst counts.
  assert (Hlabels : Z.of_nat (List.length labels) = len df).
  { unfold labels, labels_of, len. now rewrite length_map, Hlen. }
  clearbody labels. clear H.
  repeat split.
  - apply (Permutation_NoDup (Permutation_sym (value_counts_keys labels))).
    apply (unique_NoDup Z.eqb Z_eqb_eq').
  - intros Hk. apply (Permutation_in _ (value_counts_keys labels)) in Hk.
    now apply unique_In in Hk.
  - intros Hk. apply (Permutation_in _ (Permutation_sym (value_counts_keys labels))).
    now apply (unique_complete Z.eqb Z_eqb_eq').
  - now apply value_counts_entry in H.
  - apply value_counts_entry in H. destruct H as (-> & Hin).
    apply (count_if_pos _ labels k Hin). apply Z.eqb_refl.
  - apply value_counts_sorted.
  - now rewrite value_counts_sum.
  - rewrite Hn. apply n_clusters_of_counts.
Qed.

Lemma clustering_counts_witness :
  exists p st',
    train_clustering_model two_nights (initial_state small_libs T0) = (Ok (Success p), st') /\
    let labels := labels_of (ClusteringResult.clustered_data p) in
    let counts := ClusteringResult.cluster_counts p in
    NoDup (map fst counts) /\
    (forall k, In k (map fst counts) <-> In k labels) /\
    (forall k c, In (k, c) counts -> c = count_if (Z.eqb k) labels /\ 1 <= c) /\
    StronglySorted (fun a b => snd b <= snd a) counts /\
    sum_Z (map snd counts) = len two_nights /\
    ClusteringResult.n_clusters p = count_if (fun kc => negb (fst kc =? -1)) counts.
Proof.
  destruct (train_clustering_model two_nights (initial_state small_libs T0))
    as [[m | [m | p]] st'] eqn:E; try (vm_compute in E; discriminate).
  exists p, st'. split; [reflexivity |].
  exact (clustering_counts small_libs two_nights (initial_state small_libs T0) st' p E).
Defined.

(** X8. [train_clustering_model] stores the fitted pipeline in the
    analyzer before it writes the model file: when the fit succeeds and the
    write raises, the method returns a failure and the analyzer holds the
    new pipeline all the same.  The failure carries the message of the
    write when the fit returned one label per row. *)
Theorem clustering_model_survives_a_failed_save
  (L : Libs) (df : DataFrame) (st : State L) (m : Model L) (labels : list Z)
  (msg : string) :
  empty df = false ->
  clustering_fit L df = Ok (m, labels) ->
  save_model L "clustering" m st = Raise msg ->
  exists e st',
    train_clustering_model df st = (Ok (Failure e), st') /\
    clustering_model (self st') = Some m /\
    (List.length labels = List.length (rows df) -> e = msg).
Proof.
  intros He Hfit Hsave. unfold clustering_fit in Hfit. unfold save_model in Hsave.
  unfold train_clustering_model. rewrite He.
  unfold try_except, bind. rewrite (preprocess_data_run L df st He).
  cbv beta iota. unfold call at 1. rewrite Hfit. cbv beta iota.
  unfold modify_self at 1. cbv beta iota.
  unfold call. unfold assign_values.
  rewrite length_rows_preprocess_table by exact He.
  destruct (Nat.eqb (List.length labels) (List.length (rows df))) eqn:Elen.
  - cbv beta iota. unfold datetime_now. cbn [world self].
    destruct (now L (world st)) as [t w]. cbv beta iota. unfold dump. cbn [world self].
    rewrite Hsave. unfold ret. eexists _, _. split; [reflexivity |].
    split; [reflexivity | auto].
  - unfold ret. eexists _, _. split; [reflexivity |]. split; [reflexivity |].
    intros Hlen. apply Nat.eqb_neq in Elen. contradiction.
Qed.

Lemma clustering_model_survives_a_failed_save_witness :
  empty two_nights = false /\
  clustering_fit full_disk_libs two_nights = Ok (tt, [-1; -1]) /\
  save_model full_disk_libs "clustering" tt (initial_state full_disk_libs T0)
  = Raise "No space left on device" /\
  exists e st',
    train_clustering_model two_nights (initial_state full_disk_libs T0)
    = (Ok (Failure e), st') /\
    clustering_model (self st') = Some tt /\
    (List.length [-1; -1] = List.length (rows two_nights) ->
     e = "No space left on device").
Proof.
  split; [reflexivity |]. split; [vm_compute; reflexivity |]. split; [reflexivity |].
  exact (clustering_model_survives_a_failed_save full_disk_libs two_nights
           (initial_state full_disk_libs T0) tt [-1; -1] "No space left on device"
           eq_refl eq_refl eq_refl).
Defined.

(** ** What the methods write in the analyzer *)

Section Frame.
Context {L : Libs} {X : Type} (field : Analyzer L -> X).

Lemma preserves_ret {A} (a : A) : preserves field (ret (L := L) a).
Proof. intros st. reflexivity. Qed.

Lemma preserves_call {A} (r : exc A) : preserves field (call (L := L) r).
Proof. intros st. reflexivity. Qed.

Lemma preserves_modify_self f :
  (forall a, field (f a) = field a) -> preserves field (modify_self L f).
Proof. intros Hf st. simpl. apply Hf. Qed.

Lemma preserves_datetime_now : preserves field (datetime_now L).
Proof. intros st. unfold datetime_now. destruct (now L (world st)). reflexivity. Qed.

Lemma preserves_dump m f : preserves field (dump L m f).
Proof. intros st. unfold dump. destruct (joblib_dump L m f (world st)); reflexivity. Qed.

Lemma preserves_bind {A B} (c : M L A) (k : A -> M L B) :
  preserves field c -> (forall a, preserves field (k a)) -> preserves field (bind c k).
Proof.
  intros Hc Hk st. unfold bind. specialize (Hc st).
  destruct (c st) as [[msg | a] st']; simpl in *; [exact Hc |].
  now rewrite Hk.
Qed.

Lemma preserves_try_except {A} (body : M L A) (handler : string -> M L A) :
  preserves field body -> (forall e, preserves field (handler e)) ->
  preserves field (try_except body handler).
Proof.
  intros Hb Hh st. unfold try_except. specialize (Hb st).
  destruct (body st) as [[msg | a] st']; simpl in *; [| exact Hb].
  now rewrite Hh.
Qed.

Lemma preserves_preprocess_data df :
  (forall fs a, field (set_features L fs a) = field a) ->
  (forall a, field (count_preprocess_run L a) = field a) ->
  preserves field (preprocess_data df).
Proof.
  intros Hf Hc. unfold preprocess_data.
  apply preserves_bind; [now apply preserves_modify_self |]. intros _.
  destruct (empty df); [apply preserves_ret |].
  apply preserves_bind; [| intros _; apply preserves_ret].
  apply preserves_modify_self. intros a. apply Hf.
Qed.
End Frame.

Ltac frame :=
  repeat first
    [ apply preserves_ret
    | apply preserves_call
    | apply preserves_datetime_now
    | apply preserves_dump
    | apply preserves_preprocess_data; intros; reflexivity
    | apply preserves_modify_self; intros ?; reflexivity
    | apply preserves_bind; [| intros ?]
    | apply preserves_try_except; [| intros ?]
    | match goal with
      | |- preserves _ (match ?x with pair _ _ => _ end) => destruct x
      | |- preserves _ (if ?b then _ else _) => destruct b
      | |- preserves _ (match ?x with Some _ => _ | None => _ end) => destruct x
      | |- preserves _ (match ?x with Ok _ => _ | Raise _ => _ end) => destruct x
      end ].

(** X9. Each training method writes no model but its own, and the two
    analyses write none, whatever the table and whatever the libraries
    return or raise. *)
Theorem methods_write_their_own_model
  (L : Libs) (df : DataFrame) (contamination : Q) (timespan_days min_attacks : Z) :
  (preserves anomaly_model (train_clustering_model (L := L) df) /\
   preserves prediction_model (train_clustering_model (L := L) df)) /\
  (preserves clustering_model (train_anomaly_detection_model (L := L) df contamination) /\
   preserves prediction_model (train_anomaly_detection_model (L := L) df contamination)) /\
  (preserves clustering_model (train_target_prediction_model (L := L) df) /\
   preserves anomaly_model (train_target_prediction_model (L := L) df)) /\
  (preserves clustering_model (analyze_temporal_patterns (L := L) df) /\
   preserves anomaly_model (analyze_temporal_patterns (L := L) df) /\
   preserves prediction_model (analyze_temporal_patterns (L := L) df)) /\
  (preserves clustering_model
     (identify_attack_campaign (L := L) df timespan_days min_attacks) /\
   preserves anomaly_model
     (identify_attack_campaign (L := L) df timespan_days min_attacks) /\
   preserves prediction_model
     (identify_attack_campaign (L := L) df timespan_days min_attacks)).
Proof.
  repeat split.
  all: unfold train_clustering_model, train_anomaly_detection_model,
         train_target_prediction_model, analyze_temporal_patterns,
         identify_attack_campaign.
  all: frame.
Qed.

Lemma method_features {L : Libs} {A} df (k : DataFrame -> M L (Result A)) (st : State L) :
  empty df = false ->
  (forall data, preserves features (k data)) ->
  features (self (snd (try_except (bind (preprocess_data df) k)
                                  (fun e => ret (Failure e)) st)))
  = columns (preprocess_table df).
Proof.
  intros He Hk. unfold try_except, bind. rewrite (preprocess_data_run L df st He).
  cbv beta iota.
  match goal with
  | |- context [k ?d ?s] => specialize (Hk d s); destruct (k d s) as [[msg | r] st'']
  end; simpl in *; exact Hk.
Qed.

(** X10. After any of the five methods has run on a table with at least
    one row, [self.features] holds the column names of the engineered
    table, whether the method succeeded or not. *)
Theorem methods_record_the_engineered_columns
  (L : Libs) (df : DataFrame) (contamination : Q) (timespan_days min_attacks : Z)
  (st : State L) :
  empty df = false ->
  let recorded (st' : State L) := features (self st') = columns (preprocess_table df) in
  recorded (snd (train_clustering_model df st)) /\
  recorded (snd (train_anomaly_detection_model df contamination st)) /\
  recorded (snd (train_target_prediction_model df st)) /\
  recorded (snd (analyze_temporal_patterns df st)) /\
  recorded (snd (identify_attack_campaign df timespan_days min_attacks st)).
Proof.
  intros He recorded. unfold recorded.
  unfold train_clustering_model, train_anomaly_detection_model,
    train_target_prediction_model, analyze_temporal_patterns, identify_attack_campaign.
  rewrite He.
  repeat apply conj; apply (method_features df _ st He); intros data; frame.
Qed.

Lemma methods_record_the_engineered_columns_witness :
  empty two_nights = false /\
  let st := initial_state small_libs T0 in
  let recorded (st' : State small_libs) :=
    features (self st') = columns (preprocess_table two_nights) in
  recorded (snd (train_clustering_model two_nights st)) /\
  recorded (snd (train_anomaly_detection_model two_nights (1 # 10) st)) /\
  recorded (snd (train_target_prediction_model two_nights st)) /\
  recorded (snd (analyze_temporal_patterns two_nights st)) /\
  recorded (snd (identify_attack_campaign two_nights 7 3 st)).
Proof.
  split; [reflexivity |].
  exact (methods_record_the_engineered_columns small_libs two_nights (1 # 10) 7 3
           (initial_state small_libs T0) eq_refl).
Defined.

(** ** Anomaly detection *)

Lemma anomaly_success_parts (L : Libs) df c (st st' : State L) p :
  train_anomaly_detection_model df c st = (Ok (Success p), st') ->
  let data := AnomalyResult.data_with_scores p in
  let flags := map (fun r => is_anomaly (marks r)) (rows data) in
  empty df = false /\
  (exists scores predictions data1,
      assign_values "anomaly_score" set_anomaly_score scores (preprocess_table df)
      = Ok data1 /\
      assign_values "is_anomaly" set_is_anomaly
        (map (fun x => if x =? -1 then 1 else 0) predictions) data1 = Ok data) /\
  AnomalyResult.anomaly_percentage p
  = (if 0 <? len data
     then (inject_Z (sum_Z flags) / inject_Z (len data) * inject_Z 100)%Q
     else 0%Q) /\
  AnomalyResult.anomaly_count p = sum_Z flags /\
  AnomalyResult.anomalous_data p
  = mkDataFrame (columns data)
      (sort_by (fun x y => Qle_bool (anomaly_score (marks x)) (anomaly_score (marks y)))
               (flagged data)).
Proof.
  unfold train_anomaly_detection_model. destruct (empty df) eqn:He.
  - intros H. apply ret_ok in H. destruct H; discriminate.
  - intros H. apply try_except_success in H.
    run H. apply ret_ok in H. destruct H as (H & _). injection H as ->.
    cbn [AnomalyResult.data_with_scores AnomalyResult.anomaly_percentage
         AnomalyResult.anomaly_count AnomalyResult.anomalous_data].
    split; [reflexivity |]. split; [eauto |]. auto.
Qed.

Lemma zip_rows_is_anomaly flags rs :
  List.length flags = List.length rs ->
  map (fun r => is_anomaly (marks r)) (zip_rows set_is_anomaly flags rs) = flags.
Proof.
  revert rs. induction flags as [|l flags IH]; intros [|r rs] Hlen; simpl in *;
    try discriminate; try reflexivity.
  f_equal. apply IH. now injection Hlen.
Qed.

Lemma sum_Z_flags (l : list Z) :
  Forall (fun x => x = 0 \/ x = 1) l -> sum_Z l = count_if (fun x => x =? 1) l.
Proof.
  induction 1 as [| x l Hx _ IH]; [reflexivity |].
  rewrite sum_Z_cons, count_if_cons, IH. destruct Hx as [-> | ->]; reflexivity.
Qed.

Lemma sort_asc_Q_sorted {A} (key : A -> Q) (l : list A) :
  StronglySorted (fun a b => (key a <= key b)%Q)
                 (sort_by (fun x y => Qle_bool (key x) (key y)) l).
Proof.
  assert (Hs : Sorted (fun a b => (key a <= key b)%Q)
                      (sort_by (fun x y => Qle_bool (key x) (key y)) l)).
  { eapply Sorted_ind with
      (P := fun l => Sorted (fun a b => (key a <= key b)%Q) l);
      [constructor | | apply (sort_by_sorted (fun x y => Qle_bool (key x) (key y)))].
    - intros a l0 _ IH Hhd. constructor; [exact IH |].
      destruct Hhd; constructor. now apply Qle_bool_iff.
    - intros a b. destruct (Qlt_le_dec (key a) (key b)) as [Hlt | Hle];
        [left | right]; apply Qle_bool_iff; [now apply Qlt_le_weak | exact Hle]. }
  apply Sorted_StronglySorted; [| exact Hs].
  intros a b c Hab Hbc. eapply Qle_trans; eassumption.
Qed.

(** X11. In a successful anomaly result every row of [data_with_scores]
    carries the flag 0 or 1, [anomaly_count] is the number of rows flagged
    1, [anomalous_data] holds exactly those rows, the most anomalous (lowest
    score) first, and [anomaly_percentage] is a hundred times the share of
    flagged rows among the rows of the input, a value from 0 to 100. *)
Theorem anomaly_result_counts
  (L : Libs) (df : DataFrame) (contamination : Q) (st st' : State L)
  (p : AnomalyResult.t) :
  train_anomaly_detection_model df contamination st = (Ok (Success p), st') ->
  let data := AnomalyResult.data_with_scores p in
  let anomalous := rows (AnomalyResult.anomalous_data p) in
  len data = len df /\ 0 < len df /\
  Forall (fun r => is_anomaly (marks r) = 0 \/ is_anomaly (marks r) = 1) (rows data) /\
  AnomalyResult.anomaly_count p = Z.of_nat (List.length (flagged data)) /\
  Permutation anomalous (flagged data) /\
  StronglySorted (fun a b => (anomaly_score (marks a) <= anomaly_score (marks b))%Q)
                 anomalous /\
  (AnomalyResult.anomaly_percentage p
   == inject_Z (AnomalyResult.anomaly_count p) / inject_Z (len df) * inject_Z 100)%Q /\
  (0 <= AnomalyResult.anomaly_percentage p <= 100)%Q.
Proof.
  intros H data anomalous.
  destruct (anomaly_success_parts L df contamination st st' p H)
    as (He & (scores & predictions & data1 & E1 & E2) & Hpct & Hcount & Hrows).
  fold data in E2, Hpct, Hcount, Hrows. unfold anomalous. rewrite Hrows. cbn [rows].
  clear anomalous Hrows H.
  apply assign_values_ok in E1. destruct E1 as (Hlen1 & Hrows1).
  apply assign_values_ok in E2. destruct E2 as (Hlen2 & Hrows2).
  assert (Hlen : len data = len df).
  { unfold len. rewrite Hrows2, length_zip_rows by exact Hlen2.
    rewrite Hrows1, length_zip_rows by exact Hlen1.
    now rewrite length_rows_preprocess_table. }
  assert (Hpos : 0 < len df).
  { unfold len. unfold empty in He. destruct (rows df); [discriminate | simpl; lia]. }
  assert (Hflags : Forall (fun x => x = 0 \/ x = 1)
                          (map (fun r => is_anomaly (marks r)) (rows data))).
  { rewrite Hrows2, zip_rows_is_anomaly by exact Hlen2.
    apply Forall_forall. intros x Hx. apply in_map_iff in Hx.
    destruct Hx as (y & <- & _). destruct (y =? -1); auto. }
  assert (Hsum : sum_Z (map (fun r => is_anomaly (marks r)) (rows data))
                 = Z.of_nat (List.length (flagged data))).
  { rewrite (sum_Z_flags _ Hflags), count_if_map. reflexivity. }
  rewrite Hcount, Hsum in *.
  split; [exact Hlen |]. split; [exact Hpos |].
  split; [now apply Forall_map in Hflags |].
  split; [reflexivity |].
  split; [apply sort_by_perm |].
  split; [apply (sort_asc_Q_sorted (fun r => anomaly_score (marks r))) |].
  rewrite Hpct, Hlen. destruct (Z.ltb_spec 0 (len df)) as [_ | Hbad]; [| lia].
  split; [reflexivity |].
  apply percentage_bounds; [| exact Hpos].
  rewrite <- Hlen. unfold len, flagged. pose proof (filter_length_le
    (fun r => is_anomaly (marks r) =? 1) (rows data)). lia.
Qed.

Lemma anomaly_result_counts_witness :
  exists p st',
    train_anomaly_detection_model two_nights (1 # 10) (initial_state small_libs T0)
    = (Ok (Success p), st') /\
    let data := AnomalyResult.data_with_scores p in
    let anomalous := rows (AnomalyResult.anomalous_data p) in
    len data = len two_nights /\ 0 < len two_nights /\
    Forall (fun r => is_anomaly (marks r) = 0 \/ is_anomaly (marks r) = 1) (rows data) /\
    AnomalyResult.anomaly_count p = Z.of_nat (List.length (flagged data)) /\
    Permutation anomalous (flagged data) /\
    StronglySorted (fun a b => (anomaly_score (marks a) <= anomaly_score (marks b))%Q)
                   anomalous /\
    (AnomalyResult.anomaly_percentage p
     == inject_Z (AnomalyResult.anomaly_count p) / inject_Z (len two_nights)
        * inject_Z 100)%Q /\
    (0 <= AnomalyResult.anomaly_percentage p <= 100)%Q.
Proof.
  destruct (train_anomaly_detection_model two_nights (1 # 10)
              (initial_state small_libs T0))
    as [[m | [m | p]] st'] eqn:E; try (vm_compute in E; discriminate).
  exists p, st'. split; [reflexivity |].
  exact (anomaly_result_counts small_libs two_nights (1 # 10)
           (initial_state small_libs T0) st' p E).
Defined.

(** ** Target prediction *)

(** X12. On a table with at least one row that lacks the column the
    method needs, [train_target_prediction_model] (target_country) and
    [analyze_temporal_patterns] (timestamp) return their failure message
    after the feature engineer has run and before any library is called:
    the state they leave is the state [preprocess_data] leaves. *)
Theorem missing_required_column
  (L : Libs) (df : DataFrame) (st : State L) :
  empty df = false ->
  (has_col "target_country" df = false ->
   train_target_prediction_model df st
   = (Ok (Failure "Target country column is required for prediction"),
      snd (preprocess_data df st))) /\
  (has_col "timestamp" df = false ->
   analyze_temporal_patterns df st
   = (Ok (Failure "Timestamp column is required for temporal analysis"),
      snd (preprocess_data df st))).
Proof.
  intros He. split; intros Hcol.
  - unfold train_target_prediction_model. rewrite He. unfold try_except, bind.
    rewrite (preprocess_data_run L df st He). cbv beta iota.
    rewrite has_col_preprocess_table by (exact He || reflexivity).
    rewrite Hcol. reflexivity.
  - unfold analyze_temporal_patterns. rewrite He. unfold try_except, bind.
    rewrite (preprocess_data_run L df st He). cbv beta iota.
    rewrite has_col_preprocess_table by (exact He || reflexivity).
    rewrite Hcol. reflexivity.
Qed.

Lemma missing_required_column_witness :
  empty bare_event = false /\
  has_col "target_country" bare_event = false /\
  has_col "timestamp" bare_event = false /\
  train_target_prediction_model bare_event (initial_state small_libs T0)
  = (Ok (Failure "Target country column is required for prediction"),
     snd (preprocess_data bare_event (initial_state small_libs T0))) /\
  analyze_temporal_patterns bare_event (initial_state small_libs T0)
  = (Ok (Failure "Timestamp column is required for temporal analysis"),
     snd (preprocess_data bare_event (initial_state small_libs T0))).
Proof.
  split; [reflexivity |]. split; [reflexivity |]. split; [reflexivity |].
  destruct (missing_required_column small_libs bare_event
              (initial_state small_libs T0) eq_refl) as (Hp & Ht).
  split; [exact (Hp eq_refl) | exact (Ht eq_refl)].
Defined.

(** *** [dict(zip(names, importances))] *)

Lemma dict_set_keys k v d k' :
  In k' (map fst (dict_set k v d)) <-> k' = k \/ In k' (map fst d).
Proof.
  induction d as [|[k0 v0] d IH]; simpl.
  - intuition.
  - destruct (String.eqb_spec k k0) as [-> | Hne]; simpl; [intuition |].
    rewrite IH. intuition.
Qed.

Lemma dict_set_NoDup k v d : NoDup (map fst d) -> NoDup (map fst (dict_set k v d)).
Proof.
  induction d as [|[k0 v0] d IH]; simpl; intros H.
  - constructor; [intros [] | constructor].
  - apply NoDup_cons_iff in H. destruct H as (Hnotin & Hd).
    destruct (String.eqb_spec k k0) as [-> | Hne]; simpl.
    + now constructor.
    + constructor; [| now apply IH].
      rewrite dict_set_keys. intros [-> | Hin]; [congruence | contradiction].
Qed.

Lemma dict_set_In k v d e :
  In e (dict_set k v d) -> e = (k, v) \/ In e d.
Proof.
  induction d as [|[k0 v0] d IH]; simpl.
  - intuition.
  - destruct (String.eqb k k0); simpl; intuition.
Qed.

Lemma dict_set_same k v d : NoDup (map fst d) -> In (k, v) (dict_set k v d).
Proof.
  induction d as [|[k0 v0] d IH]; simpl; intros H; [now left |].
  apply NoDup_cons_iff in H. destruct H as (_ & Hd).
  destruct (String.eqb k k0); simpl; auto.
Qed.

Lemma dict_set_other k v d k' v' :
  k' <> k -> In (k, v) d -> In (k, v) (dict_set k' v' d).
Proof.
  intros Hne. induction d as [|[k0 v0] d IH]; simpl; [auto |].
  intros [E | Hin].
  - injection E as -> ->. destruct (String.eqb_spec k' k); [congruence | now left].
  - destruct (String.eqb k' k0); simpl; auto.
Qed.

Section DictOfZip.
Let step (d : list (string * Q)) (kv : string * Q) := dict_set (fst kv) (snd kv) d.

Lemma fold_dict_NoDup kvs d :
  NoDup (map fst d) -> NoDup (map fst (fold_left step kvs d)).
Proof.
  revert d. induction kvs as [|kv kvs IH]; intros d H; simpl; [exact H |].
  apply IH. now apply dict_set_NoDup.
Qed.

Lemma fold_dict_keys kvs d k :
  In k (map fst (fold_left step kvs d)) <-> In k (map fst kvs) \/ In k (map fst d).
Proof.
  revert d. induction kvs as [|kv kvs IH]; intros d; simpl; [intuition |].
  rewrite IH. unfold step. rewrite dict_set_keys. intuition.
Qed.

Lemma fold_dict_In kvs d e :
  In e (fold_left step kvs d) -> In e kvs \/ In e d.
Proof.
  revert d. induction kvs as [|kv kvs IH]; intros d; simpl; [auto |].
  intros H. apply IH in H. destruct H as [H | H]; [auto |].
  apply dict_set_In in H. destruct H as [-> | H]; [| auto].
  left. left. now destruct kv.
Qed.

Lemma fold_dict_keeps kvs d k v :
  ~ In k (map fst kvs) -> In (k, v) d -> In (k, v) (fold_left step kvs d).
Proof.
  revert d. induction kvs as [|[k' v'] kvs IH]; intros d Hnotin Hin; simpl; [exact Hin |].
  simpl in Hnotin. apply IH; [tauto |].
  apply dict_set_other; [| exact Hin]. cbn [fst]. intros E. subst k'. tauto.
Qed.

(** The value kept for a key is the one of its last occurrence. *)
Lemma fold_dict_last before k v after d :
  NoDup (map fst d) ->
  ~ In k (map fst after) ->
  In (k, v) (fold_left step (before ++ (k, v) :: after) d).
Proof.
  intros Hd Hnotin. rewrite fold_left_app. simpl.
  apply fold_dict_keeps; [exact Hnotin |].
  apply dict_set_same. now apply fold_dict_NoDup.
Qed.
End DictOfZip.

Lemma map_fst_combine {A B} (l : list A) (l' : list B) :
  List.length l' = List.length l -> map fst (combine l l') = l.
Proof.
  revert l'. induction l as [|x l IH]; intros [|y l'] H; simpl in *;
    try discriminate; try reflexivity.
  f_equal. apply IH. now injection H.
Qed.

Lemma dict_of_zip_NoDup names imps : NoDup (map fst (dict_of_zip names imps)).
Proof. unfold dict_of_zip. apply fold_dict_NoDup. constructor. Qed.

Lemma dict_of_zip_In names imps e :
  In e (dict_of_zip names imps) -> In e (combine names imps).
Proof.
  unfold dict_of_zip. intros H. apply fold_dict_In in H. destruct H as [H | []]. exact H.
Qed.

Lemma dict_of_zip_keys names imps k :
  List.length imps = List.length names ->
  (In k (map fst (dict_of_zip names imps)) <-> In k names).
Proof.
  intros Hlen. unfold dict_of_zip. rewrite fold_dict_keys. simpl.
  rewrite map_fst_combine by exact Hlen. tauto.
Qed.

(** X13. The feature importances reported by
    [train_target_prediction_model] (lines 297-309): nothing when the
    classifier gives one importance too many or too few; otherwise at most
    ten (name, importance) pairs of the zip, with distinct names, the most
    important first.  A name given twice counts once, with its last
    importance, and every name left out is no more important than the ones
    kept; none is left out when there are fewer than ten. *)
Theorem feature_importances_top_ten (names : list string) (importances : list Q) :
  match top_importances names importances with
  | None => List.length importances <> List.length names
  | Some top =>
      List.length importances = List.length names /\
      (List.length top <= 10)%nat /\
      NoDup (map fst top) /\
      StronglySorted (fun a b => (snd b <= snd a)%Q) top /\
      incl top (combine names importances) /\
      exists rest,
        (forall k, In k (map fst (top ++ rest)) <-> In k names) /\
        (forall before k v after,
            combine names importances = before ++ (k, v) :: after ->
            ~ In k (map fst after) ->
            In (k, v) (top ++ rest)) /\
        (forall t r, In t top -> In r rest -> (snd r <= snd t)%Q) /\
        (rest = [] \/ List.length top = 10%nat)
  end.
Proof.
  unfold top_importances.
  destruct (Nat.eqb (List.length importances) (List.length names)) eqn:Elen.
  2: { now apply Nat.eqb_neq in Elen. }
  apply Nat.eqb_eq in Elen.
  set (dict := dict_of_zip names importances).
  set (sorted := sort_desc_Q snd dict).
  assert (Hperm : Permutation sorted dict) by apply sort_by_perm.
  assert (Hsplit : firstn 10 sorted ++ skipn 10 sorted = sorted) by apply firstn_skipn.
  assert (Hsorted : StronglySorted (fun a b => (snd b <= snd a)%Q) sorted)
    by apply sort_desc_Q_sorted.
  split; [exact Elen |]. split; [apply firstn_le_length |]. split; [| split; [| split]].
  - assert (Hnd : NoDup (map fst sorted)).
    { apply (Permutation_NoDup (Permutation_map fst (Permutation_sym Hperm))).
      apply dict_of_zip_NoDup. }
    rewrite <- Hsplit, map_app in Hnd. now apply NoDup_app_remove_r in Hnd.
  - rewrite <- Hsplit in Hsorted. clear - Hsorted.
    induction (firstn 10 sorted) as [|x l IH]; [constructor |].
    simpl in Hsorted. apply StronglySorted_inv in Hsorted. destruct Hsorted as (Hs & Hall).
    constructor; [now apply IH |].
    apply Forall_app in Hall. tauto.
  - intros e He. apply dict_of_zip_In.
    apply (Permutation_in _ Hperm). rewrite <- Hsplit. apply in_or_app. now left.
  - exists (skipn 10 sorted). rewrite Hsplit. split; [| split; [| split]].
    + intros k. rewrite <- (dict_of_zip_keys names importances k Elen). fold dict.
      split; apply Permutation_in; [| apply Permutation_sym]; now apply Permutation_map.
    + intros before k v after Hc Hnotin.
      apply (Permutation_in _ (Permutation_sym Hperm)).
      unfold dict, dict_of_zip. rewrite Hc.
      apply fold_dict_last; [constructor | exact Hnotin].
    + intros t r Ht Hr.
      apply (StronglySorted_app_inv (fun a b => (snd b <= snd a)%Q)
               (firstn 10 sorted) (skipn 10 sorted)); [| exact Ht | exact Hr].
      now rewrite Hsplit.
    + destruct (Nat.le_gt_cases (List.length sorted) 10) as [Hle | Hgt].
      * left. now apply skipn_all2.
      * right. apply firstn_length_le. lia.
Qed.

(** ** Temporal analysis *)

Lemma analyze_temporal_patterns_parts (L : Libs) df (st st' : State L) p :
  analyze_temporal_patterns df st = (Ok (Success p), st') ->
  let rs := rows (preprocess_table df) in
  TemporalResult.hourly_pattern p = group_sizes (fun r => dt_hour (timestamp r)) rs /\
  TemporalResult.daily_pattern p = group_sizes (fun r => dt_dayofweek (timestamp r)) rs /\
  TemporalResult.monthly_pattern p = group_sizes (fun r => dt_month (timestamp r)) rs /\
  idxmax (TemporalResult.hourly_pattern p) = Ok (TemporalResult.peak_hour p) /\
  (exists d, idxmax (TemporalResult.daily_pattern p) = Ok d /\
             py_index day_names d = Ok (TemporalResult.peak_day p)) /\
  (exists m, idxmax (TemporalResult.monthly_pattern p) = Ok m /\
             py_index month_names (m - 1) = Ok (TemporalResult.peak_month p)).
Proof.
  unfold analyze_temporal_patterns. destruct (empty df) eqn:He.
  - intros H. apply ret_ok in H. destruct H; discriminate.
  - intros H. apply try_except_success in H.
    apply bind_ok in H. destruct H as (data & st0 & E & H).
    apply preprocess_data_ok in E. subst data.
    destruct (negb (has_col "timestamp" (preprocess_table df))).
    + apply ret_ok in H. destruct H; discriminate.
    + run H. apply ret_ok in H. destruct H as (H & _). injection H as ->.
      cbn [TemporalResult.hourly_pattern TemporalResult.daily_pattern
           TemporalResult.monthly_pattern TemporalResult.peak_hour
           TemporalResult.peak_day TemporalResult.peak_month].
      repeat split; eauto.
Qed.

(** *** [groupby(...).size()] and [idxmax] *)

Lemma StronglySorted_le_lt (l : list Z) :
  StronglySorted Z.le l -> NoDup l -> StronglySorted Z.lt l.
Proof.
  induction 1 as [| x l _ IH Hall]; intros Hnd; constructor.
  - apply IH. now apply NoDup_cons_iff in Hnd.
  - apply NoDup_cons_iff in Hnd. destruct Hnd as (Hnotin & _).
    rewrite Forall_forall in *. intros y Hy. specialize (Hall y Hy).
    assert (x <> y) by (intros ->; contradiction). lia.
Qed.

Lemma sort_asc_Z_sorted (l : list Z) : StronglySorted Z.le (sort_asc_Z (fun k => k) l).
Proof.
  assert (Hs : Sorted Z.le (sort_asc_Z (fun k => k) l)).
  { unfold sort_asc_Z.
    eapply Sorted_ind with (P := fun l => Sorted Z.le l);
      [constructor | | apply (sort_by_sorted (fun x y : Z => x <=? y))].
    - intros a l0 _ IH Hhd. constructor; [exact IH |].
      destruct Hhd; constructor. now apply Z.leb_le.
    - intros a b. destruct (Z.le_ge_cases a b); [left | right]; now apply Z.leb_le. }
  apply Sorted_StronglySorted; [| exact Hs].
  intros a b c. lia.
Qed.

Lemma group_sizes_keys_eq key (rs : list Row) :
  map fst (group_sizes key rs) = sort_asc_Z (fun k => k) (unique Z.eqb (map key rs)).
Proof. unfold group_sizes. rewrite map_map. simpl. apply map_id. Qed.

Lemma group_sizes_perm key (rs : list Row) :
  Permutation (group_sizes key rs)
    (map (fun k => (k, count_if (Z.eqb k) (map key rs))) (unique Z.eqb (map key rs))).
Proof.
  unfold group_sizes.
  rewrite (map_ext (fun k => (k, count_if (fun r => key r =? k) rs))
                   (fun k => (k, count_if (Z.eqb k) (map key rs)))).
  - apply Permutation_map. apply sort_by_perm.
  - intros k. f_equal. rewrite count_if_map. apply count_if_ext.
    intros r _. apply Z.eqb_sym.
Qed.

Lemma group_sizes_histogram (field : Z -> Z) (rs : list Row) :
  histogram_of field (map timestamp rs) (group_sizes (fun r => field (timestamp r)) rs).
Proof.
  set (key := fun r => field (timestamp r)).
  assert (Hkeys : map field (map timestamp rs) = map key rs) by now rewrite map_map.
  pose proof (group_sizes_perm key rs) as Hperm.
  assert (Hnd : NoDup (map fst (group_sizes key rs))).
  { rewrite group_sizes_keys_eq.
    apply (Permutation_NoDup (Permutation_sym (sort_by_perm _ _))).
    apply (unique_NoDup Z.eqb Z_eqb_eq'). }
  split; [| split; [| split]].
  - apply StronglySorted_le_lt; [| exact Hnd].
    rewrite group_sizes_keys_eq. apply sort_asc_Z_sorted.
  - intros k. rewrite Hkeys, group_sizes_keys_eq. split; intros H.
    + apply (Permutation_in _ (sort_by_perm _ _)) in H. now apply unique_In in H.
    + apply (Permutation_in _ (Permutation_sym (sort_by_perm _ _))).
      now apply (unique_complete Z.eqb Z_eqb_eq').
  - intros k c H. apply (Permutation_in _ Hperm) in H.
    apply in_map_iff in H. destruct H as (v & Hv & Hin). injection Hv as -> <-.
    apply unique_In in Hin. split.
    + rewrite !count_if_map. apply count_if_ext. intros r _. apply Z.eqb_sym.
    + apply (count_if_pos _ _ k Hin). apply Z.eqb_refl.
  - rewrite (sum_Z_perm _ _ (Permutation_map snd Hperm)), map_map. simpl.
    rewrite (sum_counts_unique Z.eqb Z_eqb_eq'). now rewrite !length_map.
Qed.

Lemma fold_idxmax (l : list (Z * Z)) :
  forall pre best post,
    Forall (fun e => snd e < snd best) pre ->
    Forall (fun e => snd e <= snd best) post ->
    exists pre' post',
      let r := fold_left (fun b kv => if snd b <? snd kv then kv else b) l best in
      pre ++ best :: post ++ l = pre' ++ r :: post' /\
      Forall (fun e => snd e < snd r) pre' /\
      Forall (fun e => snd e <= snd r) post'.
Proof.
  induction l as [|x l IH]; intros pre best post Hpre Hpost; simpl.
  - exists pre, post. rewrite app_nil_r. auto.
  - destruct (Z.ltb_spec (snd best) (snd x)) as [Hlt | Hge].
    + destruct (IH (pre ++ best :: post) x []) as (pre' & post' & Heq & H1 & H2).
      * apply Forall_app. split.
        -- eapply Forall_impl; [| exact Hpre]. simpl. intros; lia.
        -- constructor; [exact Hlt |].
           eapply Forall_impl; [| exact Hpost]. simpl. intros; lia.
      * constructor.
      * exists pre', post'. simpl in Heq. rewrite <- Heq.
        split; [| auto]. rewrite <- !app_assoc. reflexivity.
    + destruct (IH pre best (post ++ [x])) as (pre' & post' & Heq & H1 & H2).
      * exact Hpre.
      * apply Forall_app. split; [exact Hpost |]. constructor; [exact Hge | constructor].
      * exists pre', post'. simpl in Heq. rewrite <- Heq.
        split; [| auto]. rewrite <- app_assoc. reflexivity.
Qed.

(** [idxmax] returns the first index that holds the largest value. *)
Lemma idxmax_first s k :
  idxmax s = Ok k ->
  exists c before after,
    s = before ++ (k, c) :: after /\
    Forall (fun e => snd e < c) before /\
    Forall (fun e => snd e <= c) after.
Proof.
  unfold idxmax. destruct s as [|kv s]; [discriminate |]. intros H. injection H as <-.
  destruct (fold_idxmax s [] kv []) as (pre' & post' & Heq & H1 & H2);
    [constructor | constructor |].
  simpl in Heq, H1, H2.
  destruct (fold_left (fun b kv' => if snd b <? snd kv' then kv' else b) s kv)
    as [k c] eqn:E.
  exists c, pre', post'. simpl in *. auto.
Qed.

Lemma idxmax_peak_of s k :
  StronglySorted Z.lt (map fst s) -> idxmax s = Ok k -> peak_of s k.
Proof.
  intros Hs H. apply idxmax_first in H.
  destruct H as (c & before & after & -> & Hb & Ha).
  exists c. split; [apply in_or_app; right; now left |].
  intros k' c' Hin. apply in_app_or in Hin.
  rewrite Forall_forall in Hb, Ha.
  destruct Hin as [Hin | [Hin | Hin]].
  - specialize (Hb _ Hin). simpl in Hb. lia.
  - injection Hin as <- <-. lia.
  - pose proof (Ha _ Hin) as Hle. simpl in Hle. split; [exact Hle |]. intros _.
    rewrite map_app in Hs. simpl in Hs.
    replace (map fst before ++ k :: map fst after)
      with ((map fst before ++ [k]) ++ map fst after) in Hs
      by (rewrite <- app_assoc; reflexivity).
    assert (k < k'); [| lia].
    apply (StronglySorted_app_inv Z.lt _ _ Hs k k').
    + apply in_or_app. right. now left.
    + apply in_map_iff. exists (k', c'). auto.
Qed.

Lemma py_index_nth names i name :
  py_index names i = Ok name ->
  0 <= i -> nth_error names (Z.to_nat i) = Some name.
Proof.
  unfold py_index. intros H Hi.
  destruct (Z.ltb_spec i 0); [lia |].
  destruct ((0 <=? i) && (i <? Z.of_nat (List.length names))) eqn:E; [| discriminate].
  injection H as <-. apply andb_true_iff in E. destruct E as (_ & E).
  apply Z.ltb_lt in E. apply nth_error_nth'. lia.
Qed.



(** *** The daily series handed to the Fourier transform *)

Lemma NoDup_range a b : NoDup (range a b).
Proof.
  unfold range. apply Finite.Injective_map_NoDup; [| apply seq_NoDup].
  intros x y H. lia.
Qed.

Lemma day_number_mono t1 t2 : t1 <= t2 -> day_number t1 <= day_number t2.
Proof.
  unfold day_number, NS_PER_DAY, NS_PER_SECOND. intros H.
  apply Z.div_le_mono; lia.
Qed.

Lemma ts_min_max_spec data :
  rows data <> [] ->
  In (ts_min data) (ts_column data) /\ In (ts_max data) (ts_column data) /\
  forall t, In t (ts_column data) -> ts_min data <= t <= ts_max data.
Proof.
  intros Hne. unfold ts_min, ts_max, ts_column.
  destruct (rows data) as [|r rs]; [congruence |]. cbn [map].
  destruct (min_Z_spec (timestamp r) (map timestamp rs)) as (Hmin & Hall).
  destruct (max_Z_spec (timestamp r) (map timestamp rs)) as (Hmax & Hall').
  rewrite Forall_forall in Hall, Hall'.
  split; [exact Hmin |]. split; [exact Hmax |]. intros t Ht.
  specialize (Hall t Ht). specialize (Hall' t Ht). lia.
Qed.

Lemma daily_counts_of_spec data :
  rows data <> [] ->
  let first := day_number (ts_min data) in
  let last := day_number (ts_max data) in
  let counts := daily_counts_of data in
  Z.of_nat (List.length counts) = last - first + 1 /\
  sum_Z counts = len data /\
  (forall d, first <= d <= last ->
             nth (Z.to_nat (d - first)) counts 0
             = count_if (fun t => day_number t =? d) (ts_column data)) /\
  1 <= nth 0 counts 0 /\
  1 <= nth (Z.to_nat (last - first)) counts 0.
Proof.
  intros Hne first last counts.
  destruct (ts_min_max_spec data Hne) as (Hmin & Hmax & Hall).
  assert (Hfl : first <= last) by (apply day_number_mono; apply (Hall _ Hmin)).
  assert (Hnth : forall d, first <= d <= last ->
             nth (Z.to_nat (d - first)) counts 0
             = count_if (fun t => day_number t =? d) (ts_column data)).
  { intros d Hd. unfold counts, daily_counts_of. fold (ts_column data). fold first last.
    set (f := fun d0 => count_if (fun t => day_number t =? d0) (ts_column data)).
    rewrite (nth_indep _ 0 (f 0)) by (rewrite length_map, length_range; lia).
    rewrite (map_nth f), nth_range by lia.
    unfold f. apply count_if_ext. intros t _. f_equal. lia. }
  split; [| split; [| split; [exact Hnth | split]]].
  - unfold counts, daily_counts_of. rewrite length_map, length_range.
    fold first last. lia.
  - unfold counts, daily_counts_of. fold (ts_column data). fold first last.
    rewrite (map_ext _ (fun d => count_if (Z.eqb d) (map day_number (ts_column data)))).
    + rewrite (sum_counts_NoDup Z.eqb Z_eqb_eq') by apply NoDup_range.
      rewrite count_if_all.
      * unfold len, ts_column. now rewrite !length_map.
      * intros d Hd. apply (memb_In Z.eqb Z_eqb_eq'). apply In_range.
        apply in_map_iff in Hd. destruct Hd as (t & <- & Ht).
        destruct (Hall t Ht) as (H1 & H2).
        apply day_number_mono in H1. apply day_number_mono in H2.
        fold first in H1. fold last in H2. lia.
    + intros d. rewrite count_if_map. apply count_if_ext. intros t _. apply Z.eqb_sym.
  - replace 0%nat with (Z.to_nat (first - first)) by (rewrite Z.sub_diag; reflexivity).
    rewrite Hnth by lia.
    apply (count_if_pos _ _ (ts_min data) Hmin). apply Z.eqb_refl.
  - rewrite Hnth by lia.
    apply (count_if_pos _ _ (ts_max data) Hmax). apply Z.eqb_refl.
Qed.

(** X15. The series [analyze_temporal_patterns] resamples for the Fourier
    transform (line 381), on a table with at least one row: one count for
    each calendar day from the day of the first event to the day of the last,
    the count of day d being the number of events of the input on that day;
    the counts add up to the number of rows, and the first and the last
    are not zero. *)
Theorem daily_counts_cover_the_events (df : DataFrame) :
  empty df = false ->
  let first := day_number (ts_min df) in
  let last := day_number (ts_max df) in
  let counts := daily_counts_of (preprocess_table df) in
  Z.of_nat (List.length counts) = last - first + 1 /\
  sum_Z counts = len df /\
  (forall d, first <= d <= last ->
             nth (Z.to_nat (d - first)) counts 0
             = count_if (fun t => day_number t =? d) (ts_column df)) /\
  1 <= nth 0 counts 0 /\
  1 <= nth (Z.to_nat (last - first)) counts 0.
Proof.
  intros He.
  assert (Hne : rows (preprocess_table df) <> []).
  { apply rows_nonempty. now apply empty_preprocess_table. }
  pose proof (daily_counts_of_spec (preprocess_table df) Hne) as H.
  rewrite ts_min_preprocess_table, ts_max_preprocess_table,
    ts_column_preprocess_table, len_preprocess_table in H by exact He.
  exact H.
Qed.

Lemma daily_counts_cover_the_events_witness :
  empty two_days_in_three = false /\
  let first := day_number (ts_min two_days_in_three) in
  let last := day_number (ts_max two_days_in_three) in
  let counts := daily_counts_of (preprocess_table two_days_in_three) in
  Z.of_nat (List.length counts) = last - first + 1 /\
  sum_Z counts = len two_days_in_three /\
  (forall d, first <= d <= last ->
             nth (Z.to_nat (d - first)) counts 0
             = count_if (fun t => day_number t =? d) (ts_column two_days_in_three)) /\
  1 <= nth 0 counts 0 /\
  1 <= nth (Z.to_nat (last - first)) counts 0.
Proof.
  split; [reflexivity |].
  exact (daily_counts_cover_the_events two_days_in_three eq_refl).
Defined.

(** ** Campaigns *)

Lemma key_eqb_eq (a b : Key) : key_eqb a b = true <-> a = b.
Proof.
  destruct a as [[s1 t1] a1], b as [[s2 t2] a2]. unfold key_eqb.
  rewrite !andb_true_iff, !String.eqb_eq. split.
  - intros ((-> & ->) & ->). reflexivity.
  - intros H. injection H as -> -> ->. auto.
Qed.

Lemma groupby_keys data :
  map fst (groupby data)
  = sort_by key_leb (unique key_eqb (present (map group_key (rows data)))).
Proof. unfold groupby. rewrite map_map. simpl. apply map_id. Qed.

Lemma groupby_NoDup data : NoDup (map fst (groupby data)).
Proof.
  rewrite groupby_keys.
  apply (Permutation_NoDup (Permutation_sym (sort_by_perm _ _))).
  apply (unique_NoDup key_eqb key_eqb_eq).
Qed.

Lemma groupby_complete data k :
  filter (in_group k) (rows data) <> [] ->
  In (k, filter (in_group k) (rows data)) (groupby data).
Proof.
  intros Hne. unfold groupby. apply in_map_iff. exists k. split; [reflexivity |].
  apply (Permutation_in _ (Permutation_sym (sort_by_perm _ _))).
  apply (unique_complete key_eqb key_eqb_eq). apply In_present.
  destruct (filter (in_group k) (rows data)) as [|r g] eqn:E; [congruence |].
  assert (Hr : In r (filter (in_group k) (rows data))) by (rewrite E; now left).
  apply filter_In in Hr. destruct Hr as (Hr & Hk).
  apply in_map_iff. exists r. split; [| exact Hr].
  unfold in_group in Hk. destruct (group_key r) as [k' |]; [| discriminate].
  simpl in Hk. apply key_eqb_eq in Hk. now subst.
Qed.

(** One turn of the loop appends one campaign, carrying the key of the
    group, or none. *)
Lemma campaign_of_group_key data ts ma k g c :
  In c (campaign_of_group data ts ma (k, g)) -> campaign_key c = k.
Proof.
  unfold campaign_of_group. destruct k as [[s t] a].
  destruct (Z.of_nat (List.length g) <? ma); [intros [] |].
  match goal with |- context [if ?b then _ else _] => destruct b end; [| intros []].
  intros [<- | []]. reflexivity.
Qed.

Lemma campaign_of_group_length data ts ma kg :
  (List.length (campaign_of_group data ts ma kg) <= 1)%nat.
Proof.
  unfold campaign_of_group. destruct kg as [[[s t] a] g].
  destruct (Z.of_nat (List.length g) <? ma); [simpl; lia |].
  match goal with |- context [if ?b then _ else _] => destruct b end; simpl; lia.
Qed.

Lemma campaign_of_group_count data ts ma k g c :
  In c (campaign_of_group data ts ma (k, g)) ->
  Campaign.attack_count c = Z.of_nat (List.length g).
Proof.
  unfold campaign_of_group. destruct k as [[s t] a].
  destruct (Z.of_nat (List.length g) <? ma); [intros [] |].
  match goal with |- context [if ?b then _ else _] => destruct b end; [| intros []].
  intros [<- | []]. simpl. unfold sort_asc_Z. now rewrite sort_by_length.
Qed.

Lemma campaign_of_group_complete data ts ma k g :
  ma <= Z.of_nat (List.length g) ->
  td_days (group_last g - group_first g) <= ts ->
  exists c, campaign_of_group data ts ma (k, g) = [c].
Proof.
  intros Hma Hts. unfold campaign_of_group. destruct k as [[s t] a].
  destruct (Z.ltb_spec (Z.of_nat (List.length g)) ma) as [Hlt | _]; [lia |].
  unfold sort_asc_Z.
  rewrite (group_first_perm _ _ (sort_by_perm _ g)).
  rewrite (group_last_perm _ _ (sort_by_perm _ g)).
  destruct (Z.leb_spec (td_days (group_last g - group_first g)) ts) as [_ | Hgt]; [| lia].
  eauto.
Qed.

Lemma campaign_of_group_mono data ts ts' ma ma' kg :
  ts <= ts' -> ma' <= ma ->
  incl (campaign_of_group data ts ma kg) (campaign_of_group data ts' ma' kg).
Proof.
  intros Hts Hma. unfold campaign_of_group. destruct kg as [[[s t] a] g].
  destruct (Z.ltb_spec (Z.of_nat (List.length g)) ma) as [Hlt | Hge];
    [intros c [] |].
  destruct (Z.ltb_spec (Z.of_nat (List.length g)) ma') as [Hlt' | _]; [lia |].
  match goal with
  | |- context [td_days ?x <=? ts] =>
      destruct (Z.leb_spec (td_days x) ts) as [Hle | Hgt]; [| intros c []];
      destruct (Z.leb_spec (td_days x) ts') as [_ | Hgt']; [| lia]
  end.
  apply incl_refl.
Qed.

(** The campaigns before the final sort. *)
Lemma campaigns_from_perm data ts ma :
  Permutation (campaigns_from data ts ma)
    (if forallb (fun col => has_col col data) STRUCTURAL_COLUMNS
     then flat_map (campaign_of_group data ts ma) (groupby data)
     else []).
Proof. unfold campaigns_from, sort_desc_Z. apply sort_by_perm. Qed.

Lemma flat_map_keys_NoDup data ts ma (groups : list (Key * list Row)) :
  NoDup (map fst groups) ->
  NoDup (map campaign_key (flat_map (campaign_of_group data ts ma) groups)).
Proof.
  induction groups as [|[k g] groups IH]; intros Hnd; cbn [flat_map map fst];
    [constructor |].
  apply NoDup_cons_iff in Hnd. destruct Hnd as (Hnotin & Hnd).
  rewrite map_app.
  pose proof (campaign_of_group_length data ts ma (k, g)) as Hlen.
  destruct (campaign_of_group data ts ma (k, g)) as [|c [|c' l]] eqn:E;
    [now apply IH | | simpl in Hlen; lia].
  simpl. constructor; [| now apply IH].
  assert (Hk : campaign_key c = k).
  { apply (campaign_of_group_key data ts ma k g). rewrite E. now left. }
  rewrite Hk. intros Hin. apply Hnotin.
  apply in_map_iff in Hin. destruct Hin as (c0 & Hc0 & Hin).
  apply in_flat_map in Hin. destruct Hin as ([k0 g0] & Hkg & Hin).
  apply campaign_of_group_key in Hin. apply in_map_iff. exists (k0, g0).
  split; [simpl; congruence | exact Hkg].
Qed.

Lemma count_in_group k (rs : list Row) :
  count_if (key_eqb k) (present (map group_key rs)) = count_if (in_group k) rs.
Proof.
  induction rs as [|r rs IH]; [reflexivity |].
  rewrite count_if_cons, <- IH. unfold in_group. simpl map. unfold present. simpl flat_map.
  fold (present (map group_key rs)).
  destruct (group_key r) as [k' |]; simpl.
  - rewrite count_if_cons.
    replace (key_eqb k k') with (key_eqb k' k); [reflexivity |].
    destruct (key_eqb k' k) eqn:E1, (key_eqb k k') eqn:E2; try reflexivity.
    + apply key_eqb_eq in E1. subst. now rewrite key_eqb_refl in E2.
    + apply key_eqb_eq in E2. subst. now rewrite key_eqb_refl in E1.
  - reflexivity.
Qed.

Lemma flat_map_counts data ts ma (groups : list (Key * list Row)) :
  (forall k g, In (k, g) groups -> g = filter (in_group k) (rows data)) ->
  sum_Z (map Campaign.attack_count (flat_map (campaign_of_group data ts ma) groups))
  <= sum_Z (map (fun k => count_if (key_eqb k) (present (map group_key (rows data))))
                (map fst groups)).
Proof.
  induction groups as [|[k g] groups IH]; intros Hg; cbn [flat_map map fst];
    [reflexivity |].
  rewrite map_app, sum_Z_cons.
  assert (IH' := IH (fun k0 g0 H => Hg k0 g0 (or_intror H))). clear IH.
  pose proof (campaign_of_group_length data ts ma (k, g)) as Hlen.
  pose proof (count_if_bounds (key_eqb k) (present (map group_key (rows data)))) as Hb.
  destruct (campaign_of_group data ts ma (k, g)) as [|c [|c' l]] eqn:E;
    [simpl; lia | | simpl in Hlen; lia].
  simpl. rewrite sum_Z_cons.
  assert (Hc : Campaign.attack_count c = Z.of_nat (List.length g)).
  { apply (campaign_of_group_count data ts ma k g). rewrite E. now left. }
  rewrite Hc, (Hg k g (or_introl eq_refl)), count_in_group.
  apply Z.add_le_mono; [unfold count_if; lia | exact IH'].
Qed.

Lemma campaigns_from_total data ts ma :
  sum_Z (map Campaign.attack_count (campaigns_from data ts ma)) <= len data.
Proof.
  rewrite (sum_Z_perm _ _ (Permutation_map _ (campaigns_from_perm data ts ma))).
  destruct (forallb (fun col => has_col col data) STRUCTURAL_COLUMNS).
  - etransitivity.
    + apply flat_map_counts. intros k g H. now apply groupby_group in H.
    + rewrite (sum_counts_NoDup key_eqb key_eqb_eq) by apply groupby_NoDup.
      pose proof (count_if_bounds
                    (fun y => memb key_eqb y (map fst (groupby data)))
                    (present (map group_key (rows data)))) as Hb.
      assert (Hp : (List.length (present (map group_key (rows data)))
                    <= List.length (rows data))%nat).
      { generalize (rows data). intros rs. induction rs as [|r rs IH]; [simpl; lia |].
        unfold present in *. simpl. destruct (group_key r); simpl; lia. }
      unfold len. lia.
  - unfold sum_Z, len. simpl. lia.
Qed.

Lemma campaigns_from_keys_NoDup data ts ma :
  NoDup (map campaign_key (campaigns_from data ts ma)).
Proof.
  apply (Permutation_NoDup
           (Permutation_map campaign_key (Permutation_sym (campaigns_from_perm data ts ma)))).
  destruct (forallb (fun col => has_col col data) STRUCTURAL_COLUMNS); [| constructor].
  apply flat_map_keys_NoDup, groupby_NoDup.
Qed.

(** X16. Whatever the table and the parameters, no two campaigns of a
    result share their (source country, target country, attack type), and
    the attack counts of the campaigns add up to no more than the number
    of rows of the input: no event is counted in two campaigns. *)
Theorem campaigns_share_no_event
  (L : Libs) (df : DataFrame) (timespan_days min_attacks : Z) (st : State L) :
  let campaigns := campaigns_of (identify_attack_campaign df timespan_days min_attacks st) in
  NoDup (map campaign_key campaigns) /\
  sum_Z (map Campaign.attack_count campaigns) <= len df.
Proof.
  intros campaigns. unfold campaigns.
  assert (Hlen : 0 <= len df) by (unfold len; lia).
  destruct (empty df) eqn:He.
  - unfold identify_attack_campaign. rewrite He. unfold campaigns_of, ret. simpl.
    split; [constructor | exact Hlen].
  - destruct (campaigns_of_identify L df timespan_days min_attacks st) as [-> | ->].
    + split; [constructor | exact Hlen].
    + split; [apply campaigns_from_keys_NoDup |].
      rewrite <- (len_preprocess_table df He). apply campaigns_from_total.
Qed.



Lemma campaigns_from_mono data ts ts' ma ma' :
  ts <= ts' -> ma' <= ma ->
  incl (campaigns_from data ts ma) (campaigns_from data ts' ma').
Proof.
  intros Hts Hma c Hc.
  apply (Permutation_in _ (campaigns_from_perm data ts ma)) in Hc.
  apply (Permutation_in _ (Permutation_sym (campaigns_from_perm data ts' ma'))).
  destruct (forallb (fun col => has_col col data) STRUCTURAL_COLUMNS); [| exact Hc].
  apply in_flat_map in Hc. destruct Hc as (kg & Hkg & Hc).
  apply in_flat_map. exists kg. split; [exact Hkg |].
  now apply (campaign_of_group_mono data ts ts' ma ma' kg Hts Hma).
Qed.



(** *** The fields of a campaign *)

Lemma hd_error_In {A} (l : list A) x : hd_error l = Some x -> In x l.
Proof. destruct l; simpl; intros H; [discriminate | injection H as ->; now left]. Qed.

(** [mode()[0]] is a present value that no other value outnumbers. *)
Lemma mode0_spec col v :
  mode0 col = Some v ->
  In (Some v) col /\
  forall w, count_if (String.eqb w) (present col) <= count_if (String.eqb v) (present col).
Proof.
  unfold mode0. set (vs := present col).
  set (counted := map (fun v0 => (v0, count_if (String.eqb v0) vs)) (unique String.eqb vs)).
  destruct counted as [|c0 cs] eqn:Ec; [discriminate |].
  intros H. apply hd_error_In in H.
  apply (Permutation_in _ (sort_by_perm _ _)) in H.
  apply in_map_iff in H. destruct H as ([v' n] & Hv & Hin). simpl in Hv. subst v'.
  apply filter_In in Hin. destruct Hin as (Hin & Hbest). simpl in Hbest.
  apply Z.eqb_eq in Hbest.
  destruct (max_Z_spec (snd c0) (map snd cs)) as (_ & Hall).
  rewrite <- Hbest in Hall. rewrite Forall_forall in Hall.
  change (snd c0 :: map snd cs) with (map snd (c0 :: cs)) in Hall.
  rewrite <- Ec in Hin, Hall. unfold counted in Hin, Hall.
  apply in_map_iff in Hin. destruct Hin as (v0 & Hv0 & Hin). injection Hv0 as -> <-.
  split; [apply In_present; now apply unique_In in Hin |].
  intros w. destruct (in_dec string_dec w vs) as [Hw | Hw].
  - apply Hall. rewrite map_map. simpl. apply in_map_iff. exists w.
    split; [reflexivity |]. now apply (unique_complete String.eqb String.eqb_eq).
  - rewrite count_if_none; [apply count_if_bounds |].
    intros x Hx. destruct (String.eqb_spec w x); [subst; contradiction | reflexivity].
Qed.

Lemma campaign_of_group_fields data ts ma k g c :
  g = filter (in_group k) (rows data) -> g <> [] ->
  In c (campaign_of_group data ts ma (k, g)) ->
  (Campaign.attack_frequency c * inject_Z (Z.max (Campaign.timespan_days c) 1)
   == inject_Z (Campaign.attack_count c))%Q /\
  0 <= Campaign.timespan_days c /\
  Campaign.start_date c = strftime_date (group_first g) /\
  Campaign.end_date c = strftime_date (group_last g) /\
  NoDup (Campaign.data_sources c) /\
  (forall s, In s (Campaign.data_sources c) -> In s (map (cat_cell DataSource) g)) /\
  (if has_col "data_source" data
   then forall r, In r g -> In (cat_cell DataSource r) (Campaign.data_sources c)
   else Campaign.data_sources c = []) /\
  (Campaign.severity c = "Unknown" \/
   In (Some (Campaign.severity c)) (map severity g) /\
   forall w, count_if (String.eqb w) (present (map severity g))
             <= count_if (String.eqb (Campaign.severity c)) (present (map severity g))).
Proof.
  intros Hg Hne. unfold campaign_of_group. destruct k as [[s t] a].
  destruct (Z.of_nat (List.length g) <? ma); [intros [] |].
  unfold sort_asc_Z.
  rewrite (group_first_perm _ _ (sort_by_perm _ g)).
  rewrite (group_last_perm _ _ (sort_by_perm _ g)).
  rewrite sort_by_length.
  destruct (td_days (group_last g - group_first g) <=? ts); [| intros []].
  intros [<- | []].
  cbn [Campaign.attack_frequency Campaign.timespan_days Campaign.attack_count
       Campaign.start_date Campaign.end_date Campaign.data_sources Campaign.severity].
  set (sorted := sort_by (fun x y => timestamp x <=? timestamp y) g).
  assert (Hperm : Permutation sorted g) by apply sort_by_perm.
  assert (Hopt : forall x y : option string, opt_eqb String.eqb x y = true <-> x = y).
  { intros [x |] [y |]; simpl; try (split; intros; discriminate); [| tauto].
    rewrite String.eqb_eq. split; [now intros -> | now intros [= ->]]. }
  split; [| split; [| split; [reflexivity | split; [reflexivity |]]]].
  - field. intros Hz. unfold Qeq in Hz. simpl in Hz. lia.
  - destruct (group_first_spec g Hne) as (Hin & _).
    destruct (group_last_spec g Hne) as (_ & Hall).
    rewrite Forall_forall in Hall. specialize (Hall _ Hin).
    unfold td_days, NS_PER_DAY, NS_PER_SECOND. apply Z.div_pos; lia.
  - split; [| split; [| split]].
    + destruct (has_col "data_source" data); [| constructor].
      apply (unique_NoDup _ Hopt).
    + intros x Hx. destruct (has_col "data_source" data); [| destruct Hx].
      apply unique_In in Hx.
      apply (Permutation_in _ (Permutation_map _ Hperm)). exact Hx.
    + destruct (has_col "data_source" data); [| reflexivity].
      intros r Hr. apply (unique_complete _ Hopt).
      apply in_map. apply (Permutation_in _ (Permutation_sym Hperm)). exact Hr.
    + destruct (has_col "severity" data && negb (all_missing (map severity sorted)));
        [| now left].
      destruct (mode0 (map severity sorted)) as [v |] eqn:Em; [| now left].
      right. apply mode0_spec in Em. destruct Em as (Hin & Hmax).
      assert (Hp : Permutation (present (map severity sorted)) (present (map severity g))).
      { unfold present. clear - Hperm.
        induction Hperm as [| x l l' _ IH | x y l | l l' l'' _ IH1 _ IH2]; simpl.
        - constructor.
        - now apply Permutation_app_head.
        - rewrite !app_assoc. apply Permutation_app_tail, Permutation_app_comm.
        - now transitivity (flat_map (fun c : option string =>
                                        match c with Some v => [v] | None => [] end)
                                     (map severity l')). }
      split.
      * apply (Permutation_in _ (Permutation_map _ Hperm)). exact Hin.
      * intros w. rewrite <- !(count_if_perm _ _ _ Hp). apply Hmax.
Qed.

Lemma campaigns_of_In (L : Libs) df ts ma (st : State L) c :
  In c (campaigns_of (identify_attack_campaign df ts ma st)) ->
  empty df = false /\
  exists k g,
    g = filter (in_group k) (rows (preprocess_table df)) /\ g <> [] /\
    campaign_key c = k /\
    In c (campaign_of_group (preprocess_table df) ts ma (k, g)).
Proof.
  intros Hc. destruct (empty df) eqn:He.
  - unfold identify_attack_campaign in Hc. rewrite He in Hc. destruct Hc.
  - split; [reflexivity |].
    destruct (campaigns_of_identify L df ts ma st) as [E | E]; rewrite E in Hc;
      [destruct Hc |].
    apply (Permutation_in _ (campaigns_from_perm _ _ _)) in Hc.
    destruct (forallb (fun col => has_col col (preprocess_table df)) STRUCTURAL_COLUMNS);
      [| destruct Hc].
    apply in_flat_map in Hc. destruct Hc as ([k g] & Hkg & Hc).
    destruct (groupby_group _ k g Hkg) as (Hg & Hne).
    exists k, g. split; [exact Hg |]. split; [exact Hne |].
    split; [now apply campaign_of_group_key in Hc | exact Hc].
Qed.

(** X19. The fields of a reported campaign, over its events in the
    engineered table: [attack_frequency] is the attack count divided by
    the whole days spanned, a span of 0 days counting as 1;
    [start_date] and [end_date] are the days of the first and the last
    event; [data_sources] lists each source of an event of the campaign
    once and nothing else (a missing source as 'unknown', the feature
    engineer having filled it), and is empty when the input has no
    data_source column; [severity] is 'Unknown' or a severity of an event
    of the campaign that no other severity outnumbers. *)
Theorem campaign_fields
  (L : Libs) (df : DataFrame) (timespan_days min_attacks : Z) (st : State L)
  (c : Campaign.t) :
  In c (campaigns_of (identify_attack_campaign df timespan_days min_attacks st)) ->
  let g := events_of c (preprocess_table df) in
  (Campaign.attack_frequency c * inject_Z (Z.max (Campaign.timespan_days c) 1)
   == inject_Z (Campaign.attack_count c))%Q /\
  0 <= Campaign.timespan_days c /\
  Campaign.start_date c = strftime_date (group_first g) /\
  Campaign.end_date c = strftime_date (group_last g) /\
  NoDup (Campaign.data_sources c) /\
  (forall s, In s (Campaign.data_sources c) ->
             s <> None /\ In s (map (cat_cell DataSource) g)) /\
  (has_col "data_source" df = true ->
   forall r, In r g -> In (cat_cell DataSource r) (Campaign.data_sources c)) /\
  (has_col "data_source" df = false -> Campaign.data_sources c = []) /\
  (Campaign.severity c = "Unknown" \/
   In (Some (Campaign.severity c)) (map severity g) /\
   forall w, count_if (String.eqb w) (present (map severity g))
             <= count_if (String.eqb (Campaign.severity c)) (present (map severity g))).
Proof.
  intros Hc g.
  destruct (campaigns_of_In L df timespan_days min_attacks st c Hc)
    as (He & k & g' & Hg & Hne & Hk & Hin).
  assert (Heq : g = g') by (unfold g, events_of; now rewrite Hk, Hg).
  rewrite <- Heq in Hg, Hne, Hin. clear Heq g'. clearbody g.
  destruct (campaign_of_group_fields _ _ _ _ _ _ Hg Hne Hin)
    as (Hf & Hspan & Hstart & Hend & Hnd & Hsrc & Hall & Hsev).
  rewrite (has_col_preprocess_table "data_source" df He eq_refl) in Hall.
  split; [exact Hf |]. split; [exact Hspan |]. split; [exact Hstart |].
  split; [exact Hend |]. split; [exact Hnd |].
  split; [| split; [| split; [| exact Hsev]]].
  - intros s Hs. split; [| now apply Hsrc].
    intros ->. destruct (has_col "data_source" df) eqn:Hds.
    + apply Hsrc, in_map_iff in Hs. destruct Hs as (r & Hr & Hrin).
      rewrite Hg in Hrin. apply filter_In in Hrin. destruct Hrin as (Hrin & _).
      apply (fill_unknown_no_missing (cat_column DataSource df)).
      rewrite <- (cat_preprocess_table df DataSource He Hds).
      unfold cat_column. rewrite <- Hr. now apply in_map.
    + rewrite Hall in Hs. destruct Hs.
  - intros Hds. now rewrite Hds in Hall.
  - intros Hds. now rewrite Hds in Hall.
Qed.

Lemma campaign_fields_witness :
  exists c,
    In c (campaigns_of (identify_attack_campaign (six_hourly 20) 30 5
                          (initial_state small_libs T0))) /\
    let g := events_of c (preprocess_table (six_hourly 20)) in
    (Campaign.attack_frequency c * inject_Z (Z.max (Campaign.timespan_days c) 1)
     == inject_Z (Campaign.attack_count c))%Q /\
    0 <= Campaign.timespan_days c /\
    Campaign.start_date c = strftime_date (group_first g) /\
    Campaign.end_date c = strftime_date (group_last g) /\
    NoDup (Campaign.data_sources c) /\
    (forall s, In s (Campaign.data_sources c) ->
               s <> None /\ In s (map (cat_cell DataSource) g)) /\
    (has_col "data_source" (six_hourly 20) = true ->
     forall r, In r g -> In (cat_cell DataSource r) (Campaign.data_sources c)) /\
    (has_col "data_source" (six_hourly 20) = false -> Campaign.data_sources c = []) /\
    (Campaign.severity c = "Unknown" \/
     In (Some (Campaign.severity c)) (map severity g) /\
     forall w, count_if (String.eqb w) (present (map severity g))
               <= count_if (String.eqb (Campaign.severity c)) (present (map severity g))).
Proof.
  destruct (campaigns_of (identify_attack_campaign (six_hourly 20) 30 5
                            (initial_state small_libs T0))) as [|c l] eqn:E;
    [vm_compute in E; discriminate |].
  assert (Hin : In c (c :: l)) by (left; reflexivity).
  exists c. split; [exact Hin |]. rewrite <- E in Hin.
  exact (campaign_fields small_libs (six_hourly 20) 30 5 (initial_state small_libs T0) c Hin).
Defined.

(** ** Prediction with a stored model *)

Lemma columns_sample source_country attack_type t :
  columns (preprocess_table (sample_of source_country attack_type t)) = SAMPLE_COLUMNS.
Proof. reflexivity. Qed.

(** Without a prediction model [predict_attack_likelihood] returns at
    once. *)
Lemma predict_without_a_model
  (L : Libs) (S : StoreLibs L) (source_country attack_type : option string)
  (timeframe_days : Z) (st : State L) :
  prediction_model (self st) = None ->
  predict_attack_likelihood S source_country attack_type timeframe_days st
  = (Ok (Failure "Prediction model not trained"), st).
Proof.
  intros Hm. unfold predict_attack_likelihood, bind, get_self. rewrite Hm. reflexivity.
Qed.

Lemma empty_sample source_country attack_type t :
  empty (sample_of source_country attack_type t) = false.
Proof. reflexivity. Qed.

(** The run of [predict_attack_likelihood] with a model in place. *)
Lemma predict_attack_likelihood_run
  (L : Libs) (S : StoreLibs L) (source_country attack_type : option string)
  (timeframe_days : Z) (st : State L) (m : Model L) :
  prediction_model (self st) = Some m ->
  let t := fst (now L (world st)) in
  let w := snd (now L (world st)) in
  let sample := preprocess_table (sample_of source_country attack_type t) in
  exists r st',
    predict_attack_likelihood S source_country attack_type timeframe_days st = (Ok r, st') /\
    features (self st') = SAMPLE_COLUMNS /\
    prediction_model (self st') = Some m /\
    r = (if truthy S m then
           match predict_proba S m (select SAMPLE_COLUMNS sample) with
           | Raise e => Failure e
           | Ok probabilities =>
               match classes_ S m with
               | Raise e => Failure e
               | Ok class_names =>
                   match class_probabilities class_names probabilities with
                   | Raise e => Failure e
                   | Ok predictions =>
                       Success (Likelihood.mk (firstn 5 (sort_desc_Q snd predictions))
                                  timeframe_days source_country attack_type
                                  (strftime_full (fst (now L w))))
                   end
               end
           end
         else Failure "Prediction model not available").
Proof.
  intros Hm t w sample.
  unfold predict_attack_likelihood. unfold bind at 1. unfold get_self at 1.
  rewrite Hm. unfold try_except. unfold bind at 1. unfold datetime_now at 1.
  destruct (now L (world st)) as [t0 w0] eqn:Enow. cbn [fst snd] in t, w.
  unfold bind at 1.
  rewrite (preprocess_data_run L _ _ (empty_sample source_country attack_type t0)).
  unfold bind at 1. unfold get_self at 1. cbn [self world].
  cbn [prediction_model set_features count_preprocess_run features].
  rewrite Hm. rewrite columns_sample.
  fold t sample.
  destruct (truthy S m).
  2: { unfold ret. eexists _, _. split; [reflexivity |]. cbn [self features prediction_model].
       auto. }
  replace (filter (fun col => mem_str col SAMPLE_COLUMNS
                              && negb (String.eqb col "target_country"))
                  SAMPLE_COLUMNS) with SAMPLE_COLUMNS by reflexivity.
  replace (forallb (fun feature => has_col feature sample) SAMPLE_COLUMNS) with true
    by (unfold has_col, sample; rewrite columns_sample; reflexivity).
  cbn [negb]. unfold bind, call.
  destruct (predict_proba S m (select SAMPLE_COLUMNS sample)) as [e | probabilities].
  { unfold ret. eexists _, _. split; [reflexivity |]. cbn [self features prediction_model].
    auto. }
  destruct (classes_ S m) as [e | class_names].
  { unfold ret. eexists _, _. split; [reflexivity |]. cbn [self features prediction_model].
    auto. }
  destruct (class_probabilities class_names probabilities) as [e | predictions].
  { unfold ret. eexists _, _. split; [reflexivity |]. cbn [self features prediction_model].
    auto. }
  unfold datetime_now. cbn [world self]. fold w.
  destruct (now L w) as [t1 w1]. unfold ret. cbn [fst].
  eexists _, _. split; [reflexivity |]. cbn [self features prediction_model]. auto.
Qed.

(** X20. With a prediction model in place, [predict_attack_likelihood]
    runs the feature engineer on its one-row sample, which overwrites
    [self.features] by the ten columns of the engineered sample whatever
    the training had recorded.  The filter on [self.features] therefore
    keeps every column of the sample, the test for missing features cannot
    fail, and the model is asked for probabilities on the whole sample: the
    outcome is the top five of the class probabilities, or the message of
    the library call that raised, or 'Prediction model not available' for a
    model that is falsy. *)
Theorem prediction_runs_on_the_whole_sample
  (L : Libs) (S : StoreLibs L) (source_country attack_type : option string)
  (timeframe_days : Z) (st : State L) (m : Model L) :
  prediction_model (self st) = Some m ->
  let t := fst (now L (world st)) in
  let w := snd (now L (world st)) in
  let sample := preprocess_table (sample_of source_country attack_type t) in
  exists r st',
    predict_attack_likelihood S source_country attack_type timeframe_days st = (Ok r, st') /\
    features (self st') = SAMPLE_COLUMNS /\
    prediction_model (self st') = Some m /\
    r = (if truthy S m then
           match predict_proba S m (select SAMPLE_COLUMNS sample) with
           | Raise e => Failure e
           | Ok probabilities =>
               match classes_ S m with
               | Raise e => Failure e
               | Ok class_names =>
                   match class_probabilities class_names probabilities with
                   | Raise e => Failure e
                   | Ok predictions =>
                       Success (Likelihood.mk (firstn 5 (sort_desc_Q snd predictions))
                                  timeframe_days source_country attack_type
                                  (strftime_full (fst (now L w))))
                   end
               end
           end
         else Failure "Prediction model not available").
Proof. exact (predict_attack_likelihood_run L S source_country attack_type timeframe_days st m). Qed.


Lemma prediction_runs_on_the_whole_sample_witness :
  prediction_model (self trained_state) = Some tt /\
  exists r st',
    predict_attack_likelihood forest_store None (Some "DDoS") 7 trained_state = (Ok r, st') /\
    features (self st') = SAMPLE_COLUMNS /\
    prediction_model (self st') = Some tt /\
    r = Success (Likelihood.mk [("Y", 5 # 10); ("Z", 3 # 10); ("W", 2 # 10)]%Q
                   7 None (Some "DDoS") "2024-01-01 00:00:01").
Proof.
  split; [reflexivity |].
  destruct (prediction_runs_on_the_whole_sample small_libs forest_store None (Some "DDoS") 7
              trained_state tt eq_refl) as (r & st' & Hrun & Hf & Hm & Hr).
  exists r, st'. split; [exact Hrun |]. split; [exact Hf |]. split; [exact Hm |].
  rewrite Hr. vm_compute. reflexivity.
Defined.

(** The first [n] entries of a dictionary in decreasing order of value. *)
Lemma top_n_spec (n : nat) (d : list (string * Q)) :
  NoDup (map fst d) ->
  let top := firstn n (sort_desc_Q snd d) in
  (List.length top <= n)%nat /\
  NoDup (map fst top) /\
  StronglySorted (fun a b => (snd b <= snd a)%Q) top /\
  exists rest,
    Permutation (top ++ rest) d /\
    (forall t r, In t top -> In r rest -> (snd r <= snd t)%Q) /\
    (rest = [] \/ List.length top = n).
Proof.
  intros Hnd top. unfold top. clear top.
  set (sorted := sort_desc_Q snd d).
  assert (Hperm : Permutation sorted d) by apply sort_by_perm.
  assert (Hsplit : firstn n sorted ++ skipn n sorted = sorted) by apply firstn_skipn.
  assert (Hsorted : StronglySorted (fun a b => (snd b <= snd a)%Q) sorted)
    by apply sort_desc_Q_sorted.
  split; [apply firstn_le_length |]. split; [| split].
  - assert (Hnd' : NoDup (map fst sorted)).
    { apply (Permutation_NoDup (Permutation_map fst (Permutation_sym Hperm))). exact Hnd. }
    rewrite <- Hsplit, map_app in Hnd'. now apply NoDup_app_remove_r in Hnd'.
  - rewrite <- Hsplit in Hsorted. clear - Hsorted.
    induction (firstn n sorted) as [|x l IH]; [constructor |].
    simpl in Hsorted. apply StronglySorted_inv in Hsorted. destruct Hsorted as (Hs & Hall).
    constructor; [now apply IH |].
    apply Forall_app in Hall. tauto.
  - exists (skipn n sorted). rewrite Hsplit. split; [exact Hperm |]. split.
    + intros t r Ht Hr.
      apply (StronglySorted_app_inv (fun a b => (snd b <= snd a)%Q)
               (firstn n sorted) (skipn n sorted)); [| exact Ht | exact Hr].
      now rewrite Hsplit.
    + destruct (Nat.le_gt_cases (List.length sorted) n) as [Hle | Hgt].
      * left. now apply skipn_all2.
      * right. apply firstn_length_le. lia.
Qed.

Lemma map_fst_combine_le {A B} (l : list A) (l' : list B) :
  (List.length l <= List.length l')%nat -> map fst (combine l l') = l.
Proof.
  revert l'. induction l as [|x l IH]; intros [|y l'] H; simpl in *;
    try reflexivity; try lia.
  f_equal. apply IH. lia.
Qed.

Lemma class_probabilities_ok class_names probabilities predictions :
  class_probabilities class_names probabilities = Ok predictions ->
  NoDup (map fst predictions) /\
  (forall c q, In (c, q) predictions ->
               exists row rest, probabilities = row :: rest /\
                                In (c, q) (combine class_names row)) /\
  (forall c, In c class_names -> In c (map fst predictions)).
Proof.
  unfold class_probabilities.
  destruct class_names as [|c0 cs].
  { intros [= <-]. split; [constructor |]. split; [intros c q [] | intros c []]. }
  destruct probabilities as [|row rest]; [discriminate |].
  destruct (Nat.leb (List.length (c0 :: cs)) (List.length row)) eqn:Elen; [| discriminate].
  intros [= <-]. apply Nat.leb_le in Elen. split; [apply dict_of_zip_NoDup |]. split.
  - intros c q Hin. exists row, rest. split; [reflexivity |]. now apply dict_of_zip_In.
  - intros c Hc. unfold dict_of_zip. apply fold_dict_keys. left.
    rewrite map_fst_combine_le by exact Elen. exact Hc.
Qed.

(** X21. A successful [predict_attack_likelihood] reports at most five
    target countries, all different and all classes of the model, the most
    likely first; each comes with a probability that the model gave in its
    first row for that class; a class left out is no more likely than the
    ones reported, and none is left out when the model has fewer than five
    classes.  The source country and attack type are returned as they were
    passed, not as the sample has them. *)
Theorem likelihood_predictions
  (L : Libs) (S : StoreLibs L) (source_country attack_type : option string)
  (timeframe_days : Z) (st st' : State L) (p : Likelihood.t) :
  predict_attack_likelihood S source_country attack_type timeframe_days st
  = (Ok (Success p), st') ->
  let top := Likelihood.predictions p in
  (List.length top <= 5)%nat /\
  NoDup (map fst top) /\
  StronglySorted (fun a b => (snd b <= snd a)%Q) top /\
  Likelihood.timeframe_days p = timeframe_days /\
  Likelihood.source_country p = source_country /\
  Likelihood.attack_type p = attack_type /\
  exists m class_names probabilities rest,
    prediction_model (self st) = Some m /\
    classes_ S m = Ok class_names /\
    predict_proba S m
      (select SAMPLE_COLUMNS
         (preprocess_table (sample_of source_country attack_type (fst (now L (world st))))))
    = Ok probabilities /\
    (forall c q, In (c, q) top ->
                 exists row others, probabilities = row :: others /\
                                    In (c, q) (combine class_names row)) /\
    (forall c, In c class_names <-> In c (map fst (top ++ rest))) /\
    (forall t r, In t top -> In r rest -> (snd r <= snd t)%Q) /\
    (rest = [] \/ List.length top = 5%nat).
Proof.
  intros Hrun top.
  destruct (prediction_model (self st)) as [m |] eqn:Hm.
  2: { unfold predict_attack_likelihood, bind, get_self in Hrun. rewrite Hm in Hrun.
       discriminate. }
  destruct (predict_attack_likelihood_run L S source_country attack_type timeframe_days
              st m Hm) as (r & st0 & Hrun' & _ & _ & Hr).
  rewrite Hrun in Hrun'. injection Hrun' as <- _.
  destruct (truthy S m); [| discriminate].
  destruct (predict_proba S m _) as [e | probabilities] eqn:Eproba; [discriminate |].
  destruct (classes_ S m) as [e | class_names] eqn:Ecls; [discriminate |].
  destruct (class_probabilities class_names probabilities) as [e | predictions] eqn:Ecp;
    [discriminate |].
  remember (firstn 5 (sort_desc_Q snd predictions)) as top5 eqn:Etop in Hr.
  injection Hr as Hp. unfold top. rewrite Hp. subst top5.
  cbn [Likelihood.predictions Likelihood.timeframe_days Likelihood.source_country
       Likelihood.attack_type].
  destruct (class_probabilities_ok _ _ _ Ecp) as (Hnd & Hfrom & Hall).
  destruct (top_n_spec 5 predictions Hnd) as (Hlen & Hnd5 & Hsorted & rest & Hperm & Hle & Hfew).
  split; [exact Hlen |]. split; [exact Hnd5 |]. split; [exact Hsorted |].
  repeat (split; [reflexivity |]).
  exists m, class_names, probabilities, rest.
  split; [reflexivity |]. split; [exact Ecls |]. split; [exact Eproba |].
  split; [| split; [| split; [exact Hle | exact Hfew]]].
  - intros c q Hin. apply Hfrom. apply (Permutation_in _ Hperm). apply in_or_app. now left.
  - intros c. split.
    + intros Hc. apply (Permutation_in _ (Permutation_map fst (Permutation_sym Hperm))).
      now apply Hall.
    + intros Hc. apply (Permutation_in _ (Permutation_map fst Hperm)) in Hc.
      apply in_map_iff in Hc. destruct Hc as ([c' q] & <- & Hin).
      destruct (Hfrom c' q Hin) as (row & others & _ & Hcomb).
      now apply in_combine_l in Hcomb.
Qed.

Lemma likelihood_predictions_witness :
  exists p st',
    predict_attack_likelihood forest_store None (Some "DDoS") 7 trained_state
    = (Ok (Success p), st') /\
    let top := Likelihood.predictions p in
    (List.length top <= 5)%nat /\
    NoDup (map fst top) /\
    StronglySorted (fun a b => (snd b <= snd a)%Q) top /\
    Likelihood.timeframe_days p = 7 /\
    Likelihood.source_country p = None /\
    Likelihood.attack_type p = Some "DDoS" /\
    exists m class_names probabilities rest,
      prediction_model (self trained_state) = Some m /\
      classes_ forest_store m = Ok class_names /\
      predict_proba forest_store m
        (select SAMPLE_COLUMNS
           (preprocess_table
              (sample_of None (Some "DDoS") (fst (now small_libs (world trained_state))))))
      = Ok probabilities /\
      (forall c q, In (c, q) top ->
                   exists row others, probabilities = row :: others /\
                                      In (c, q) (combine class_names row)) /\
      (forall c, In c class_names <-> In c (map fst (top ++ rest))) /\
      (forall t r, In t top -> In r rest -> (snd r <= snd t)%Q) /\
      (rest = [] \/ List.length top = 5%nat).
Proof.
  destruct (predict_attack_likelihood forest_store None (Some "DDoS") 7 trained_state)
    as [[e | [e | p]] st'] eqn:E; try (vm_compute in E; discriminate).
  exists p, st'. split; [reflexivity |].
  exact (likelihood_predictions small_libs forest_store None (Some "DDoS") 7
           trained_state st' p E).
Defined.

(** ** The model store *)

(** The outcomes of [load_model]. *)
Lemma load_model_run
  (L : Libs) (S : StoreLibs L) (model_type path : string) (st : State L) :
  exists b st',
    load_model S model_type path st = (Ok b, st') /\
    world st' = world st /\
    (b = true <->
     path_exists S path (world st) = true /\
     (exists m, joblib_load S path (world st) = Ok m) /\
     In model_type MODEL_KINDS) /\
    (b = false -> st' = st) /\
    (forall m, b = true -> joblib_load S path (world st) = Ok m ->
               self st' = set_model model_type m (self st)).
Proof.
  unfold load_model, try_except, bind, get_world, call, modify_self, ret, MODEL_KINDS,
    set_model.
  destruct (path_exists S path (world st)); cbn [negb].
  2: { exists false, st. repeat split; try discriminate; intros; intuition discriminate. }
  destruct (joblib_load S path (world st)) as [e | m].
  { exists false, st. repeat split; try discriminate.
    intros (_ & (m & Hm) & _). discriminate. }
  destruct (String.eqb_spec model_type "clustering") as [-> | H1].
  { eexists true, _. repeat split; simpl; eauto; try discriminate.
    all: try (intros m' _ [= ->]; reflexivity). }
  destruct (String.eqb_spec model_type "anomaly") as [-> | H2].
  { eexists true, _. repeat split; simpl; eauto; try discriminate.
    all: try (intros m' _ [= ->]; reflexivity). }
  destruct (String.eqb_spec model_type "prediction") as [-> | H3].
  { eexists true, _. repeat split; simpl; eauto; try discriminate.
    all: try (intros m' _ [= ->]; reflexivity). }
  exists false, st. repeat split; try discriminate.
  intros (_ & _ & [Hk | [Hk | [Hk | []]]]); congruence.
Qed.

(** X22. [load_model] never raises and never touches the files.  It
    returns True exactly when the file exists, [joblib.load] returns a
    model and the type is one of 'clustering', 'anomaly' and 'prediction';
    the analyzer then holds the loaded model in the slot of that type and
    is otherwise as before.  In every other case, a model loaded under an
    unknown type included, it returns False and the analyzer is
    unchanged. *)
Theorem load_model_outcomes
  (L : Libs) (S : StoreLibs L) (model_type path : string) (st : State L) :
  exists b st',
    load_model S model_type path st = (Ok b, st') /\
    world st' = world st /\
    (b = true <->
     path_exists S path (world st) = true /\
     (exists m, joblib_load S path (world st) = Ok m) /\
     In model_type MODEL_KINDS) /\
    (b = false -> st' = st) /\
    (forall m, b = true -> joblib_load S path (world st) = Ok m ->
               self st' = set_model model_type m (self st)).
Proof. exact (load_model_run L S model_type path st). Qed.

Lemma prediction_model_set_model (L : Libs) kind (m : Model L) (a : Analyzer L) :
  kind <> "prediction"%string ->
  prediction_model (set_model kind m a) = prediction_model a.
Proof.
  intros Hk. unfold set_model.
  destruct (String.eqb kind "clustering"); [reflexivity |].
  destruct (String.eqb kind "anomaly"); [reflexivity |].
  destruct (String.eqb_spec kind "prediction"); [contradiction | reflexivity].
Qed.

(** X23. Loading and predicting.  An analyzer without a prediction model
    answers [predict_attack_likelihood] with 'Prediction model not trained'
    and stays as it is, and it still does so after a [load_model] that
    returned False or loaded a model of another kind.  After a [load_model]
    of kind 'prediction' that returned True, it holds the model read from
    the file, and the prediction goes through it: the feature engineer runs
    on the sample and the analyzer keeps that model. *)
Theorem prediction_after_loading
  (L : Libs) (S : StoreLibs L) (kind path : string)
  (source_country attack_type : option string) (timeframe_days : Z)
  (st st1 : State L) (b : bool) :
  prediction_model (self st) = None ->
  load_model S kind path st = (Ok b, st1) ->
  predict_attack_likelihood S source_country attack_type timeframe_days st
  = (Ok (Failure "Prediction model not trained"), st) /\
  (b = false \/ kind <> "prediction"%string ->
   predict_attack_likelihood S source_country attack_type timeframe_days st1
   = (Ok (Failure "Prediction model not trained"), st1)) /\
  (b = true -> kind = "prediction"%string ->
   exists m r st2,
     joblib_load S path (world st) = Ok m /\
     prediction_model (self st1) = Some m /\
     predict_attack_likelihood S source_country attack_type timeframe_days st1
     = (Ok r, st2) /\
     features (self st2) = SAMPLE_COLUMNS /\
     prediction_model (self st2) = Some m /\
     (truthy S m = false -> r = Failure "Prediction model not available")).
Proof.
  intros Hm Hload.
  destruct (load_model_run L S kind path st) as (b' & st1' & Hrun & _ & Hiff & Hfalse & Hset).
  rewrite Hload in Hrun. injection Hrun as <- <-.
  split; [now apply predict_without_a_model |]. split.
  - intros Hcase. apply predict_without_a_model.
    destruct b.
    + destruct Hcase as [Hb | Hk]; [discriminate |].
      destruct (proj1 Hiff eq_refl) as (_ & (m & Hm') & _).
      rewrite (Hset m eq_refl Hm'), prediction_model_set_model by exact Hk. exact Hm.
    + now rewrite (Hfalse eq_refl).
  - intros -> ->. destruct (proj1 Hiff eq_refl) as (_ & (m & Hm') & _).
    assert (Hm1 : prediction_model (self st1) = Some m)
      by (rewrite (Hset m eq_refl Hm'); reflexivity).
    destruct (predict_attack_likelihood_run L S source_country attack_type timeframe_days
                st1 m Hm1) as (r & st2 & Hrun & Hf & Hm2 & Hr).
    exists m, r, st2. repeat (split; [assumption |]).
    intros Ht. rewrite Ht in Hr. exact Hr.
Qed.

Lemma prediction_after_loading_witness :
  prediction_model (self (initial_state small_libs T0)) = None /\
  (exists st1,
      load_model forest_store "prediction"
        "models/prediction_model_20240101_000000.joblib" (initial_state small_libs T0)
      = (Ok true, st1) /\
      exists m r st2,
        joblib_load forest_store "models/prediction_model_20240101_000000.joblib"
          (world (initial_state small_libs T0)) = Ok m /\
        prediction_model (self st1) = Some m /\
        predict_attack_likelihood forest_store (Some "X") (Some "DDoS") 7 st1
        = (Ok r, st2) /\
        features (self st2) = SAMPLE_COLUMNS) /\
  (exists st1,
      load_model forest_store "clustering" "models/notes.txt" (initial_state small_libs T0)
      = (Ok false, st1) /\
      predict_attack_likelihood forest_store (Some "X") (Some "DDoS") 7 st1
      = (Ok (Failure "Prediction model not trained"), st1)).
Proof.
  split; [reflexivity |]. split.
  - eexists. split; [reflexivity |].
    destruct (prediction_after_loading small_libs forest_store "prediction"
                "models/prediction_model_20240101_000000.joblib" (Some "X") (Some "DDoS") 7
                (initial_state small_libs T0) _ true eq_refl eq_refl)
      as (_ & _ & H).
    destruct (H eq_refl eq_refl) as (m & r & st2 & H1 & H2 & H3 & H4 & _).
    exists m, r, st2. auto.
  - eexists. split; [reflexivity |].
    destruct (prediction_after_loading small_libs forest_store "clustering"
                "models/notes.txt" (Some "X") (Some "DDoS") 7
                (initial_state small_libs T0) _ false eq_refl eq_refl)
      as (_ & H & _).
    apply H. left. reflexivity.
Defined.

(** *** File names *)

Lemma endswith_app (suffix x : string) : endswith suffix (x ++ suffix)%string = true.
Proof.
  induction x as [|c x IH]; simpl.
  - destruct suffix; simpl; now rewrite ?String.eqb_refl.
  - destruct (String.eqb (String c (x ++ suffix)) suffix); [reflexivity | exact IH].
Qed.

Lemma endswith_spec (suffix s : string) :
  endswith suffix s = true <-> exists x, s = (x ++ suffix)%string.
Proof.
  split.
  - induction s as [|c s IH]; simpl.
    + destruct (String.eqb_spec "" suffix) as [<- | _]; [| discriminate].
      intros _. now exists ""%string.
    + destruct (String.eqb_spec (String c s) suffix) as [<- | _].
      * intros _. now exists ""%string.
      * intros H. destruct (IH H) as (x & ->). now exists (String c x).
  - intros (x & ->). apply endswith_app.
Qed.

Lemma startswith_spec (prefix s : string) :
  startswith prefix s = true <-> exists x, s = (prefix ++ x)%string.
Proof.
  unfold startswith. revert s. induction prefix as [|c p IH]; intros s.
  - split; [intros _; now exists s | intros _; destruct s; reflexivity].
  - destruct s as [|c' s]; simpl;
      [split; [discriminate | intros (x & Hx); discriminate] |].
    destruct (Ascii.ascii_dec c c') as [<- | Hne].
    + rewrite IH. split; intros (x & Hx); exists x; [now rewrite Hx | now injection Hx].
    + split; [discriminate | intros (x & Hx); injection Hx; congruence].
Qed.

Lemma append_assoc (a b c : string) : ((a ++ b) ++ c = a ++ (b ++ c))%string.
Proof. induction a as [|x a IH]; simpl; [reflexivity | now rewrite IH]. Qed.

Lemma model_basename_recognised kind t :
  endswith ".joblib" (model_basename kind t) = true /\
  startswith (kind ++ "_model_") (model_basename kind t) = true.
Proof.
  unfold model_basename. split.
  - rewrite <- !append_assoc. apply endswith_app.
  - apply startswith_spec. exists (strftime_compact t ++ ".joblib")%string.
    now rewrite append_assoc.
Qed.

Lemma filter_kind files kind f :
  In f (filter (startswith (kind ++ "_model_")) (filter (endswith ".joblib") files)) <->
  In f files /\
  (exists stem, f = (kind ++ "_model_" ++ stem)%string) /\
  (exists x, f = (x ++ ".joblib")%string).
Proof.
  rewrite !filter_In, startswith_spec, endswith_spec.
  split.
  - intros ((Hin & Hx) & (stem & Hs)). split; [exact Hin |]. split; [| exact Hx].
    exists stem. now rewrite <- append_assoc.
  - intros (Hin & (stem & Hs) & Hx). split; [now split |].
    exists stem. now rewrite append_assoc.
Qed.

(** X24. [get_available_models] never raises and changes nothing.  A
    name is listed under a kind exactly when models/ exists, the listing of
    it returns the name, and the name starts with '<kind>_model_' and ends
    with '.joblib'; no name is listed under two kinds; and the file that a
    training of that kind writes, named after the clock reading, is listed
    under its kind once it is in the directory. *)
Theorem available_models_by_kind (L : Libs) (S : StoreLibs L) (st : State L) :
  exists r,
    get_available_models S st = (Ok r, st) /\
    (forall kind f,
        In kind MODEL_KINDS ->
        (In f (listed r kind) <->
         path_exists S MODEL_DIR (world st) = true /\
         (exists files, listdir S MODEL_DIR (world st) = Ok files /\ In f files) /\
         (exists stem, f = (kind ++ "_model_" ++ stem)%string) /\
         (exists x, f = (x ++ ".joblib")%string))) /\
    (forall k1 k2 f,
        In k1 MODEL_KINDS -> In k2 MODEL_KINDS ->
        In f (listed r k1) -> In f (listed r k2) -> k1 = k2) /\
    (forall kind t files,
        In kind MODEL_KINDS ->
        path_exists S MODEL_DIR (world st) = true ->
        listdir S MODEL_DIR (world st) = Ok files ->
        In (model_basename kind t) files ->
        model_path kind t = (MODEL_DIR ++ "/" ++ model_basename kind t)%string /\
        In (model_basename kind t) (listed r kind)).
Proof.
  assert (Hspec : exists r,
    get_available_models S st = (Ok r, st) /\
    (forall kind f,
        In kind MODEL_KINDS ->
        (In f (listed r kind) <->
         path_exists S MODEL_DIR (world st) = true /\
         (exists files, listdir S MODEL_DIR (world st) = Ok files /\ In f files) /\
         (exists stem, f = (kind ++ "_model_" ++ stem)%string) /\
         (exists x, f = (x ++ ".joblib")%string)))).
  { unfold get_available_models, try_except, bind, get_world, call, ret.
    destruct (path_exists S MODEL_DIR (world st)); cbn [negb].
    2: { exists no_models. split; [reflexivity |]. intros kind f Hk.
         split; [| intros (H & _); discriminate].
         destruct Hk as [<- | [<- | [<- | []]]]; intros []. }
    destruct (listdir S MODEL_DIR (world st)) as [e | files].
    { exists no_models. split; [reflexivity |]. intros kind f Hk. split.
      - destruct Hk as [<- | [<- | [<- | []]]]; intros [].
      - intros (_ & (files & Hf & _) & _). discriminate. }
    eexists. split; [reflexivity |]. intros kind f Hk.
    assert (Hl : In f (filter (startswith (kind ++ "_model_"))
                              (filter (endswith ".joblib") files)) <->
                 In f (listed
                         (AvailableModels.mk
                            (filter (startswith "clustering_model_")
                                    (filter (endswith ".joblib") files))
                            (filter (startswith "anomaly_model_")
                                    (filter (endswith ".joblib") files))
                            (filter (startswith "prediction_model_")
                                    (filter (endswith ".joblib") files)))
                         kind)).
    { destruct Hk as [<- | [<- | [<- | []]]]; reflexivity. }
    rewrite <- Hl, filter_kind. split.
    - intros (Hin & Hs & Hx). split; [reflexivity |]. split; [eauto | now split].
    - intros (_ & (files' & [= <-] & Hin) & Hs & Hx). auto. }
  destruct Hspec as (r & Hrun & Hiff). exists r. split; [exact Hrun |].
  split; [exact Hiff |]. split.
  - intros k1 k2 f Hk1 Hk2 H1 H2.
    apply (Hiff k1 f Hk1) in H1. apply (Hiff k2 f Hk2) in H2.
    destruct H1 as (_ & _ & (s1 & E1) & _). destruct H2 as (_ & _ & (s2 & E2) & _).
    rewrite E1 in E2. clear - Hk1 Hk2 E2.
    destruct Hk1 as [<- | [<- | [<- | []]]]; destruct Hk2 as [<- | [<- | [<- | []]]];
      try reflexivity; simpl in E2; discriminate.
  - intros kind t files Hk Hex Hls Hin. split; [reflexivity |].
    apply (Hiff _ _ Hk). split; [exact Hex |]. split; [eauto |].
    unfold model_basename. split.
    + now exists (strftime_compact t ++ ".joblib")%string.
    + exists (kind ++ "_model_" ++ strftime_compact t)%string.
      now rewrite !append_assoc.
Qed.

(** ** The database side *)

Lemma dict_get_In d key default :
  dict_get d key default = default \/ In (key, dict_get d key default) d.
Proof.
  induction d as [|[k v] d IH]; simpl; [now left |].
  destruct (String.eqb_spec k key) as [-> | _]; [right; now left |].
  destruct IH as [IH | IH]; [now left | right; now right].
Qed.

Lemma dict_get_missing d key default :
  ~ In key (map fst d) -> dict_get d key default = default.
Proof.
  induction d as [|[k v] d IH]; simpl; [reflexivity |]. intros H.
  destruct (String.eqb_spec k key) as [-> | _]; [tauto |]. apply IH. tauto.
Qed.

Lemma dict_get_first d key v default :
  NoDup (map fst d) -> In (key, v) d -> dict_get d key default = v.
Proof.
  induction d as [|[k v0] d IH]; simpl; [intros _ [] |]. intros Hnd Hin.
  apply NoDup_cons_iff in Hnd. destruct Hnd as (Hnotin & Hnd).
  destruct (String.eqb_spec k key) as [-> | Hne].
  - destruct Hin as [[= ->] | Hin]; [reflexivity |].
    exfalso. apply Hnotin. apply in_map_iff. now exists (key, v).
  - destruct Hin as [[= -> ->] | Hin]; [congruence | now apply IH].
Qed.

Lemma region_map_keys : NoDup (map fst region_map) /\ ~ In ""%string (map fst region_map).
Proof.
  split.
  - unfold region_map. cbn [map fst].
    repeat (constructor; [cbn [In]; intuition discriminate |]). constructor.
  - unfold region_map. cbn [map fst In]. intuition discriminate.
Qed.

Lemma region_map_values : incl (map snd region_map) REGIONS.
Proof.
  unfold region_map. cbn [map snd]. intros r Hr. unfold REGIONS.
  cbn [In] in *. intuition (subst; auto 10).
Qed.

Lemma region_in_REGIONS country : In (_get_region_for_country country) REGIONS.
Proof.
  assert (Hunknown : In "Unknown"%string REGIONS) by (unfold REGIONS; simpl; tauto).
  destruct country as [c |]; [| exact Hunknown]. unfold _get_region_for_country.
  destruct (String.eqb c ""); [exact Hunknown |].
  destruct (dict_get_In region_map c "Unknown") as [-> | Hin]; [exact Hunknown |].
  apply region_map_values. apply in_map_iff. now exists (c, dict_get region_map c "Unknown").
Qed.

(** X25. [_get_region_for_country] returns one of eight names.  The
    countries of its table are all different, so each has the region the
    table gives it; a missing country, the empty string and every name
    that is not in the table (the table is case sensitive) have the region
    'Unknown'. *)
Theorem region_for_country (country : option string) :
  In (_get_region_for_country country) REGIONS /\
  (forall c r, country = Some c -> In (c, r) region_map ->
               _get_region_for_country country = r) /\
  (country = None \/ country = Some ""%string \/
   (exists c, country = Some c /\ ~ In c (map fst region_map)) ->
   _get_region_for_country country = "Unknown"%string).
Proof.
  destruct region_map_keys as (Hnd & Hempty).
  split; [apply region_in_REGIONS | split].
  - intros c r -> Hin. unfold _get_region_for_country.
    destruct (String.eqb_spec c "") as [-> | _].
    + exfalso. apply Hempty. apply in_map_iff. now exists (""%string, r).
    + now apply dict_get_first.
  - intros [-> | [-> | (c & -> & Hc)]]; [reflexivity | reflexivity |].
    unfold _get_region_for_country. destruct (String.eqb c ""); [reflexivity |].
    now apply dict_get_missing.
Qed.

(** *** [get_attacks] *)

Lemma start_time_of_cases now time_range :
  match start_time_of now time_range with
  | None => forall r, time_range = Some r -> ~ In r TIME_RANGES
  | Some s =>
      exists r d, time_range = Some r /\ In (r, d) [("Last 24 hours"%string, 1);
                                                   ("Last 7 days"%string, 7);
                                                   ("Last 30 days"%string, 30);
                                                   ("Last 90 days"%string, 90)] /\
                  s = now - timedelta_days d
  end.
Proof.
  unfold start_time_of, given, TIME_RANGES. destruct time_range as [r |].
  2: { intros r [=]. }
  destruct (String.eqb_spec r "") as [-> | _].
  { intros r [= <-]. cbn [In]. intuition discriminate. }
  destruct (String.eqb_spec r "Last 24 hours") as [-> | H1];
    [exists "Last 24 hours"%string, 1; cbn [In]; auto |].
  destruct (String.eqb_spec r "Last 7 days") as [-> | H2];
    [exists "Last 7 days"%string, 7; cbn [In]; auto 6 |].
  destruct (String.eqb_spec r "Last 30 days") as [-> | H3];
    [exists "Last 30 days"%string, 30; cbn [In]; auto 7 |].
  destruct (String.eqb_spec r "Last 90 days") as [-> | H4];
    [exists "Last 90 days"%string, 90; cbn [In]; auto 8 |].
  intros r' [= <-]. cbn [In]. intuition congruence.
Qed.

Lemma get_attacks_In table now time_range region attack_type a :
  In a (get_attacks table now time_range region attack_type) <->
  In a table /\
  in_time_window (start_time_of now time_range) a = true /\
  of_attack_type attack_type a = true /\
  in_region region a = true.
Proof. unfold get_attacks. rewrite !filter_In. tauto. Qed.

Lemma get_attacks_window table now r1 r2 region attack_type :
  (forall a, in_time_window (start_time_of now r1) a = true ->
             in_time_window (start_time_of now r2) a = true) ->
  incl (get_attacks table now r1 region attack_type)
       (get_attacks table now r2 region attack_type).
Proof.
  intros H a. rewrite !get_attacks_In. intros (Hin & Hw & Ht & Hr). auto.
Qed.

(** X26. The time ranges of [get_attacks] nest: what 'Last 24 hours'
    returns is returned for 'Last 7 days', and so on through 'Last 30 days'
    and 'Last 90 days' to no range at all; a range of any other name
    filters nothing; and no range has an upper end: an attack dated after
    the clock reading is returned for every range. *)
Theorem time_ranges_nest
  (table : list Attack.t) (now : Z) (region attack_type : option string) :
  let within r := get_attacks table now r region attack_type in
  incl (within (Some "Last 24 hours"%string)) (within (Some "Last 7 days"%string)) /\
  incl (within (Some "Last 7 days"%string)) (within (Some "Last 30 days"%string)) /\
  incl (within (Some "Last 30 days"%string)) (within (Some "Last 90 days"%string)) /\
  (forall r, incl (within r) (within None)) /\
  (forall r, ~ In r TIME_RANGES -> within (Some r) = within None) /\
  (forall r a, In a (within None) -> now <= Attack.timestamp a -> In a (within r)).
Proof.
  intros within. unfold within.
  assert (Hdays : forall d d' a, d <= d' ->
             in_time_window (Some (now - timedelta_days d)) a = true ->
             in_time_window (Some (now - timedelta_days d')) a = true).
  { intros d d' a Hd. unfold in_time_window, timedelta_days, NS_PER_DAY, NS_PER_SECOND.
    rewrite !Z.leb_le. nia. }
  split; [| split; [| split; [| split; [| split]]]].
  - apply get_attacks_window. intros a. apply (Hdays 1 7). lia.
  - apply get_attacks_window. intros a. apply (Hdays 7 30). lia.
  - apply get_attacks_window. intros a. apply (Hdays 30 90). lia.
  - intros r. apply get_attacks_window. intros a _. reflexivity.
  - intros r Hr. unfold get_attacks.
    pose proof (start_time_of_cases now (Some r)) as Hc.
    destruct (start_time_of now (Some r)) as [s |]; [| reflexivity].
    destruct Hc as (r' & d & [= <-] & Hin & _). exfalso. apply Hr.
    unfold TIME_RANGES. cbn [In] in *.
    intuition (match goal with H : (_, _) = (_, _) |- _ => injection H as <- _ end; auto).
  - intros r a. rewrite !get_attacks_In. intros (Hin & _ & Ht & Hr) Hnow.
    split; [exact Hin |]. split; [| auto].
    pose proof (start_time_of_cases now r) as Hc.
    destruct (start_time_of now r) as [s |]; [| reflexivity].
    destruct Hc as (r' & d & _ & Hd & ->).
    assert (0 <= d) by (cbn [In] in Hd; intuition (match goal with
                          H : (_, _) = (_, _) |- _ => injection H as _ <- end; lia)).
    unfold in_time_window, timedelta_days, NS_PER_DAY, NS_PER_SECOND.
    apply Z.leb_le. nia.
Qed.

Lemma filter_nothing {A} (p : A -> bool) l : (forall x, In x l -> p x = false) -> filter p l = [].
Proof.
  induction l as [|x l IH]; intros H; simpl; [reflexivity |].
  rewrite (H x) by now left. apply IH. intros y Hy. apply H. now right.
Qed.

Lemma filter_everything {A} (p : A -> bool) l : (forall x, p x = true) -> filter p l = l.
Proof.
  intros H. induction l as [|x l IH]; simpl; [reflexivity |]. now rewrite H, IH.
Qed.

Lemma filter_and {A} (p q : A -> bool) l :
  filter q (filter p l) = filter (fun x => p x && q x) l.
Proof.
  induction l as [|x l IH]; simpl; [reflexivity |].
  destruct (p x); simpl; [destruct (q x) |]; now rewrite IH.
Qed.

(** X27. The region and attack-type filters of [get_attacks].  A missing
    filter, the empty string and 'All' select everything.  Any other region
    selects the attacks whose source or target country lies in it, so
    'Unknown' selects the attacks with a missing or unlisted country, and a
    name that is not one of the eight regions selects nothing.  Any other
    attack type selects the attacks of exactly that type; an attack without
    a type is never among them.  The attacks come in the order of the
    table. *)
Theorem region_and_type_filters
  (table : list Attack.t) (now : Z) (time_range region attack_type : option string) :
  let result := get_attacks table now time_range region attack_type in
  (given region = None \/ region = Some "All"%string ->
   result = get_attacks table now time_range None attack_type) /\
  (given attack_type = None \/ attack_type = Some "All"%string ->
   result = get_attacks table now time_range region None) /\
  (forall r, given region = Some r -> r <> "All"%string ->
             (forall a, In a result <->
                        In a (get_attacks table now time_range None attack_type) /\
                        (_get_region_for_country (Attack.source_country a) = r \/
                         _get_region_for_country (Attack.target_country a) = r)) /\
             (~ In r REGIONS -> result = [])) /\
  (forall ty, given attack_type = Some ty -> ty <> "All"%string ->
              forall a, In a result <->
                        In a (get_attacks table now time_range region None) /\
                        Attack.attack_type a = Some ty) /\
  exists keep, result = filter keep table.
Proof.
  intros result. unfold result.
  assert (Hregion : forall r, given region = Some r -> r <> "All"%string ->
            forall a, in_region region a = true <->
                      _get_region_for_country (Attack.source_country a) = r \/
                      _get_region_for_country (Attack.target_country a) = r).
  { intros r Hr Hall a. unfold in_region. rewrite Hr.
    destruct (String.eqb_spec r "All"); [contradiction |].
    unfold mem_str, memb. cbn [existsb]. rewrite orb_false_r, orb_true_iff, !String.eqb_eq.
    split; intros [H | H]; auto. }
  assert (Hnoregion : given region = None \/ region = Some "All"%string ->
                      forall a, in_region region a = true).
  { intros [H | ->] a; unfold in_region; [now rewrite H | reflexivity]. }
  assert (Hnotype : given attack_type = None \/ attack_type = Some "All"%string ->
                    forall a, of_attack_type attack_type a = true).
  { intros [H | ->] a; unfold of_attack_type; [now rewrite H | reflexivity]. }
  split; [| split; [| split; [| split]]].
  - intros H. unfold get_attacks.
    rewrite (filter_everything (in_region region)) by exact (Hnoregion H).
    now rewrite (filter_everything (in_region None)) by reflexivity.
  - intros H. unfold get_attacks.
    rewrite (filter_everything (of_attack_type attack_type)) by exact (Hnotype H).
    now rewrite (filter_everything (of_attack_type None)) by reflexivity.
  - intros r Hr Hall. split.
    + intros a. rewrite !get_attacks_In, (Hregion r Hr Hall).
      assert (in_region None a = true) by reflexivity. tauto.
    + intros Hnot. unfold get_attacks. apply filter_nothing. intros a _.
      destruct (in_region region a) eqn:E; [| reflexivity].
      apply (Hregion r Hr Hall) in E. exfalso. apply Hnot.
      destruct E as [<- | <-]; apply region_in_REGIONS.
  - intros ty Hty Hall a. rewrite !get_attacks_In.
    assert (of_attack_type None a = true) by reflexivity.
    assert (Ht : of_attack_type attack_type a = true <-> Attack.attack_type a = Some ty).
    { unfold of_attack_type. rewrite Hty.
      destruct (String.eqb_spec ty "All"); [contradiction |].
      destruct (Attack.attack_type a) as [x |]; simpl; [| split; discriminate].
      rewrite String.eqb_eq. split; [now intros -> | now intros [= ->]]. }
    tauto.
  - unfold get_attacks. rewrite !filter_and. eauto.
Qed.

(** The sample table through the filters: the attack dated after the
    clock reading falls in the last 24 hours, and 'Unknown' is the region
    of the attacks with a missing or unlisted country. *)
Example get_attacks_examples :
  map Attack.source_country (get_attacks sample_attacks T0 (Some "Last 24 hours") None None)
  = [Some "Japan"] /\
  map Attack.source_country (get_attacks sample_attacks T0 (Some "Last 30 days") None None)
  = [Some "Brazil"; Some "Atlantis"; Some "Japan"] /\
  map Attack.source_country (get_attacks sample_attacks T0 (Some "last 30 days") None None)
  = [Some "China"; Some "Brazil"; Some "Atlantis"; Some "Japan"] /\
  map Attack.source_country (get_attacks sample_attacks T0 None (Some "Unknown") None)
  = [Some "Brazil"; Some "Atlantis"] /\
  map Attack.source_country (get_attacks sample_attacks T0 None (Some "Europe") (Some "DDoS"))
  = [Some "China"].
Proof. repeat split; vm_compute; reflexivity. Qed.

(** *** From the table [attacks] to the training *)

Lemma attacks_to_dataframe_rows attacks :
  rows (attacks_to_dataframe attacks) = map row_of_attack attacks.
Proof. destruct attacks; reflexivity. Qed.

Lemma attacks_to_dataframe_columns attacks :
  attacks <> [] -> columns (attacks_to_dataframe attacks) = ATTACK_COLUMNS.
Proof. destruct attacks; [congruence | reflexivity]. Qed.

Lemma attacks_to_dataframe_empty attacks :
  empty (attacks_to_dataframe attacks) = match attacks with [] => true | _ => false end.
Proof. destruct attacks; reflexivity. Qed.

(** [attacks_to_dataframe] makes one row for each attack, in order,
    with the fields of the attack in the cells of the columns of the
    same name; the table of no attack is empty and has no column.  The data
    source of an attack goes to the column 'source': the table has no
    column 'data_source'. *)
Lemma attacks_table (attacks : list Attack.t) :
  let df := attacks_to_dataframe attacks in
  len df = Z.of_nat (List.length attacks) /\
  (empty df = true <-> attacks = []) /\
  (attacks = [] -> columns df = []) /\
  (attacks <> [] ->
   columns df = ATTACK_COLUMNS /\
   has_col "source" df = true /\ has_col "data_source" df = false) /\
  ts_column df = map Attack.timestamp attacks /\
  cat_column AttackType df = map Attack.attack_type attacks /\
  cat_column SourceCountry df = map Attack.source_country attacks /\
  cat_column TargetCountry df = map Attack.target_country attacks /\
  column_of severity df = map Attack.severity attacks /\
  num_column SourceLatitude df = map Attack.source_latitude attacks /\
  num_column SourceLongitude df = map Attack.source_longitude attacks /\
  num_column TargetLatitude df = map Attack.target_latitude attacks /\
  num_column TargetLongitude df = map Attack.target_longitude attacks.
Proof.
  intros df. unfold df, len, ts_column, cat_column, column_of, num_column.
  rewrite attacks_to_dataframe_rows, attacks_to_dataframe_empty, !map_map, length_map.
  split; [reflexivity |]. split; [destruct attacks; split; congruence |].
  split; [now intros -> |].
  split; [intros Hne; unfold has_col; rewrite attacks_to_dataframe_columns by exact Hne;
          repeat split; reflexivity |].
  repeat split; reflexivity.
Qed.

Lemma train_all_parts (L : Libs) df tf (st : State L) :
  exists r st' (st3 st4 : State L),
    train_all df tf st = (Ok r, st') /\
    TrainingResult.data_size r = len df /\
    TrainingResult.timeframe r = tf /\
    fst (analyze_temporal_patterns df st3) = Ok (TrainingResult.temporal r) /\
    fst (identify_attack_campaign df DEFAULT_TIMESPAN_DAYS DEFAULT_MIN_ATTACKS st4)
    = Ok (TrainingResult.campaigns r).
Proof.
  unfold train_all, bind.
  destruct (train_clustering_model_returns L df st) as (r1 & st1 & ->).
  destruct (train_anomaly_detection_model_returns L df DEFAULT_CONTAMINATION st1)
    as (r2 & st2 & ->).
  destruct (train_target_prediction_model_returns L df st2) as (r3 & st3 & ->).
  destruct (analyze_temporal_patterns_returns L df st3) as (r4 & st4 & E4).
  destruct (identify_attack_campaign_returns L df DEFAULT_TIMESPAN_DAYS DEFAULT_MIN_ATTACKS st4)
    as (r5 & st5 & E5).
  rewrite E4, E5.
  unfold datetime_now, ret. destruct (now L (world st5)) as [t w].
  eexists _, _, st3, st4. rewrite E4, E5. repeat split; reflexivity.
Qed.



(** ** Model file names *)

Lemma calendar_of_the_second t1 t2 :
  t1 / NS_PER_SECOND = t2 / NS_PER_SECOND ->
  day_number t1 = day_number t2 /\
  dt_hour t1 = dt_hour t2 /\
  dt_minute t1 = dt_minute t2 /\
  dt_second t1 = dt_second t2.
Proof.
  unfold day_number, dt_hour, dt_minute, dt_second, NS_PER_DAY, NS_PER_HOUR, NS_PER_SECOND.
  intros H. repeat split; Z.div_mod_to_equations; lia.
Qed.

Lemma strftime_compact_of_the_second t1 t2 :
  t1 / NS_PER_SECOND = t2 / NS_PER_SECOND ->
  strftime_compact t1 = strftime_compact t2.
Proof.
  intros H. destruct (calendar_of_the_second t1 t2 H) as (Hd & Hh & Hm & Hs).
  unfold strftime_compact, dt_year, dt_month, dt_day. now rewrite Hd, Hh, Hm, Hs.
Qed.

(** X29. The file a training writes is named after its kind and the clock
    reading to the second: two models of one kind saved within the same
    second go to the same file, and models of different kinds never do. *)
Theorem model_files_by_kind_and_second (kind1 kind2 : string) (t1 t2 : Z) :
  (kind1 = kind2 -> t1 / NS_PER_SECOND = t2 / NS_PER_SECOND ->
   model_path kind1 t1 = model_path kind2 t2) /\
  (In kind1 MODEL_KINDS -> In kind2 MODEL_KINDS ->
   model_path kind1 t1 = model_path kind2 t2 -> kind1 = kind2).
Proof.
  split.
  - intros -> H. unfold model_path. now rewrite (strftime_compact_of_the_second t1 t2 H).
  - intros H1 H2 E. unfold model_path, MODEL_DIR in E.
    revert E. generalize (strftime_compact t1 ++ ".joblib")%string.
    generalize (strftime_compact t2 ++ ".joblib")%string. intros s2 s1 E.
    destruct H1 as [<- | [<- | [<- | []]]]; destruct H2 as [<- | [<- | [<- | []]]];
      try reflexivity; cbn [append] in E; discriminate.
Qed.

Lemma model_files_by_kind_and_second_witness :
  T0 / NS_PER_SECOND = (T0 + 999999999) / NS_PER_SECOND /\
  model_path "anomaly" T0 = model_path "anomaly" (T0 + 999999999) /\
  (model_path "anomaly" T0 = model_path "clustering" T0 ->
   "anomaly"%string = "clustering"%string).
Proof.
  assert (H : T0 / NS_PER_SECOND = (T0 + 999999999) / NS_PER_SECOND) by reflexivity.
  split; [exact H |]. split.
  - exact (proj1 (model_files_by_kind_and_second "anomaly" "anomaly" T0 (T0 + 999999999))
             eq_refl H).
  - apply (proj2 (model_files_by_kind_and_second "anomaly" "clustering" T0 T0)).
    + right. left. reflexivity.
    + left. reflexivity.
Defined.
